(** * MicroSearch: the x402 paywall of [GET /api/search]

    A shallow embedding of the seller side of the micropaid search
    endpoint: the challenge builder, the signature extractor, the two
    facilitator calls, the search executor with its stub fallback, the
    identity helper and the request handler that sequences them.

    Conventions.
    - A JavaScript string is a [string] holding its UTF-8 bytes; the
      strings of the program are well formed, so that JSON rendering and
      [encodeURIComponent] work byte by byte.
    - A value of type [any]/[unknown] that came out of [JSON.parse] is a
      [Json.t]; [None : option Json.t] is JavaScript's [undefined].
    - [async] functions run to completion one after the other (every call
      is awaited at once), so they are functions in a reader/writer monad
      [Eff]: the reader is the [World] outside the process (environment,
      network, runtime decoders), the writer is the trace of what the
      process did to it. The handler also marks in the trace where each
      operation it awaits starts and what it resolves to. *)

From Stdlib Require Import String Ascii NArith List Bool Lia.
From stdpp Require Import base option list gmap strings pretty.

Set Warnings "-register-all".

Open Scope string_scope.
Open Scope N_scope.
Open Scope list_scope.

(* ===================================================================== *)
(** ** JavaScript strings *)
(* ===================================================================== *)

Module Js.

Definition code (c : ascii) : N := N_of_ascii c.

Definition between (lo hi : N) (c : ascii) : bool :=
  (lo <=? code c) && (code c <=? hi).

Definition is_empty (s : string) : bool :=
  match s with EmptyString => true | String _ _ => false end.

Fixpoint contains_char (c : ascii) (s : string) : bool :=
  match s with
  | EmptyString => false
  | String d r => Ascii.eqb c d || contains_char c r
  end.

(** [s.length > 0], and the truthiness of a string. *)
Definition nonempty (s : string) : bool := negb (is_empty s).

(** [a || d] on an optional string: [undefined] and the empty string are
    falsy. *)
Definition or_default (a : option string) (d : string) : string :=
  match a with
  | Some s => if nonempty s then s else d
  | None => d
  end.

(** [String.prototype.toLowerCase], on the ASCII letters. No character
    outside ASCII lower-cases to an ASCII letter other than [k] and [i],
    so comparisons of the result with an ASCII word free of those two
    letters are exact. *)
Definition lower (c : ascii) : ascii :=
  if between 65 90 c then ascii_of_N (code c + 32) else c.

Fixpoint toLowerCase (s : string) : string :=
  match s with
  | EmptyString => EmptyString
  | String c r => String (lower c) (toLowerCase r)
  end.

(** White space and line terminators of ECMAScript, by UTF-8 length:
    U+0009..U+000D and U+0020; U+00A0; U+1680, U+2000..U+200A, U+2028,
    U+2029, U+202F, U+205F, U+3000 and U+FEFF. *)
Definition ws1 (a : ascii) : bool := between 9 13 a || (code a =? 32).

Definition ws2 (a b : ascii) : bool := (code a =? 194) && (code b =? 160).

Definition ws3 (a b c : ascii) : bool :=
  ((code a =? 225) && (code b =? 154) && (code c =? 128))
  || ((code a =? 226) && (code b =? 128)
      && (between 128 138 c || (code c =? 168) || (code c =? 169)
          || (code c =? 175)))
  || ((code a =? 226) && (code b =? 129) && (code c =? 159))
  || ((code a =? 227) && (code b =? 128) && (code c =? 128))
  || ((code a =? 239) && (code b =? 187) && (code c =? 191)).

Fixpoint trimStart (s : string) : string :=
  match s with
  | EmptyString => EmptyString
  | String a r1 =>
      if ws1 a then trimStart r1
      else match r1 with
           | EmptyString => s
           | String b r2 =>
               if ws2 a b then trimStart r2
               else match r2 with
                    | EmptyString => s
                    | String c r3 => if ws3 a b c then trimStart r3 else s
                    end
           end
  end.

(** [s] is made of white space only. *)
Fixpoint blank (s : string) : bool :=
  match s with
  | EmptyString => true
  | String a r1 =>
      if ws1 a then blank r1
      else match r1 with
           | EmptyString => false
           | String b r2 =>
               if ws2 a b then blank r2
               else match r2 with
                    | EmptyString => false
                    | String c r3 => ws3 a b c && blank r3
                    end
           end
  end.

Fixpoint trimEnd (s : string) : string :=
  match s with
  | EmptyString => EmptyString
  | String a r => if blank s then EmptyString else String a (trimEnd r)
  end.

(** [String.prototype.trim]. *)
Definition trim (s : string) : string := trimEnd (trimStart s).

(** [encodeURIComponent]: the unreserved characters stay, every other
    byte of the UTF-8 form becomes [%XX] in upper-case hexadecimal. *)
Definition unreserved (c : ascii) : bool :=
  between 65 90 c || between 97 122 c || between 48 57 c
  || contains_char c "-_.!~*'()".

Definition digit_of (alphabet : string) (n : N) : ascii :=
  match String.get (N.to_nat n) alphabet with
  | Some c => c
  | None => "?"%char
  end.

Definition HEX : string := "0123456789ABCDEF".
Definition hex : string := "0123456789abcdef".

Definition percent (c : ascii) : string :=
  String "%" (String (digit_of HEX (code c / 16))
                     (String (digit_of HEX (code c mod 16)) EmptyString)).

Fixpoint encodeURIComponent (s : string) : string :=
  match s with
  | EmptyString => EmptyString
  | String c r =>
      (if unreserved c then String c EmptyString else percent c)
      +:+ encodeURIComponent r
  end.

(** The number a string of decimal digits writes; [None] when the string
    is empty or holds anything else. *)
Fixpoint digits_value (acc : N) (s : string) : option N :=
  match s with
  | EmptyString => Some acc
  | String c r =>
      if between 48 57 c then digits_value (acc * 10 + (code c - 48)) r
      else None
  end.

Definition decimal_value (s : string) : option N :=
  if is_empty s then None else digits_value 0 s.

(** [Buffer.from(s).toString("base64")]. *)
Definition B64 : string :=
  "ABCDEFGHIJKLMNOPQRSTUVWXYZabcdefghijklmnopqrstuvwxyz0123456789+/".

Fixpoint base64 (s : string) : string :=
  match s with
  | EmptyString => EmptyString
  | String a EmptyString =>
      String (digit_of B64 (code a / 4))
        (String (digit_of B64 (code a mod 4 * 16)) "==")
  | String a (String b EmptyString) =>
      String (digit_of B64 (code a / 4))
        (String (digit_of B64 (code a mod 4 * 16 + code b / 16))
           (String (digit_of B64 (code b mod 16 * 4)) "="))
  | String a (String b (String c r)) =>
      String (digit_of B64 (code a / 4))
        (String (digit_of B64 (code a mod 4 * 16 + code b / 16))
           (String (digit_of B64 (code b mod 16 * 4 + code c / 64))
              (String (digit_of B64 (code c mod 64)) (base64 r))))
  end.

End Js.

(* ===================================================================== *)
(** ** JSON values *)
(* ===================================================================== *)

Module Json.

(** What [JSON.parse] returns and [JSON.stringify] renders. A number is
    carried by the text [JSON.stringify] gives it (so [-0] is ["0"]); the
    fields of an object are in enumeration order, with distinct keys. *)
Inductive t : Type :=
| Null
| Bool (b : bool)
| Num (repr : string)
| Str (s : string)
| Arr (xs : list t)
| Obj (fields : list (string * t)).

(** JavaScript truthiness of a parsed value. *)
Definition truthy (v : t) : bool :=
  match v with
  | Null => false
  | Bool b => b
  | Num r => negb (String.eqb r "0")
  | Str s => Js.nonempty s
  | Arr _ | Obj _ => true
  end.

(** Truthiness of a value that may be [undefined]. *)
Definition truthy_opt (v : option t) : bool :=
  match v with Some x => truthy x | None => false end.

Fixpoint assoc (k : string) (fs : list (string * t)) : option t :=
  match fs with
  | [] => None
  | (k', v) :: r => if String.eqb k k' then Some v else assoc k r
  end.

(** The result of reading a property. *)
Inductive access : Type :=
| Value (v : option t)
| TypeError (message : string).

(** [v.k] for a key [k] that no built-in prototype defines (the program
    reads [isValid], [invalidReason], [payer], [success], [transaction]
    and [errorReason] only): the own property of an object, [undefined]
    on any other value, and a [TypeError] on [null]. *)
Definition get (v : t) (k : string) : access :=
  match v with
  | Null =>
      TypeError ("Cannot read properties of null (reading '" +:+ k +:+ "')")
  | Obj fs => Value (assoc k fs)
  | _ => Value None
  end.

(** [v.k] where no [TypeError] can arise. *)
Definition field (v : t) (k : string) : option t :=
  match get v k with
  | Value x => x
  | TypeError _ => None
  end.

Definition quote_mark : string := String (ascii_of_N 34) EmptyString.
Definition backslash : string := String (ascii_of_N 92) EmptyString.

Definition escape (c : ascii) : string :=
  let n := Js.code c in
  if n =? 34 then backslash +:+ quote_mark
  else if n =? 92 then backslash +:+ backslash
  else if n =? 8 then backslash +:+ "b"
  else if n =? 12 then backslash +:+ "f"
  else if n =? 10 then backslash +:+ "n"
  else if n =? 13 then backslash +:+ "r"
  else if n =? 9 then backslash +:+ "t"
  else if n <? 32 then
    backslash +:+ "u00"
    +:+ String (Js.digit_of Js.hex (n / 16))
          (String (Js.digit_of Js.hex (n mod 16)) EmptyString)
  else String c EmptyString.

Fixpoint escape_all (s : string) : string :=
  match s with
  | EmptyString => EmptyString
  | String c r => escape c +:+ escape_all r
  end.

Definition quote (s : string) : string :=
  quote_mark +:+ escape_all s +:+ quote_mark.

(** [JSON.stringify] without indentation. *)
Fixpoint stringify (v : t) : string :=
  match v with
  | Null => "null"
  | Bool true => "true"
  | Bool false => "false"
  | Num r => r
  | Str s => quote s
  | Arr xs =>
      "[" +:+ (fix items (l : list t) : string :=
                 match l with
                 | [] => EmptyString
                 | [x] => stringify x
                 | x :: r => stringify x +:+ "," +:+ items r
                 end) xs +:+ "]"
  | Obj fs =>
      "{" +:+ (fix members (l : list (string * t)) : string :=
                 match l with
                 | [] => EmptyString
                 | [(k, x)] => quote k +:+ ":" +:+ stringify x
                 | (k, x) :: r =>
                     quote k +:+ ":" +:+ stringify x +:+ "," +:+ members r
                 end) fs +:+ "}"
  end.

(** An object literal with optional members: a member whose value is
    [undefined] is not rendered, so it is left out. *)
Definition member (k : string) (v : option t) : list (string * t) :=
  match v with Some x => [(k, x)] | None => [] end.

End Json.

(* ===================================================================== *)
(** ** The framework's request and response objects *)
(* ===================================================================== *)

Module Next.

(** A header of [IncomingHttpHeaders] is [string | string[] | undefined],
    a member of [req.query] likewise. *)
Inductive multi : Type :=
| One (s : string)
| Many (l : list string).

Record Request : Type := {
  method : option string;
  query : gmap string multi;
  headers : gmap string multi;
}.

(** How Node builds [req.headers] from the header lines of the wire: the
    name is lower-cased; [set-cookie] is always an array; a repeated
    single-valued header keeps its first value; any other repeated header
    is joined with [", "] ([cookie] with ["; "]). *)
Definition keeps_first : list string :=
  [ "age"; "authorization"; "content-length"; "content-type"; "etag";
    "expires"; "from"; "host"; "if-modified-since"; "if-unmodified-since";
    "last-modified"; "location"; "max-forwards"; "proxy-authorization";
    "referer"; "retry-after"; "server"; "user-agent" ].

Definition add_header_line (m : gmap string multi) (line : string * string)
  : gmap string multi :=
  let k := Js.toLowerCase line.1 in
  let v := line.2 in
  match m !! k with
  | None =>
      <[k := if String.eqb k "set-cookie" then Many [v] else One v]> m
  | Some (Many l) => <[k := Many (l ++ [v])]> m
  | Some (One old) =>
      if existsb (String.eqb k) keeps_first then m
      else <[k := One (old +:+ (if String.eqb k "cookie" then "; " else ", ")
                           +:+ v)]> m
  end.

Definition incoming_headers (lines : list (string * string))
  : gmap string multi :=
  foldl add_header_line ∅ lines.

(** A header line with its name in lower case. *)
Definition lower_name (line : string * string) : string * string :=
  (Js.toLowerCase line.1, line.2).

(** The response object: [setHeader], [status] and [json] update it. *)
Record Response : Type := {
  sent_headers : gmap string string;
  statusCode : N;
  body : option Json.t;
}.

Definition fresh : Response :=
  {| sent_headers := ∅; statusCode := 200; body := None |}.

Definition setHeader (name value : string) (res : Response) : Response :=
  {| sent_headers := <[name := value]> (sent_headers res);
     statusCode := statusCode res;
     body := body res |}.

Definition status (n : N) (res : Response) : Response :=
  {| sent_headers := sent_headers res; statusCode := n; body := body res |}.

Definition json (v : Json.t) (res : Response) : Response :=
  {| sent_headers := sent_headers res;
     statusCode := statusCode res;
     body := Some v |}.

End Next.

(* ===================================================================== *)
(** ** x402 helpers: configuration, challenge, extraction *)
(* ===================================================================== *)

Module X402.

(** The constants read from [process.env] when the module is loaded. *)
Record Config : Type := {
  FACILITATOR_URL : string;
  PAY_TO : string;
  NETWORK : string;
  ASSET_ADDRESS : string;
}.

Definition load (env : gmap string string) : Config :=
  {| FACILITATOR_URL :=
       Js.or_default (env !! "X402_FACILITATOR_URL")
         "https://www.x402.org/facilitator";
     PAY_TO := Js.or_default (env !! "X402_PAY_TO_ADDRESS") EmptyString;
     NETWORK := Js.or_default (env !! "X402_NETWORK") "eip155:84532";
     ASSET_ADDRESS :=
       Js.or_default (env !! "X402_ASSET_ADDRESS")
         "0x036CbD53842c5426634e7929541eC2318f3dCF7e" |}.

(** $0.002 in USDC base units (6 decimals). *)
Definition PRICE_UNITS : string := "2000".

Record PaymentRequirementsV2 : Type := {
  scheme : string;
  network : string;
  amount : string;
  asset : string;
  payTo : string;
  maxTimeoutSeconds : N;
  extra : list (string * Json.t);
}.

Record ResourceInfo : Type := {
  url : string;
  description : option string;
  mimeType : option string;
}.

Record PaymentRequiredV2 : Type := {
  x402Version : N;
  resource : ResourceInfo;
  accepts : list PaymentRequirementsV2;
  error : option string;
}.

Definition buildPaymentRequired (cfg : Config) (resource : string)
  : PaymentRequiredV2 :=
  {| x402Version := 2;
     resource :=
       {| url := resource;
          description := Some "Micropaid web search — $0.002 per query";
          mimeType := Some "application/json" |};
     accepts :=
       [ {| scheme := "exact";
            network := NETWORK cfg;
            amount := PRICE_UNITS;
            asset := ASSET_ADDRESS cfg;
            payTo := PAY_TO cfg;
            maxTimeoutSeconds := 60;
            extra := [("name", Json.Str "USD Coin");
                      ("version", Json.Str "2")] |} ];
     error := None |}.

(** The objects as JSON, members in the order the literals give them. *)
Definition requirement_json (r : PaymentRequirementsV2) : Json.t :=
  Json.Obj
    [ ("scheme", Json.Str (scheme r));
      ("network", Json.Str (network r));
      ("amount", Json.Str (amount r));
      ("asset", Json.Str (asset r));
      ("payTo", Json.Str (payTo r));
      ("maxTimeoutSeconds", Json.Num (pretty (maxTimeoutSeconds r)));
      ("extra", Json.Obj (extra r)) ].

Definition resource_json (r : ResourceInfo) : Json.t :=
  Json.Obj
    ([("url", Json.Str (url r))]
     ++ Json.member "description" (Json.Str <$> description r)
     ++ Json.member "mimeType" (Json.Str <$> mimeType r)).

Definition challenge_json (p : PaymentRequiredV2) : Json.t :=
  Json.Obj
    ([ ("x402Version", Json.Num (pretty (x402Version p)));
       ("resource", resource_json (resource p));
       ("accepts", Json.Arr (requirement_json <$> accepts p)) ]
     ++ Json.member "error" (Json.Str <$> error p)).

(** [{...paymentRequired, error: message}] *)
Definition with_error (p : PaymentRequiredV2) (message : string)
  : PaymentRequiredV2 :=
  {| x402Version := x402Version p;
     resource := resource p;
     accepts := accepts p;
     error := Some message |}.

Definition send402 (cfg : Config) (res : Next.Response) (resource : string)
  : Next.Response :=
  let paymentRequired := buildPaymentRequired cfg resource in
  let encoded := Js.base64 (Json.stringify (challenge_json paymentRequired)) in
  let res := Next.setHeader "PAYMENT-REQUIRED" encoded res in
  let res :=
    Next.setHeader "WWW-Authenticate"
      ("x402 facilitator=" +:+ Json.quote_mark +:+ FACILITATOR_URL cfg
       +:+ Json.quote_mark) res in
  Next.json
    (challenge_json
       (with_error paymentRequired
          "Payment required. Include PAYMENT-SIGNATURE header with a valid x402 payment."))
    (Next.status 402 res).

(** [typeof h === "string" && h.length > 0] *)
Definition nonempty_string (h : option Next.multi) : option string :=
  match h with
  | Some (Next.One s) => if Js.nonempty s then Some s else None
  | _ => None
  end.

Definition extractPaymentSignature (req : Next.Request) : option string :=
  match nonempty_string (Next.headers req !! "payment-signature") with
  | Some sig => Some sig
  | None =>
      match nonempty_string (Next.headers req !! "x-payment") with
      | Some v1 => Some v1
      | None => None
      end
  end.

(** [Buffer.from(JSON.stringify(settlement)).toString("base64")] *)
Definition encodePaymentResponse (settlement : Json.t) : string :=
  Js.base64 (Json.stringify settlement).

(** What [verifyPayment] resolves to; [payer] and [error] hold whatever
    the facilitator sent. *)
Record Verification : Type := {
  valid : bool;
  payer : option Json.t;
  verror : option Json.t;
}.

End X402.

(* ===================================================================== *)
(** ** Search results and the agent identity *)
(* ===================================================================== *)

Module Search.

Record SearchResult : Type := {
  title : string;
  url : string;
  snippet : string;
}.

Inductive search_mode : Type := duckduckgo | stub | fallback_stub.

Definition mode_tag (m : search_mode) : string :=
  match m with
  | duckduckgo => "duckduckgo"
  | stub => "stub"
  | fallback_stub => "fallback_stub"
  end.

Record SearchResponse : Type := {
  results : list SearchResult;
  mode : search_mode;
}.

Definition stubResults (query : string) : list SearchResult :=
  [ {| title := query +:+ " — Wikipedia";
       url := "https://en.wikipedia.org/wiki/" +:+ Js.encodeURIComponent query;
       snippet := "Comprehensive overview of " +:+ query
                  +:+ " from the free encyclopedia." |};
    {| title := query +:+ " — Latest News";
       url := "https://news.ycombinator.com/item?id=00000";
       snippet := "Discussion and latest developments about " +:+ query
                  +:+ " on Hacker News." |};
    {| title := "Understanding " +:+ query +:+ " — A Beginner's Guide";
       url := "https://example.com/guide/" +:+ Js.encodeURIComponent query;
       snippet := "Learn everything you need to know about " +:+ query
                  +:+ " in this guide." |};
    {| title := query +:+ " | Research Papers";
       url := "https://scholar.google.com/scholar?q="
              +:+ Js.encodeURIComponent query;
       snippet := "Academic papers and citations related to " +:+ query
                  +:+ "." |};
    {| title := query +:+ " — Reddit Discussion";
       url := "https://www.reddit.com/search/?q="
              +:+ Js.encodeURIComponent query;
       snippet := "Community discussion and opinions about " +:+ query
                  +:+ "." |} ].

Definition result_json (r : SearchResult) : Json.t :=
  Json.Obj [ ("title", Json.Str (title r));
             ("url", Json.Str (url r));
             ("snippet", Json.Str (snippet r)) ].

End Search.

Module Identity.

Record AgentIdentity : Type := {
  standard : string;
  chain : string;
  contract : string;
  tokenId : string;
  profileUrl : string;
}.

Definition getAgentIdentity (env : gmap string string) : AgentIdentity :=
  let chain := Js.or_default (env !! "ERC8004_CHAIN") "base" in
  let contract :=
    Js.or_default (env !! "ERC8004_CONTRACT")
      "0x8004A169FB4a3325136EB29fA0ceB6D2e539a432" in
  let tokenId := Js.or_default (env !! "ERC8004_TOKEN_ID") "1" in
  let scanBase :=
    Js.or_default (env !! "ERC8004_SCAN_BASE_URL") "https://www.8004scan.io" in
  {| standard := "ERC-8004";
     chain := chain;
     contract := contract;
     tokenId := tokenId;
     profileUrl := scanBase +:+ "/agents/" +:+ chain +:+ "/" +:+ contract
                   +:+ "/" +:+ tokenId |}.

Definition identity_json (a : AgentIdentity) : Json.t :=
  Json.Obj [ ("standard", Json.Str (standard a));
             ("chain", Json.Str (chain a));
             ("contract", Json.Str (contract a));
             ("tokenId", Json.Str (tokenId a));
             ("profileUrl", Json.Str (profileUrl a)) ].

End Identity.

(* ===================================================================== *)
(** ** The world outside the process, and the effects on it *)
(* ===================================================================== *)

Module Runtime.

(** How a promise settles, or how a [try] block ends. *)
Inductive settled (A : Type) : Type :=
| Fulfilled (a : A)
| Rejected (message : string).
Arguments Fulfilled {A} a.
Arguments Rejected {A} message.

Record HttpRequest : Type := {
  target : string;
  verb : string;
  request_headers : list (string * string);
  payload : option string;
  timeout_ms : N;
}.

(** A [Response] of [fetch]: its status, and what reading its body as
    text or as JSON gives. *)
Record HttpResponse : Type := {
  status : N;
  text : settled string;
  json : settled Json.t;
}.

Definition ok (r : HttpResponse) : bool :=
  (200 <=? status r) && (status r <=? 299).

Record World : Type := {
  (** [process.env], never written by the program *)
  env : gmap string string;
  (** [JSON.parse(Buffer.from(s, "base64").toString("utf-8"))];
      [None] when [JSON.parse] throws *)
  decode : string -> option Json.t;
  (** the global [fetch]; it rejects on a network failure and when the
      [AbortSignal.timeout] of the request fires *)
  fetch : HttpRequest -> settled HttpResponse;
  (** the extraction of result blocks from the page of the search engine
      (the loop of [searchDuckDuckGo]); it throws when
      [decodeURIComponent] does. Kept as a parameter: what is proved
      holds for every such function. *)
  scrape : string -> settled (list Search.SearchResult);
}.

(** The three awaited operations of the request handler. *)
Inductive operation : Type := Verify | Execute | Settle.

Inductive resolution : Type :=
| Verified (v : X402.Verification)
| Executed (r : Search.SearchResponse)
| Settled (s : Json.t).

Inductive Event : Type :=
| Fetch (r : HttpRequest)
| ConsoleWarn (args : list (option Json.t))
| ConsoleError (args : list (option Json.t))
| Call (op : operation)
| Resolve (r : resolution).

Definition Eff (A : Type) : Type := World -> A * list Event.

Definition ret {A : Type} (a : A) : Eff A := fun _ => (a, []).

Definition bind {A B : Type} (m : Eff A) (k : A -> Eff B) : Eff B :=
  fun w =>
    let (a, t1) := m w in
    let (b, t2) := k a w in
    (b, (t1 ++ t2)%list).

Definition ask : Eff World := fun w => (w, []).

Definition tell (e : Event) : Eff unit := fun _ => (tt, [e]).

(** [await fetch(...)] *)
Definition do_fetch (r : HttpRequest) : Eff (settled HttpResponse) :=
  fun w => (fetch w r, [Fetch r]).

(** [await op(...)] in the handler, bracketed in the trace. *)
Definition await {A : Type} (op : operation) (m : Eff A)
    (tag : A -> resolution) : Eff A :=
  fun w =>
    let (a, t) := m w in
    (a, (Call op :: t ++ [Resolve (tag a)])%list).

End Runtime.

Notation "x <- m ;; k" := (Runtime.bind m (fun x => k))
  (at level 100, m at next level, right associativity).
Notation "m ;;; k" := (Runtime.bind m (fun _ => k))
  (at level 100, right associativity).

Module Facilitator.
Import Runtime.

Definition negative (message : string) : X402.Verification :=
  {| X402.valid := false;
     X402.payer := None;
     X402.verror := Some (Json.Str message) |}.

Definition post (url : string) (body : Json.t) (timeout : N) : HttpRequest :=
  {| target := url;
     verb := "POST";
     request_headers := [("Content-Type", "application/json")];
     payload := Some (Json.stringify body);
     timeout_ms := timeout |}.

(** [{ paymentPayload, paymentRequirements: paymentRequired.accepts[0] }] *)
Definition facilitator_body (paymentPayload : Json.t)
    (paymentRequired : X402.PaymentRequiredV2) : Json.t :=
  Json.Obj
    ([("paymentPayload", paymentPayload)]
     ++ Json.member "paymentRequirements"
          (X402.requirement_json <$> head (X402.accepts paymentRequired))).

Definition verifyPayment (paymentSignature resource : string)
  : Eff X402.Verification :=
  w <- ask ;;
  let cfg := X402.load (env w) in
  let paymentRequired := X402.buildPaymentRequired cfg resource in
  match decode w paymentSignature with
  | None => ret (negative "Invalid payment signature encoding")
  | Some paymentPayload =>
      response <- do_fetch
        (post (X402.FACILITATOR_URL cfg +:+ "/verify")
           (facilitator_body paymentPayload paymentRequired) 15000) ;;
      match response with
      | Rejected message => ret (negative ("Facilitator unreachable: " +:+ message))
      | Fulfilled response =>
          if negb (ok response) then
            let text :=
              match text response with
              | Fulfilled t => t
              | Rejected _ => EmptyString
              end in
            ret (negative ("Facilitator verify returned "
                           +:+ pretty (status response) +:+ ": " +:+ text))
          else
            match json response with
            | Rejected message =>
                ret (negative ("Facilitator unreachable: " +:+ message))
            | Fulfilled result =>
                match Json.get result "isValid" with
                | Json.TypeError message =>
                    ret (negative ("Facilitator unreachable: " +:+ message))
                | Json.Value isValid =>
                    if negb (Json.truthy_opt isValid) then
                      match Json.get result "invalidReason" with
                      | Json.TypeError message =>
                          ret (negative ("Facilitator unreachable: " +:+ message))
                      | Json.Value invalidReason =>
                          ret {| X402.valid := false;
                                 X402.payer := None;
                                 X402.verror :=
                                   if Json.truthy_opt invalidReason
                                   then invalidReason
                                   else Some (Json.Str "Payment verification failed") |}
                      end
                    else
                      match Json.get result "payer" with
                      | Json.TypeError message =>
                          ret (negative ("Facilitator unreachable: " +:+ message))
                      | Json.Value payer =>
                          ret {| X402.valid := true;
                                 X402.payer := payer;
                                 X402.verror := None |}
                      end
                end
            end
      end
  end.

Definition unsuccessful (errorReason : string) : Json.t :=
  Json.Obj [("success", Json.Bool false);
            ("errorReason", Json.Str errorReason)].

Definition settlePayment (paymentSignature resource : string) : Eff Json.t :=
  w <- ask ;;
  let cfg := X402.load (env w) in
  let paymentRequired := X402.buildPaymentRequired cfg resource in
  match decode w paymentSignature with
  | None => ret (unsuccessful "Invalid payment signature encoding")
  | Some paymentPayload =>
      response <- do_fetch
        (post (X402.FACILITATOR_URL cfg +:+ "/settle")
           (facilitator_body paymentPayload paymentRequired) 30000) ;;
      match response with
      | Rejected message =>
          ret (unsuccessful ("Facilitator unreachable: " +:+ message))
      | Fulfilled response =>
          if negb (ok response) then
            let text :=
              match text response with
              | Fulfilled t => t
              | Rejected _ => EmptyString
              end in
            ret (unsuccessful ("Facilitator settle returned "
                               +:+ pretty (status response) +:+ ": " +:+ text))
          else
            match json response with
            | Rejected message =>
                ret (unsuccessful ("Facilitator unreachable: " +:+ message))
            | Fulfilled result => ret result
            end
      end
  end.

(** The one request each operation sends, once the token is decoded. *)
Definition verify_request (w : World) (paymentPayload : Json.t)
    (resource : string) : HttpRequest :=
  post (X402.FACILITATOR_URL (X402.load (env w)) +:+ "/verify")
    (facilitator_body paymentPayload
       (X402.buildPaymentRequired (X402.load (env w)) resource)) 15000.

Definition settle_request (w : World) (paymentPayload : Json.t)
    (resource : string) : HttpRequest :=
  post (X402.FACILITATOR_URL (X402.load (env w)) +:+ "/settle")
    (facilitator_body paymentPayload
       (X402.buildPaymentRequired (X402.load (env w)) resource)) 30000.

(** Why a present token is not verified: it does not decode; the
    facilitator cannot be reached or does not answer in time; or the
    facilitator answers that the payment is not valid. *)
Inductive verify_failure (w : World) (token resource : string) : Prop :=
| undecodable :
    decode w token = None ->
    verify_failure w token resource
| unreachable (p : Json.t) (message : string) :
    decode w token = Some p ->
    fetch w (verify_request w p resource) = Rejected message ->
    verify_failure w token resource
| declared_invalid (p : Json.t) (response : HttpResponse) (result : Json.t) :
    decode w token = Some p ->
    fetch w (verify_request w p resource) = Fulfilled response ->
    ok response = true ->
    json response = Fulfilled result ->
    Json.truthy_opt (Json.field result "isValid") = false ->
    verify_failure w token resource.

(** How a settlement fails: the facilitator cannot be reached or does not
    answer in time, it answers with an error status, its answer cannot be
    read, or it answers with a falsy [success]. *)
Inductive settle_failure (w : World) (token resource : string) : Prop :=
| settle_unreachable (p : Json.t) (message : string) :
    decode w token = Some p ->
    fetch w (settle_request w p resource) = Rejected message ->
    settle_failure w token resource
| settle_error_status (p : Json.t) (response : HttpResponse) :
    decode w token = Some p ->
    fetch w (settle_request w p resource) = Fulfilled response ->
    ok response = false ->
    settle_failure w token resource
| settle_unreadable (p : Json.t) (response : HttpResponse) (message : string) :
    decode w token = Some p ->
    fetch w (settle_request w p resource) = Fulfilled response ->
    ok response = true ->
    json response = Rejected message ->
    settle_failure w token resource
| settle_declined (p : Json.t) (response : HttpResponse) (result : Json.t)
    (flag : option Json.t) :
    decode w token = Some p ->
    fetch w (settle_request w p resource) = Fulfilled response ->
    ok response = true ->
    json response = Fulfilled result ->
    Json.get result "success" = Json.Value flag ->
    Json.truthy_opt flag = false ->
    settle_failure w token resource.

End Facilitator.

Module SearchExec.
Import Runtime.

(** The request of the live strategy: the [url] and the options of its
    [fetch]. *)
Definition live_request (query : string) : HttpRequest :=
  {| target := "https://html.duckduckgo.com/html/?q="
               +:+ Js.encodeURIComponent query;
     verb := "GET";
     request_headers :=
       [ ("User-Agent",
          "Mozilla/5.0 (Macintosh; Intel Mac OS X 10_15_7) AppleWebKit/537.36 (KHTML, like Gecko) Chrome/120.0.0.0 Safari/537.36");
         ("Accept", "text/html");
         ("Accept-Language", "en-US,en;q=0.9") ];
     payload := None;
     timeout_ms := 8000 |}.

Definition searchDuckDuckGo (query : string)
  : Eff (settled (list Search.SearchResult)) :=
  w <- ask ;;
  response <- do_fetch (live_request query) ;;
  match response with
  | Rejected message => ret (Rejected message)
  | Fulfilled response =>
      if negb (ok response) then
        ret (Rejected ("DuckDuckGo returned HTTP " +:+ pretty (status response)))
      else
        match text response with
        | Rejected message => ret (Rejected message)
        | Fulfilled html => ret (scrape w html)
        end
  end.

(** [(process.env.SEARCH_PROVIDER || "duckduckgo").toLowerCase()] *)
Definition provider (env : gmap string string) : string :=
  Js.toLowerCase (Js.or_default (env !! "SEARCH_PROVIDER") "duckduckgo").

Definition fall_back (query message : string) : Eff Search.SearchResponse :=
  tell (ConsoleError
          [ Some (Json.Str "[search] DuckDuckGo scraping failed, falling back to stub:");
            Some (Json.Str message) ]) ;;;
  ret {| Search.results := Search.stubResults query;
         Search.mode := Search.fallback_stub |}.

Definition executeSearch (query : string) : Eff Search.SearchResponse :=
  w <- ask ;;
  if String.eqb (provider (env w)) "stub" then
    ret {| Search.results := Search.stubResults query;
           Search.mode := Search.stub |}
  else
    found <- searchDuckDuckGo query ;;
    match found with
    | Fulfilled [] => fall_back query "No results parsed"
    | Fulfilled results =>
        ret {| Search.results := results; Search.mode := Search.duckduckgo |}
    | Rejected message => fall_back query message
    end.

(** The ways the live strategy fails. *)
Inductive live_failure (w : World) (query : string) : Prop :=
| network_error (message : string) :
    (* the request fails, or its 8 s timeout fires *)
    fetch w (live_request query) = Rejected message ->
    live_failure w query
| error_status (response : HttpResponse) :
    fetch w (live_request query) = Fulfilled response ->
    ok response = false ->
    live_failure w query
| unreadable_page (response : HttpResponse) (message : string) :
    fetch w (live_request query) = Fulfilled response ->
    ok response = true ->
    text response = Rejected message ->
    live_failure w query
| scraper_error (response : HttpResponse) (html message : string) :
    fetch w (live_request query) = Fulfilled response ->
    ok response = true ->
    text response = Fulfilled html ->
    scrape w html = Rejected message ->
    live_failure w query
| nothing_parsed (response : HttpResponse) (html : string) :
    fetch w (live_request query) = Fulfilled response ->
    ok response = true ->
    text response = Fulfilled html ->
    scrape w html = Fulfilled [] ->
    live_failure w query.

End SearchExec.

(* ===================================================================== *)
(** ** The request handler of [GET /api/search] *)
(* ===================================================================== *)

Module Api.
Import Runtime.

Definition RESOURCE : string := "/api/search".

(** How a run of the handler ends: it sends the response, or an
    exception escapes it (the framework then answers on its own). *)
Inductive outcome : Type :=
| Sent (res : Next.Response)
| Threw (message : string).

Definition error_body (message : string) : Json.t :=
  Json.Obj [("error", Json.Str message)].

(** [req.method !== "GET"] *)
Definition not_get (req : Next.Request) : bool :=
  match Next.method req with
  | Some m => negb (String.eqb m "GET")
  | None => true
  end.

(** [typeof req.query.q === "string" ? req.query.q.trim() : ""] *)
Definition query_of (req : Next.Request) : string :=
  match Next.query req !! "q" with
  | Some (Next.One s) => Js.trim s
  | _ => EmptyString
  end.

(** A property read whose [TypeError] nothing catches. *)
Definition reading (v : Json.t) (k : string)
    (continue : option Json.t -> Eff outcome) : Eff outcome :=
  match Json.get v k with
  | Json.TypeError message => ret (Threw message)
  | Json.Value x => continue x
  end.

Definition pricing : Json.t :=
  Json.Obj [ ("currency", Json.Str "USDC");
             ("amount", Json.Str "0.002");
             ("unit", Json.Str "per_request") ].

(** The body of the 200 response; [payment] is the spread
    [...(settlement.transaction ? { payment: ... } : {})]. *)
Definition results_body (agent_identity : Identity.AgentIdentity)
    (q : string) (found : Search.SearchResponse)
    (payment : list (string * Json.t)) : Json.t :=
  Json.Obj
    ([ ("query", Json.Str q);
       ("results", Json.Arr (Search.result_json <$> Search.results found));
       ("pricing", pricing);
       ("provider", Json.Str "micropaid-search-api");
       ("search_mode", Json.Str (Search.mode_tag (Search.mode found)));
       ("agent_identity", Identity.identity_json agent_identity) ]
     ++ payment).

(** Step 6: return the search results. *)
Definition send_results (q : string) (found : Search.SearchResponse)
    (settlement : Json.t) (res : Next.Response) : Eff outcome :=
  w <- ask ;;
  let agent_identity := Identity.getAgentIdentity (env w) in
  let finish (payment : list (string * Json.t)) : Eff outcome :=
    ret (Sent (Next.json (results_body agent_identity q found payment)
                 (Next.status 200 res))) in
  reading settlement "transaction" (fun transaction =>
    if Json.truthy_opt transaction then
      reading settlement "payer" (fun payer =>
        finish [ ("payment",
                  Json.Obj (Json.member "transaction" transaction
                            ++ Json.member "payer" payer)) ])
    else finish []).

(** What follows [await settlePayment(...)]: the header or the log line
    of step 5, then step 6. *)
Definition conclude (q : string) (found : Search.SearchResponse)
    (settlement : Json.t) (res : Next.Response) : Eff outcome :=
  reading settlement "success" (fun success =>
    if Json.truthy_opt success then
      send_results q found settlement
        (Next.setHeader "PAYMENT-RESPONSE"
           (X402.encodePaymentResponse settlement) res)
    else
      reading settlement "errorReason" (fun errorReason =>
        tell (ConsoleError
                [ Some (Json.Str "[search] Settlement failed:");
                  errorReason ]) ;;;
        send_results q found settlement res)).

Definition handler (req : Next.Request) : Eff outcome :=
  w <- ask ;;
  let cfg := X402.load (env w) in
  let res := Next.fresh in
  if not_get req then
    ret (Sent (Next.json (error_body "Method not allowed") (Next.status 405 res)))
  else
    (* 1. validate query *)
    let q := query_of req in
    if Js.is_empty q then
      ret (Sent (Next.json (error_body "Missing required query parameter: q")
                   (Next.status 400 res)))
    else
      (* 2. check for x402 payment *)
      match X402.extractPaymentSignature req with
      | None => ret (Sent (X402.send402 cfg res RESOURCE))
      | Some paymentSig =>
          if Js.is_empty paymentSig then
            ret (Sent (X402.send402 cfg res RESOURCE))
          else
            (* 3. verify the payment with the facilitator *)
            verification <-
              await Verify (Facilitator.verifyPayment paymentSig RESOURCE)
                Verified ;;
            if negb (X402.valid verification) then
              tell (ConsoleWarn
                      [ Some (Json.Str "[search] Payment verification failed:");
                        X402.verror verification ]) ;;;
              ret (Sent (X402.send402 cfg res RESOURCE))
            else
              (* 4. execute the search *)
              found <- await Execute (SearchExec.executeSearch q) Executed ;;
              (* 5. settle the payment *)
              settlement <-
                await Settle (Facilitator.settlePayment paymentSig RESOURCE)
                  Settled ;;
              conclude q found settlement res
      end.

(** The [payment] member that a settlement outcome leads to. *)
Definition payment_of (settlement : Json.t) : list (string * Json.t) :=
  if Json.truthy_opt (Json.field settlement "transaction") then
    [ ("payment",
       Json.Obj (Json.member "transaction" (Json.field settlement "transaction")
                 ++ Json.member "payer" (Json.field settlement "payer"))) ]
  else [].

(** A member of the body of a response, when it is an object. *)
Definition body_member (res : Next.Response) (k : string) : option Json.t :=
  match Next.body res with
  | Some (Json.Obj fs) => Json.assoc k fs
  | _ => None
  end.

(** The run of the handler in a world: how it ends, and its trace. *)
Definition run (w : World) (req : Next.Request) : outcome * list Event :=
  handler req w.

End Api.

(* ===================================================================== *)
(** ** Observations on traces *)
(* ===================================================================== *)

Module Trace.
Import Runtime.

Definition same_operation (a b : operation) : bool :=
  match a, b with
  | Verify, Verify | Execute, Execute | Settle, Settle => true
  | _, _ => false
  end.

Definition is_call (op : operation) (e : Event) : bool :=
  match e with
  | Call o => same_operation o op
  | _ => false
  end.

(** How many times [op] was started. *)
Fixpoint calls (op : operation) (t : list Event) : nat :=
  match t with
  | [] => 0%nat
  | e :: r => ((if is_call op e then 1 else 0) + calls op r)%nat
  end.

(** The requests that left the process, in order. *)
Fixpoint requests (t : list Event) : list HttpRequest :=
  match t with
  | [] => []
  | Fetch r :: rest => r :: requests rest
  | _ :: rest => requests rest
  end.

(** A trace of one of the awaited operations: no bracket of the handler
    inside. *)
Definition inner (e : Event) : bool :=
  match e with
  | Call _ | Resolve _ => false
  | _ => true
  end.

End Trace.

(* ===================================================================== *)
(** ** Sample worlds and requests *)
(* ===================================================================== *)

Module Sample.
Import Runtime.

Definition reply (code : N) (j : Json.t) : settled HttpResponse :=
  Fulfilled {| status := code;
               text := Fulfilled (Json.stringify j);
               json := Fulfilled j |}.

(** A facilitator at the default address: [v] answers [/verify], [s]
    answers [/settle]; any other host is out of reach. *)
Definition network (v s : settled HttpResponse) (r : HttpRequest)
  : settled HttpResponse :=
  if String.eqb (target r) "https://www.x402.org/facilitator/verify" then v
  else if String.eqb (target r) "https://www.x402.org/facilitator/settle" then s
  else Rejected "fetch failed".

(** The one token these worlds decode is the base64 of [{}]. *)
Definition decode_empty_object (s : string) : option Json.t :=
  if String.eqb s "e30=" then Some (Json.Obj []) else None.

Definition world (v s : settled HttpResponse) : World :=
  {| env := ∅;
     decode := decode_empty_object;
     fetch := network v s;
     scrape := fun _ => Fulfilled [] |}.

Definition verify_ok : settled HttpResponse :=
  reply 200 (Json.Obj [("isValid", Json.Bool true); ("payer", Json.Str "0xABC")]).

Definition verify_expired : settled HttpResponse :=
  reply 200 (Json.Obj [("isValid", Json.Bool false);
                       ("invalidReason", Json.Str "expired")]).

Definition settle_ok : settled HttpResponse :=
  reply 200 (Json.Obj [("success", Json.Bool true);
                       ("transaction", Json.Str "0xT1");
                       ("payer", Json.Str "0xABC")]).

Definition settle_refused : settled HttpResponse :=
  reply 200 (Json.Obj [("success", Json.Bool false);
                       ("errorReason", Json.Str "insufficient funds")]).

(** The transfer was sent and reverted on chain: the facilitator reports
    the failure together with the transaction it sent. *)
Definition settle_reverted : settled HttpResponse :=
  reply 200 (Json.Obj [("success", Json.Bool false);
                       ("errorReason", Json.Str "invalid_transaction_state");
                       ("transaction", Json.Str "0xT1");
                       ("payer", Json.Str "0xABC")]).

(** The facilitator answers [/settle] with the JSON text [null]. *)
Definition settle_null : settled HttpResponse := reply 200 Json.Null.

Definition settled_world : World := world verify_ok settle_ok.
Definition null_world : World := world verify_ok settle_null.
Definition refused_world : World := world verify_ok settle_refused.
Definition reverted_world : World := world verify_ok settle_reverted.
Definition expired_world : World := world verify_expired settle_ok.
Definition offline_world : World :=
  world (Rejected "fetch failed") (Rejected "fetch failed").

Definition request (verb : string) (q : string) (lines : list (string * string))
  : Next.Request :=
  {| Next.method := Some verb;
     Next.query := {[ "q" := Next.One q ]};
     Next.headers := Next.incoming_headers lines |}.

Definition unpaid : Next.Request :=
  request "GET" "bitcoin" [("Host", "localhost:3000")].

Definition paid : Next.Request :=
  request "GET" "bitcoin" [("Host", "localhost:3000"); ("Payment-Signature", "e30=")].

Definition garbled : Next.Request :=
  request "GET" "bitcoin" [("PAYMENT-SIGNATURE", "not json")].

Definition posted : Next.Request :=
  request "POST" "bitcoin" [("PAYMENT-SIGNATURE", "e30=")].

End Sample.

(* ===================================================================== *)
(** ** Observations on strings *)
(* ===================================================================== *)

Module Text.

(** Every character of [s] satisfies [p]. *)
Fixpoint every (p : ascii -> bool) (s : string) : bool :=
  match s with
  | EmptyString => true
  | String c r => p c && every p r
  end.

(** [s] starts with a white space character (of one, two or three
    bytes). *)
Definition ws_at (s : string) : bool :=
  match s with
  | EmptyString => false
  | String a r1 =>
      Js.ws1 a
      || match r1 with
         | EmptyString => false
         | String b r2 =>
             Js.ws2 a b
             || match r2 with
                | EmptyString => false
                | String c _ => Js.ws3 a b c
                end
         end
  end.

(** White space occurs in [s] only as single ASCII spaces; [after_space]
    tells that the character before [s] is a space. *)
Fixpoint single_spaced (after_space : bool) (s : string) : bool :=
  match s with
  | EmptyString => true
  | String c r =>
      if Ascii.eqb c " " then negb after_space && single_spaced true r
      else negb (ws_at s) && single_spaced false r
  end.

(** The last character of [s] is not a space. *)
Fixpoint open_ended (s : string) : bool :=
  match s with
  | EmptyString => true
  | String c EmptyString => negb (Ascii.eqb c " ")
  | String _ r => open_ended r
  end.

(** [s] is tidy: its white space is single ASCII spaces between other
    characters, none at the start and none at the end. *)
Definition tidy (s : string) : bool :=
  single_spaced true s && open_ended s.

(** A printable ASCII character other than the space. *)
Definition printable (c : ascii) : bool := Js.between 33 126 c.

(** A printable character that is not [<], [>] or [&]. *)
Definition word_char (c : ascii) : bool :=
  printable c && negb (Js.contains_char c "<>&").

(** [s] holds none of the characters of [bad]. *)
Definition free_of (bad : string) (s : string) : bool :=
  every (fun c => negb (Js.contains_char c bad)) s.

(** A character of the base64 alphabet, or the padding. *)
Definition base64_char (c : ascii) : bool :=
  Js.contains_char c Js.B64 || Ascii.eqb c "=".

(** U+0085 NEXT LINE, in UTF-8: a line break of Unicode that is not
    white space for ECMAScript. *)
Definition next_line : string :=
  String (ascii_of_N 194) (String (ascii_of_N 133) EmptyString).

(** What [encodeURIComponent] can write. *)
Definition escaped_char (c : ascii) : bool :=
  Js.unreserved c || Ascii.eqb c "%".

(** The matcher [m] finds nothing at any position of [t] when [tail]
    follows [t]. *)
Fixpoint misses {R : Type} (m : string -> option R) (tail t : string) : bool :=
  match t with
  | EmptyString => true
  | String _ r =>
      match m (t +:+ tail) with
      | Some _ => false
      | None => misses m tail r
      end
  end.

End Text.

(* ===================================================================== *)
(** ** Percent decoding *)
(* ===================================================================== *)

Module Uri.

Definition hex_value (c : ascii) : option N :=
  if Js.between 48 57 c then Some (Js.code c - 48)
  else if Js.between 65 70 c then Some (Js.code c - 55)
  else if Js.between 97 102 c then Some (Js.code c - 87)
  else None.

(** The length of the UTF-8 sequence that the octet [b], with its high
    bit set, opens: the number of its leading one bits, when that is 2, 3
    or 4. *)
Definition sequence_length (b : N) : option nat :=
  if (192 <=? b) && (b <=? 223) then Some 2%nat
  else if (224 <=? b) && (b <=? 239) then Some 3%nat
  else if (240 <=? b) && (b <=? 247) then Some 4%nat
  else None.

Definition continuation (b : N) : bool := (128 <=? b) && (b <=? 191).

(** Octets whose continuation bytes are in range encode a code point:
    not an overlong form, not a surrogate, not above U+10FFFF. *)
Definition encodes_code_point (octets : list N) : bool :=
  match octets with
  | [a; _] => 194 <=? a
  | [a; b; _] =>
      (negb (a =? 224) || (160 <=? b)) && (negb (a =? 237) || (b <=? 159))
  | [a; b; _; _] =>
      (negb (a =? 240) || (144 <=? b)) && (negb (a =? 244) || (b <=? 143))
      && (a <=? 244)
  | _ => false
  end.

Fixpoint bytes (octets : list N) (rest : string) : string :=
  match octets with
  | [] => rest
  | b :: r => String (ascii_of_N b) (bytes r rest)
  end.

(** Where the decoder stands: between escapes; after the [%] of an
    escape, before its first or second digit; or inside a multi-byte
    sequence, where a [%] must come. [octets] are the octets of the
    sequence read so far and [total] its length. *)
Inductive state : Type :=
| Idle
| Digit1 (octets : list N) (total : nat)
| Digit2 (octets : list N) (total : nat) (high : N)
| Escape (octets : list N) (total : nat).

Definition malformed : Runtime.settled string := Runtime.Rejected "URI malformed".

Definition emit (octets : list N) (r : Runtime.settled string)
  : Runtime.settled string :=
  match r with
  | Runtime.Fulfilled s => Runtime.Fulfilled (bytes octets s)
  | Runtime.Rejected m => Runtime.Rejected m
  end.

Fixpoint decode (st : state) (s : string) : Runtime.settled string :=
  match s with
  | EmptyString =>
      match st with
      | Idle => Runtime.Fulfilled EmptyString
      | _ => malformed
      end
  | String c r =>
      match st with
      | Idle =>
          if Js.code c =? 37 then decode (Digit1 [] 0) r
          else emit [Js.code c] (decode Idle r)
      | Digit1 octets total =>
          match hex_value c with
          | Some high => decode (Digit2 octets total high) r
          | None => malformed
          end
      | Digit2 octets total high =>
          match hex_value c with
          | None => malformed
          | Some low =>
              let b := high * 16 + low in
              match octets with
              | [] =>
                  if b <? 128 then emit [b] (decode Idle r)
                  else match sequence_length b with
                       | Some n => decode (Escape [b] n) r
                       | None => malformed
                       end
              | _ =>
                  if continuation b then
                    let octets := octets ++ [b] in
                    if Nat.eqb (length octets) total then
                      if encodes_code_point octets
                      then emit octets (decode Idle r)
                      else malformed
                    else decode (Escape octets total) r
                  else malformed
              end
          end
      | Escape octets total =>
          if Js.code c =? 37 then decode (Digit1 octets total) r
          else malformed
      end
  end.

(** [decodeURIComponent]; it throws a [URIError] on a malformed escape. *)
Definition decodeURIComponent (s : string) : Runtime.settled string :=
  decode Idle s.

(** Well-formed UTF-8. *)
Fixpoint well_formed (s : string) : bool :=
  match s with
  | EmptyString => true
  | String a r1 =>
      if Js.code a <? 128 then well_formed r1
      else match r1 with
           | EmptyString => false
           | String b r2 =>
               if (194 <=? Js.code a) && (Js.code a <=? 223) then
                 continuation (Js.code b) && well_formed r2
               else match r2 with
                    | EmptyString => false
                    | String c r3 =>
                        if (224 <=? Js.code a) && (Js.code a <=? 239) then
                          continuation (Js.code b) && continuation (Js.code c)
                          && encodes_code_point [Js.code a; Js.code b; Js.code c]
                          && well_formed r3
                        else match r3 with
                             | EmptyString => false
                             | String d r4 =>
                                 (240 <=? Js.code a) && (Js.code a <=? 244)
                                 && continuation (Js.code b)
                                 && continuation (Js.code c)
                                 && continuation (Js.code d)
                                 && encodes_code_point
                                      [Js.code a; Js.code b; Js.code c; Js.code d]
                                 && well_formed r4
                             end
                    end
           end
  end.

End Uri.

(* ===================================================================== *)
(** ** Regular expressions, as backtracking matchers *)
(* ===================================================================== *)

Module Regex.

Section Matchers.
Context {R : Type}.

(** A matcher takes what is left of the input and either fails or
    succeeds with a result; a piece of a pattern takes the matcher of
    what follows it. Alternatives are tried in the order of the engine,
    and the first success is the match. *)
Definition orelse (a b : option R) : option R :=
  match a with
  | Some x => Some x
  | None => b
  end.

Fixpoint lit (l : string) (k : string -> option R) (s : string) : option R :=
  match l with
  | EmptyString => k s
  | String c l' =>
      match s with
      | String d s' => if Ascii.eqb c d then lit l' k s' else None
      | EmptyString => None
      end
  end.

(** One character of a class. *)
Definition one (p : ascii -> bool) (k : string -> option R) (s : string)
  : option R :=
  match s with
  | String c r => if p c then k r else None
  | EmptyString => None
  end.

(** [[p]*], greedy. *)
Fixpoint many (p : ascii -> bool) (k : string -> option R) (s : string)
  : option R :=
  match s with
  | String c r => if p c then orelse (many p k r) (k s) else k s
  | EmptyString => k s
  end.

(** [[p]+], greedy. *)
Definition many1 (p : ascii -> bool) (k : string -> option R) (s : string)
  : option R :=
  one p (many p k) s.

(** A group around [[p]*], greedy: [seen] is what the group holds so
    far. *)
Fixpoint capture_many (p : ascii -> bool) (k : string -> string -> option R)
    (seen : string) (s : string) : option R :=
  match s with
  | String c r =>
      if p c
      then orelse (capture_many p k (seen +:+ String c EmptyString) r) (k seen s)
      else k seen s
  | EmptyString => k seen s
  end.

(** A group around [[p]+]. *)
Definition capture_many1 (p : ascii -> bool) (k : string -> string -> option R)
    (s : string) : option R :=
  match s with
  | String c r => if p c then capture_many p k (String c EmptyString) r else None
  | EmptyString => None
  end.

(** A group around [[\s\S]*?], lazy. *)
Fixpoint capture_few (k : string -> string -> option R) (seen : string)
    (s : string) : option R :=
  orelse (k seen s)
    (match s with
     | String c r => capture_few k (seen +:+ String c EmptyString) r
     | EmptyString => None
     end).

(** [\s*], greedy, over the white space of [Js.trim]. *)
Fixpoint spaces (k : string -> option R) (s : string) : option R :=
  match s with
  | EmptyString => k s
  | String a r1 =>
      if Js.ws1 a then orelse (spaces k r1) (k s)
      else match r1 with
           | EmptyString => k s
           | String b r2 =>
               if Js.ws2 a b then orelse (spaces k r2) (k s)
               else match r2 with
                    | EmptyString => k s
                    | String c r3 =>
                        if Js.ws3 a b c then orelse (spaces k r3) (k s)
                        else k s
                    end
           end
  end.

(** [\s+]: [\s*] that took something. *)
Definition spaces1 (k : string -> option R) (s : string) : option R :=
  spaces (fun rest =>
            if (String.length rest <? String.length s)%nat then k rest else None)
    s.

(** The leftmost match: the matcher is tried at every position in turn. *)
Fixpoint search (m : string -> option R) (s : string) : option R :=
  orelse (m s)
    (match s with
     | String _ r => search m r
     | EmptyString => None
     end).

End Matchers.

(** [s.replace(/m/g, by)] for a pattern that matches no empty string; [m]
    gives what is left after a match at the head. [skip] counts the
    characters of the last match still to pass over. *)
Fixpoint replace_from (m : string -> option string) (by_ : string)
    (skip : nat) (s : string) : string :=
  match s with
  | EmptyString => EmptyString
  | String c r =>
      match skip with
      | S n => replace_from m by_ n r
      | O =>
          match m s with
          | Some rest =>
              by_ +:+ replace_from m by_
                        (String.length s - String.length rest - 1) r
          | None => String c (replace_from m by_ 0 r)
          end
      end
  end.

Definition replace_all (m : string -> option string) (by_ : string)
    (s : string) : string :=
  replace_from m by_ 0 s.

(** [s.split(/m/)] for a pattern without groups that matches no empty
    string; [piece] is the piece being read. *)
Fixpoint split_from (m : string -> option string) (skip : nat)
    (piece : string) (s : string) : list string :=
  match s with
  | EmptyString => [piece]
  | String c r =>
      match skip with
      | S n => split_from m n piece r
      | O =>
          match m s with
          | Some rest =>
              piece :: split_from m (String.length s - String.length rest - 1)
                         EmptyString r
          | None => split_from m 0 (piece +:+ String c EmptyString) r
          end
      end
  end.

Definition split (m : string -> option string) (s : string) : list string :=
  split_from m 0 EmptyString s.

(** [s.includes(l)] *)
Definition includes (l s : string) : bool :=
  match search (lit l (fun _ => Some tt)) s with
  | Some _ => true
  | None => false
  end.

(** [s.startsWith(l)] *)
Definition startsWith (l s : string) : bool :=
  match lit l (fun _ => Some tt) s with
  | Some _ => true
  | None => false
  end.

End Regex.

(* ===================================================================== *)
(** ** Scraping the result page *)
(* ===================================================================== *)

Module Scraper.
Import Runtime.

Definition only (c : ascii) (d : ascii) : bool := Ascii.eqb d c.
Definition except (c : ascii) (d : ascii) : bool := negb (Ascii.eqb d c).
Definition any (_ : ascii) : bool := true.

Definition quoted (s : string) : string :=
  Json.quote_mark +:+ s +:+ Json.quote_mark.

(** [/<[^>]+>/] *)
Definition tag (s : string) : option string :=
  Regex.one (only "<") (Regex.many1 (except ">") (Regex.lit ">" Some)) s.

(** A literal pattern. *)
Definition word (l : string) (s : string) : option string :=
  Regex.lit l Some s.

(** [/\s+/] *)
Definition gap (s : string) : option string := Regex.spaces1 Some s.

Definition stripHtml (s : string) : string :=
  let s := Regex.replace_all tag EmptyString s in
  let s := Regex.replace_all (word "&amp;") "&" s in
  let s := Regex.replace_all (word "&lt;") "<" s in
  let s := Regex.replace_all (word "&gt;") ">" s in
  let s := Regex.replace_all (word "&quot;") Json.quote_mark s in
  let s := Regex.replace_all (word "&#x27;") "'" s in
  let s := Regex.replace_all (word "&#39;") "'" s in
  let s := Regex.replace_all (word "&nbsp;") " " s in
  let s := Regex.replace_all gap " " s in
  Js.trim s.

(** [/[?&]uddg=([^&]+)/], giving the group. *)
Definition uddg_pattern : string -> option string :=
  Regex.one (fun c => Ascii.eqb c "?" || Ascii.eqb c "&")
    (Regex.lit "uddg="
       (Regex.capture_many1 (except "&") (fun seen _ => Some seen))).

Definition uddg (raw : string) : option string :=
  Regex.search uddg_pattern raw.

Definition extractDdgUrl (raw : string) : settled string :=
  match uddg raw with
  | Some value => Uri.decodeURIComponent value
  | None =>
      if Regex.startsWith "//" raw then Fulfilled ("https:" +:+ raw)
      else Fulfilled raw
  end.

(** The pattern that opens a result block: [class=], a quote, [result],
    white space, [results_links]. *)
Definition block_start (s : string) : option string :=
  Regex.lit ("class=" +:+ Json.quote_mark +:+ "result")
    (Regex.spaces1 (Regex.lit "results_links" Some)) s.

(** The link of a block: after the class attribute [result__a] and
    inside the same tag, the [href] attribute; the group is its value,
    without the quotes. *)
Definition href_of (block : string) : option string :=
  Regex.search
    (Regex.lit ("class=" +:+ quoted "result__a")
       (Regex.many (except ">")
          (Regex.lit ("href=" +:+ Json.quote_mark)
             (Regex.capture_many1 (except (ascii_of_N 34))
                (fun seen => Regex.lit Json.quote_mark (fun _ => Some seen))))))
    block.

(** The title of a block: what stands between the end of the tag with
    the class attribute [result__a] and the first [</a>] after it. *)
Definition title_of (block : string) : option string :=
  Regex.search
    (Regex.lit ("class=" +:+ quoted "result__a")
       (Regex.many (except ">")
          (Regex.lit ">"
             (Regex.capture_few
                (fun seen => Regex.lit "</a>" (fun _ => Some seen))
                EmptyString))))
    block.

(** The snippet of a block: what stands between the end of the tag
    with the class attribute [result__snippet] and the first closing
    [a], [span] or [div] tag after it. *)
Definition snippet_of (block : string) : option string :=
  Regex.search
    (Regex.lit ("class=" +:+ quoted "result__snippet")
       (Regex.many (except ">")
          (Regex.lit ">"
             (Regex.capture_few
                (fun seen =>
                   Regex.lit "</"
                     (fun s =>
                        Regex.orelse
                          (Regex.lit "a" (Regex.lit ">" (fun _ => Some seen)) s)
                          (Regex.orelse
                             (Regex.lit "span" (Regex.lit ">" (fun _ => Some seen)) s)
                             (Regex.lit "div" (Regex.lit ">" (fun _ => Some seen)) s))))
                EmptyString))))
    block.

(** [html.split(...).slice(1)] *)
Definition blocks (html : string) : list string :=
  tail (Regex.split block_start html).

(** The loop over the blocks; [results] is the array being filled. A
    [URIError] of [extractDdgUrl] ends it. *)
Fixpoint collect (todo : list string) (results : list Search.SearchResult)
  : settled (list Search.SearchResult) :=
  match todo with
  | [] => Fulfilled results
  | block :: rest =>
      if (5 <=? length results)%nat then Fulfilled results
      else
        match href_of block, title_of block with
        | Some href, Some inner =>
            match extractDdgUrl href with
            | Rejected message => Rejected message
            | Fulfilled resultUrl =>
                let title := stripHtml inner in
                let snippet :=
                  match snippet_of block with
                  | Some text => stripHtml text
                  | None => EmptyString
                  end in
                if Js.nonempty title && Js.nonempty resultUrl
                   && negb (Regex.includes "duckduckgo.com" resultUrl)
                then collect rest
                       (results ++ [ {| Search.title := title;
                                        Search.url := resultUrl;
                                        Search.snippet := snippet |} ])
                else collect rest results
            end
        | _, _ => collect rest results
        end
  end.

(** What [searchDuckDuckGo] makes of the page it fetched. *)
Definition parse_results (html : string) : settled (list Search.SearchResult) :=
  collect (blocks html) [].

(** What the loop lets into the results: a title and an address that are
    not empty, an address outside the search engine, and stripped text. *)
Definition acceptable (r : Search.SearchResult) : bool :=
  Js.nonempty (Search.title r) && Js.nonempty (Search.url r)
  && negb (Regex.includes "duckduckgo.com" (Search.url r))
  && Text.tidy (Search.title r) && Text.tidy (Search.snippet r).

(** A world whose scraper is the one of the program. *)
Definition scrapes (w : World) : Prop :=
  forall html, scrape w html = parse_results html.

End Scraper.

(* ===================================================================== *)
(** ** The handler of [GET /api/agent] *)
(* ===================================================================== *)

Module AgentApi.
Import Runtime.

Definition handler (_req : Next.Request) : Eff Api.outcome :=
  w <- ask ;;
  let res := Next.fresh in
  ret (Api.Sent
         (Next.json
            (Json.Obj
               [ ("name", Json.Str "Micropaid Search API");
                 ("description",
                  Json.Str "Pay-per-query web search via x402. Agent identity via ERC-8004.");
                 ("version", Json.Str "0.1.0");
                 ("pricing",
                  Json.Obj
                    [ ("currency", Json.Str "USDC");
                      ("amount", Json.Str "0.002");
                      ("unit", Json.Str "per_request");
                      ("network",
                       Json.Str (Js.or_default (env w !! "X402_NETWORK")
                                   "eip155:84532")) ]);
                 ("endpoints",
                  Json.Obj [ ("search", Json.Str "GET /api/search?q=<query>");
                             ("agent", Json.Str "GET /api/agent") ]);
                 ("agent_identity",
                  Identity.identity_json (Identity.getAgentIdentity (env w))) ])
            (Next.status 200 res))).

Definition run (w : World) (req : Next.Request) : Api.outcome * list Event :=
  handler req w.

End AgentApi.

Module Page.

(** A result block as the search engine writes it: the link goes through
    the redirector, with the target in its [uddg] parameter. *)
Definition result_block (target title snippet : string) : string :=
  "class=" +:+ Json.quote_mark +:+ "result results_links results_links_deep web-result "
  +:+ Json.quote_mark +:+ "><a rel=" +:+ Scraper.quoted "nofollow"
  +:+ " class=" +:+ Scraper.quoted "result__a" +:+ " href="
  +:+ Scraper.quoted ("//duckduckgo.com/l/?uddg=" +:+ Js.encodeURIComponent target
                      +:+ "&amp;rut=abc")
  +:+ ">" +:+ title +:+ "</a><a class=" +:+ Scraper.quoted "result__snippet"
  +:+ " href=" +:+ Scraper.quoted "#" +:+ ">" +:+ snippet +:+ "</a></div>".

Definition sample : string :=
  "<html><body><div " +:+
  result_block "https://bitcoin.org/en/" "<b>Bitcoin</b> - Open source  P2P money"
    "Bitcoin is an innovative payment network &amp; a new kind of money."
  +:+ "<div " +:+
  result_block "https://duckduckgo.com/about" "About" "Ours"
  +:+ "<div " +:+
  result_block "https://en.wikipedia.org/wiki/Bitcoin" "Bitcoin&nbsp;- Wikipedia" "x &lt; y"
  +:+ "</body></html>".

(** A page with one result block. *)
Definition single (target title snippet : string) : string :=
  "<html><body><div " +:+ result_block target title snippet +:+ "</body></html>".

(** Markup that can stand as the title or the snippet of a result block:
    it holds no double quote and none of the closing tags that end the
    title or the snippet. *)
Definition inline (t : string) : bool :=
  Text.free_of Json.quote_mark t
  && negb (Regex.includes "</a>" t)
  && negb (Regex.includes "</span>" t)
  && negb (Regex.includes "</div>" t).

(** Markup written with entities, and what the passes of [stripHtml]
    make of it. *)
Definition lt_text_gt (t : string) : string :=
  String "&" (String "l" (String "t" (String ";"
    (t +:+ String "&" (String "g" (String "t" (String ";" EmptyString))))))).

Definition open_text_gt (t : string) : string :=
  String "<" (t +:+ String "&" (String "g" (String "t" (String ";" EmptyString)))).

Definition open_text_close (t : string) : string :=
  String "<" (t +:+ String ">" EmptyString).

End Page.

(* ===================================================================== *)
(** ** The pieces of a result block *)
(* ===================================================================== *)

Module Block.

(** [Page.single] cut at the target, the title and the snippet, and at
    the class attributes that the patterns look for. *)
Definition lead : string := "<html><body><div ".
Definition opening : string := "class=" +:+ Json.quote_mark +:+ "result results_links".
Definition to_link : string :=
  " results_links_deep web-result " +:+ Json.quote_mark +:+ "><a rel="
  +:+ Scraper.quoted "nofollow" +:+ " ".
Definition link : string := "class=" +:+ Scraper.quoted "result__a".
Definition to_href : string := " ".
Definition href : string := "href=" +:+ Json.quote_mark.
Definition redirector : string := "//duckduckgo.com/l/?uddg=".
Definition parameters : string := "&amp;rut=abc".
Definition to_title : string := Json.quote_mark +:+ ">".
Definition to_snippet_class : string := "</a><a ".
Definition snippet_class : string := "class=" +:+ Scraper.quoted "result__snippet".
Definition to_snippet : string := " href=" +:+ Scraper.quoted "#" +:+ ">".
Definition ending : string := "</a></div></body></html>".

(** What follows the start of the block in [Page.single]. *)
Definition body (target title snippet : string) : string :=
  to_link +:+ link +:+ to_href +:+ href
  +:+ redirector +:+ Js.encodeURIComponent target +:+ parameters
  +:+ to_title +:+ title +:+ to_snippet_class +:+ snippet_class
  +:+ to_snippet +:+ snippet +:+ ending.

End Block.

(* ===================================================================== *)
(** ** Conditions on requests and worlds *)
(* ===================================================================== *)

Module Cases.
Import Runtime.

(** What makes the query of a request unusable: no [q], a repeated [q]
    (an array), or a [q] of white space only. *)
Definition no_query (req : Next.Request) : Prop :=
  Next.query req !! "q" = None
  \/ (exists l, Next.query req !! "q" = Some (Next.Many l))
  \/ (exists s, Next.query req !! "q" = Some (Next.One s) /\ Js.blank s = true).

(** The facilitator answers [/verify] with a success status and the
    JSON text [null]. *)
Definition verify_null_world : World :=
  Sample.world (Sample.reply 200 Json.Null) Sample.settle_ok.

(** The facilitator approves a token: the token decodes, and [/verify]
    answers with a success status and a JSON body whose [isValid] is
    truthy. *)
Definition approved (w : World) (token resource : string) : Prop :=
  exists p response result,
    decode w token = Some p
    /\ fetch w (Facilitator.verify_request w p resource) = Fulfilled response
    /\ ok response = true
    /\ json response = Fulfilled result
    /\ Json.truthy_opt (Json.field result "isValid") = true.

(** The facilitator answers [/settle] with a success status and the
    JSON body [body]. *)
Definition settle_answer (w : World) (token resource : string) (body : Json.t)
  : Prop :=
  exists p response,
    decode w token = Some p
    /\ fetch w (Facilitator.settle_request w p resource) = Fulfilled response
    /\ ok response = true
    /\ json response = Fulfilled body.

End Cases.

(* ===================================================================== *)
(** ** Worlds with the search engine *)
(* ===================================================================== *)

Module Live.
Import Runtime.

(** The search engine answers with the page [html]. *)
Definition page (html : string) : settled HttpResponse :=
  Fulfilled {| status := 200;
               text := Fulfilled html;
               json := Rejected "Unexpected token < in JSON at position 0" |}.

(** The facilitator of [Sample.settled_world], and a search engine that
    answers every search with [answer]; the scraper is the one of the
    program. *)
Definition world (answer : settled HttpResponse) : World :=
  {| env := ∅;
     decode := Sample.decode_empty_object;
     fetch := fun r =>
                if Regex.startsWith "https://html.duckduckgo.com/html/?q=" (target r)
                then answer
                else Sample.network Sample.verify_ok Sample.settle_ok r;
     scrape := Scraper.parse_results |}.

(** A page of the search engine without results. *)
Definition challenge : string :=
  "<html><body><form id=challenge-form>Unfortunately, bots use DuckDuckGo too."
  +:+ "</form></body></html>".

End Live.

(* ===================================================================== *)
(** * Properties *)
(* ===================================================================== *)

Import Runtime.

(** ** The runtime functions on sample inputs *)

Example trim_strips_both_ends : Js.trim "  open ai  " = "open ai".
Proof. reflexivity. Qed.

Example trim_of_blank_is_empty :
  Js.trim (String (ascii_of_N 9) " 　 ") = EmptyString.
Proof. reflexivity. Qed.

Example encodeURIComponent_sample :
  Js.encodeURIComponent "open ai — x?" = "open%20ai%20%E2%80%94%20x%3F".
Proof. reflexivity. Qed.

Example base64_samples :
  Js.base64 "hello" = "aGVsbG8=" /\ Js.base64 "hell" = "aGVsbA=="
  /\ Js.base64 "hel" = "aGVs".
Proof. repeat split. Qed.

Example stringify_sample :
  Json.stringify
    (Json.Obj [("a", Json.Arr [Json.Num "1"; Json.Bool true; Json.Null]);
               ("b", Json.Obj [])])
  = "{" +:+ Json.quote "a" +:+ ":[1,true,null]," +:+ Json.quote "b" +:+ ":{}}".
Proof. reflexivity. Qed.

(** The header of the 402 response under the default configuration. *)
Example default_payment_required_header :
  Next.sent_headers (X402.send402 (X402.load ∅) Next.fresh "/api/search")
    !! "PAYMENT-REQUIRED"
  = Some "eyJ4NDAyVmVyc2lvbiI6MiwicmVzb3VyY2UiOnsidXJsIjoiL2FwaS9zZWFyY2giLCJkZXNjcmlwdGlvbiI6Ik1pY3JvcGFpZCB3ZWIgc2VhcmNoIOKAlCAkMC4wMDIgcGVyIHF1ZXJ5IiwibWltZVR5cGUiOiJhcHBsaWNhdGlvbi9qc29uIn0sImFjY2VwdHMiOlt7InNjaGVtZSI6ImV4YWN0IiwibmV0d29yayI6ImVpcDE1NTo4NDUzMiIsImFtb3VudCI6IjIwMDAiLCJhc3NldCI6IjB4MDM2Q2JENTM4NDJjNTQyNjYzNGU3OTI5NTQxZUMyMzE4ZjNkQ0Y3ZSIsInBheVRvIjoiIiwibWF4VGltZW91dFNlY29uZHMiOjYwLCJleHRyYSI6eyJuYW1lIjoiVVNEIENvaW4iLCJ2ZXJzaW9uIjoiMiJ9fV19".
Proof. vm_compute. reflexivity. Qed.

(** A verified and settled request: 200, the five stub results after the
    live search failed, the payment member and the receipt header. *)
Example settled_request_gets_results_and_receipt :
  exists res,
    (Api.run Sample.settled_world Sample.paid).1 = Api.Sent res
    /\ Next.statusCode res = 200
    /\ Api.body_member res "search_mode" = Some (Json.Str "fallback_stub")
    /\ Api.body_member res "payment"
       = Some (Json.Obj [("transaction", Json.Str "0xT1");
                         ("payer", Json.Str "0xABC")])
    /\ Next.sent_headers res !! "PAYMENT-RESPONSE"
       = Some "eyJzdWNjZXNzIjp0cnVlLCJ0cmFuc2FjdGlvbiI6IjB4VDEiLCJwYXllciI6IjB4QUJDIn0=".
Proof.
  eexists. split; [reflexivity|]. split; [reflexivity|]. split; [reflexivity|].
  split; [reflexivity|]. vm_compute. reflexivity.
Qed.

(** ** The traces of the awaited operations *)

Ltac run_eff := cbv [Runtime.bind Runtime.ret Runtime.ask Runtime.tell Runtime.do_fetch Runtime.await].

Lemma verify_trace w sig resource :
  (Facilitator.verifyPayment sig resource w).2 =
  match decode w sig with
  | None => []
  | Some p =>
      [Fetch (Facilitator.post
                (X402.FACILITATOR_URL (X402.load (env w)) +:+ "/verify")
                (Facilitator.facilitator_body p
                   (X402.buildPaymentRequired (X402.load (env w)) resource))
                15000%N)]
  end.
Proof.
  unfold Facilitator.verifyPayment. run_eff.
  destruct (decode w sig) as [p|]; [|reflexivity].
  destruct (fetch w _) as [resp|msg]; [|reflexivity].
  destruct (negb (ok resp)); [reflexivity|].
  destruct (json resp) as [result|]; [|reflexivity].
  destruct (Json.get result "isValid") as [flag|]; [|reflexivity].
  destruct (negb (Json.truthy_opt flag)).
  - destruct (Json.get result "invalidReason"); reflexivity.
  - destruct (Json.get result "payer"); reflexivity.
Qed.

Lemma settle_trace w sig resource :
  (Facilitator.settlePayment sig resource w).2 =
  match decode w sig with
  | None => []
  | Some p =>
      [Fetch (Facilitator.post
                (X402.FACILITATOR_URL (X402.load (env w)) +:+ "/settle")
                (Facilitator.facilitator_body p
                   (X402.buildPaymentRequired (X402.load (env w)) resource))
                30000%N)]
  end.
Proof.
  unfold Facilitator.settlePayment. run_eff.
  destruct (decode w sig) as [p|]; [|reflexivity].
  destruct (fetch w _) as [resp|msg]; [|reflexivity].
  destruct (negb (ok resp)); [reflexivity|].
  destruct (json resp) as [result|]; reflexivity.
Qed.

Lemma execute_inner w q :
  forallb Trace.inner (SearchExec.executeSearch q w).2 = true.
Proof.
  unfold SearchExec.executeSearch, SearchExec.searchDuckDuckGo, SearchExec.fall_back. run_eff.
  destruct (String.eqb _ "stub"); [reflexivity|].
  destruct (fetch w _) as [resp|msg]; [|reflexivity].
  destruct (negb (ok resp)); [reflexivity|].
  destruct (text resp) as [html|]; [|reflexivity].
  destruct (scrape w html) as [[|r rs]|]; reflexivity.
Qed.

Lemma nonempty_string_nonempty h s :
  X402.nonempty_string h = Some s -> Js.is_empty s = false.
Proof.
  destruct h as [[x|l]|]; simpl; try discriminate.
  unfold Js.nonempty. destruct (Js.is_empty x) eqn:E; simpl; [discriminate|].
  intros [= <-]. exact E.
Qed.

Lemma extract_nonempty req sig :
  X402.extractPaymentSignature req = Some sig -> Js.is_empty sig = false.
Proof.
  unfold X402.extractPaymentSignature.
  destruct (X402.nonempty_string (Next.headers req !! "payment-signature")) eqn:E1.
  - intros [= <-]. eapply nonempty_string_nonempty, E1.
  - destruct (X402.nonempty_string (Next.headers req !! "x-payment")) eqn:E2; [|discriminate].
    intros [= <-]. eapply nonempty_string_nonempty, E2.
Qed.

Lemma run_paid w req sig :
  Api.not_get req = false ->
  Js.is_empty (Api.query_of req) = false ->
  X402.extractPaymentSignature req = Some sig ->
  X402.valid (Facilitator.verifyPayment sig Api.RESOURCE w).1 = true ->
  let V := Facilitator.verifyPayment sig Api.RESOURCE w in
  let E := SearchExec.executeSearch (Api.query_of req) w in
  let S := Facilitator.settlePayment sig Api.RESOURCE w in
  let C := Api.conclude (Api.query_of req) E.1 S.1 Next.fresh w in
  Api.run w req =
  (C.1,
   Call Verify :: V.2 ++ Resolve (Verified V.1)
   :: Call Execute :: E.2 ++ Resolve (Executed E.1)
   :: Call Settle :: S.2 ++ Resolve (Settled S.1) :: C.2).
Proof.
  intros Hget Hq Hsig Hvalid. cbv zeta.
  unfold Api.run, Api.handler. run_eff.
  rewrite Hget, Hq, Hsig, (extract_nonempty _ _ Hsig).
  destruct (Facilitator.verifyPayment sig Api.RESOURCE w) as [v tv].
  simpl in Hvalid. rewrite Hvalid. cbn [negb]. cbv beta iota.
  destruct (SearchExec.executeSearch (Api.query_of req) w) as [found te].
  destruct (Facilitator.settlePayment sig Api.RESOURCE w) as [s ts].
  simpl fst.
  destruct (Api.conclude _ found s Next.fresh w) as [o tc].
  simpl. f_equal. f_equal.
  repeat (rewrite <- ?List.app_assoc; simpl; try reflexivity).
Qed.

Lemma run_rejected w req sig :
  Api.not_get req = false ->
  Js.is_empty (Api.query_of req) = false ->
  X402.extractPaymentSignature req = Some sig ->
  X402.valid (Facilitator.verifyPayment sig Api.RESOURCE w).1 = false ->
  Api.run w req =
  (Api.Sent (X402.send402 (X402.load (env w)) Next.fresh Api.RESOURCE),
   Call Verify :: (Facilitator.verifyPayment sig Api.RESOURCE w).2
   ++ [ Resolve (Verified (Facilitator.verifyPayment sig Api.RESOURCE w).1);
        ConsoleWarn [ Some (Json.Str "[search] Payment verification failed:");
                      X402.verror (Facilitator.verifyPayment sig Api.RESOURCE w).1 ] ]).
Proof.
  intros Hget Hq Hsig Hvalid.
  unfold Api.run, Api.handler. run_eff.
  rewrite Hget, Hq, Hsig, (extract_nonempty _ _ Hsig).
  destruct (Facilitator.verifyPayment sig Api.RESOURCE w) as [v tv].
  simpl in Hvalid. rewrite Hvalid. cbn [negb]. cbv beta iota.
  simpl. f_equal. f_equal.
  repeat (rewrite <- ?List.app_assoc; simpl; try reflexivity).
Qed.

Lemma run_unpaid w req :
  Api.not_get req = false ->
  Js.is_empty (Api.query_of req) = false ->
  X402.extractPaymentSignature req = None ->
  Api.run w req =
  (Api.Sent (X402.send402 (X402.load (env w)) Next.fresh Api.RESOURCE), []).
Proof.
  intros Hget Hq Hsig.
  unfold Api.run, Api.handler. run_eff.
  rewrite Hget, Hq, Hsig. reflexivity.
Qed.

Lemma get_value_field s k x : Json.get s k = Json.Value x ->
  forall k', Json.get s k' = Json.Value (Json.field s k').
Proof.
  intros H k'. unfold Json.field. destruct s; try discriminate; reflexivity.
Qed.

Lemma send_results_value w q found s res flag :
  Json.get s "success" = Json.Value flag ->
  Api.send_results q found s res w =
  (Api.Sent (Next.json
               (Api.results_body (Identity.getAgentIdentity (env w)) q found
                  (Api.payment_of s))
               (Next.status 200 res)), []).
Proof.
  intros H. unfold Api.send_results, Api.reading, Api.payment_of. run_eff.
  rewrite !(get_value_field _ _ _ H).
  destruct (Json.truthy_opt (Json.field s "transaction")); reflexivity.
Qed.

Lemma conclude_value w q found s res flag :
  Json.get s "success" = Json.Value flag ->
  Api.conclude q found s res w =
  (Api.Sent (Next.json
               (Api.results_body (Identity.getAgentIdentity (env w)) q found
                  (Api.payment_of s))
               (Next.status 200
                  (if Json.truthy_opt flag
                   then Next.setHeader "PAYMENT-RESPONSE"
                          (X402.encodePaymentResponse s) res
                   else res))),
   if Json.truthy_opt flag then []
   else [ConsoleError [ Some (Json.Str "[search] Settlement failed:");
                        Json.field s "errorReason" ]]).
Proof.
  intros H. unfold Api.conclude, Api.reading. rewrite H.
  destruct (Json.truthy_opt flag).
  - apply (send_results_value _ _ _ _ _ _ H).
  - rewrite (get_value_field _ _ _ H). run_eff.
    rewrite (send_results_value _ _ _ _ _ _ H). reflexivity.
Qed.

Lemma calls_app op t u :
  Trace.calls op (t ++ u) = (Trace.calls op t + Trace.calls op u)%nat.
Proof. induction t as [|e t IH]; simpl; [reflexivity|]. rewrite IH. lia. Qed.

Lemma calls_inner op t : forallb Trace.inner t = true -> Trace.calls op t = 0%nat.
Proof.
  induction t as [|e t IH]; simpl; [reflexivity|].
  intros [He Ht]%andb_prop. rewrite (IH Ht). destruct e; simpl in *; try discriminate; reflexivity.
Qed.

Lemma inner_elem t e : forallb Trace.inner t = true -> e ∈ t -> Trace.inner e = true.
Proof.
  intros H Hin. rewrite forallb_forall in H. apply H. by apply list_elem_of_In.
Qed.

Lemma verify_inner w sig resource :
  forallb Trace.inner (Facilitator.verifyPayment sig resource w).2 = true.
Proof. rewrite verify_trace. destruct (decode w sig); reflexivity. Qed.

Lemma settle_inner w sig resource :
  forallb Trace.inner (Facilitator.settlePayment sig resource w).2 = true.
Proof. rewrite settle_trace. destruct (decode w sig); reflexivity. Qed.

Lemma conclude_inner w q found s res :
  forallb Trace.inner (Api.conclude q found s res w).2 = true.
Proof.
  destruct (Json.get s "success") as [flag|msg] eqn:E.
  - rewrite (conclude_value _ _ _ _ _ _ E). destruct (Json.truthy_opt flag); reflexivity.
  - unfold Api.conclude, Api.reading. rewrite E. reflexivity.
Qed.

Lemma calls_positive op pre post :
  (0 < Trace.calls op (pre ++ Call op :: post))%nat.
Proof. rewrite calls_app. simpl. destruct op; simpl; lia. Qed.

Lemma call_unique op (A B pre post : list Event) :
  Trace.calls op A = 0%nat -> Trace.calls op B = 0%nat ->
  A ++ Call op :: B = pre ++ Call op :: post -> pre = A.
Proof.
  revert pre. induction A as [|a A IH]; intros pre HA HB Heq.
  - destruct pre as [|p pre]; [reflexivity|]. simpl in Heq.
    injection Heq as _ Heq. pose proof (calls_positive op pre post) as Hpos.
    rewrite <- Heq in Hpos. lia.
  - destruct pre as [|p pre]; simpl in Heq.
    + injection Heq as Ha _. subst a. simpl in HA. destruct op; simpl in HA; lia.
    + injection Heq as -> Heq. f_equal. apply IH; [|exact HB|exact Heq].
      simpl in HA. lia.
Qed.

Lemma run_quiet w req :
  Api.not_get req = true \/ Js.is_empty (Api.query_of req) = true
  \/ X402.extractPaymentSignature req = None ->
  exists res, Api.run w req = (Api.Sent res, []).
Proof.
  unfold Api.run, Api.handler. run_eff.
  intros [H|[H|H]].
  - rewrite H. eauto.
  - destruct (Api.not_get req); [eauto|]. rewrite H. eauto.
  - destruct (Api.not_get req); [eauto|].
    destruct (Js.is_empty (Api.query_of req)); [eauto|]. rewrite H. eauto.
Qed.

(** The three ways a run goes. *)
Lemma run_cases w req :
  (exists res, Api.run w req = (Api.Sent res, []))
  \/ (exists sig,
        X402.extractPaymentSignature req = Some sig
        /\ X402.valid (Facilitator.verifyPayment sig Api.RESOURCE w).1 = false
        /\ Api.run w req =
           (Api.Sent (X402.send402 (X402.load (env w)) Next.fresh Api.RESOURCE),
            Call Verify :: (Facilitator.verifyPayment sig Api.RESOURCE w).2
            ++ [ Resolve (Verified (Facilitator.verifyPayment sig Api.RESOURCE w).1);
                 ConsoleWarn
                   [ Some (Json.Str "[search] Payment verification failed:");
                     X402.verror (Facilitator.verifyPayment sig Api.RESOURCE w).1 ] ]))
  \/ (exists sig,
        X402.extractPaymentSignature req = Some sig
        /\ X402.valid (Facilitator.verifyPayment sig Api.RESOURCE w).1 = true
        /\ Api.run w req =
           ((Api.conclude (Api.query_of req)
               (SearchExec.executeSearch (Api.query_of req) w).1
               (Facilitator.settlePayment sig Api.RESOURCE w).1 Next.fresh w).1,
            Call Verify :: (Facilitator.verifyPayment sig Api.RESOURCE w).2
            ++ Resolve (Verified (Facilitator.verifyPayment sig Api.RESOURCE w).1)
            :: Call Execute :: (SearchExec.executeSearch (Api.query_of req) w).2
            ++ Resolve (Executed (SearchExec.executeSearch (Api.query_of req) w).1)
            :: Call Settle :: (Facilitator.settlePayment sig Api.RESOURCE w).2
            ++ Resolve (Settled (Facilitator.settlePayment sig Api.RESOURCE w).1)
            :: (Api.conclude (Api.query_of req)
                  (SearchExec.executeSearch (Api.query_of req) w).1
                  (Facilitator.settlePayment sig Api.RESOURCE w).1 Next.fresh w).2)).
Proof.
  destruct (Api.not_get req) eqn:Hget; [left; apply run_quiet; auto|].
  destruct (Js.is_empty (Api.query_of req)) eqn:Hq; [left; apply run_quiet; auto|].
  destruct (X402.extractPaymentSignature req) as [sig|] eqn:Hsig;
    [|left; apply run_quiet; auto].
  right.
  destruct (X402.valid (Facilitator.verifyPayment sig Api.RESOURCE w).1) eqn:Hv.
  - right. exists sig. split; [reflexivity|]. split; [exact Hv|].
    apply run_paid; assumption.
  - left. exists sig. split; [reflexivity|]. split; [exact Hv|].
    apply run_rejected; assumption.
Qed.

Ltac inner_facts w req sig :=
  pose proof (verify_inner w sig Api.RESOURCE);
  pose proof (settle_inner w sig Api.RESOURCE);
  pose proof (execute_inner w (Api.query_of req));
  pose proof (conclude_inner w (Api.query_of req)
                (SearchExec.executeSearch (Api.query_of req) w).1
                (Facilitator.settlePayment sig Api.RESOURCE w).1 Next.fresh).

Ltac count_calls :=
  repeat (rewrite ?calls_app; simpl Trace.calls);
  repeat match goal with
         | H : forallb Trace.inner ?t = true |- context [Trace.calls ?op ?t] =>
             rewrite (calls_inner op t H)
         end;
  simpl; try lia.

Ltac not_inner :=
  match goal with
  | H : forallb Trace.inner ?t = true, Hin : _ ∈ ?t |- _ =>
      apply (inner_elem _ _ H) in Hin; discriminate Hin
  end.

(** ** The order of the steps *)

(** What holds in every run of the handler: the search is started at
    most once, and only after a verification that resolved with [valid]
    true; the settlement is started at most once, and only after the
    search was started and has resolved. Whatever the settlement resolves
    to with a [success] member to read -- truthy (success), or falsy or
    missing (failure) -- the handler sends the 200 response with the
    results of that search; the outcome only decides the
    [PAYMENT-RESPONSE] header. *)
Theorem search_and_settlement_run_once_in_order (w : World) (req : Next.Request) :
  let tr := (Api.run w req).2 in
  (Trace.calls Execute tr <= 1)%nat
  /\ (forall pre post, tr = pre ++ Call Execute :: post ->
        exists v, Resolve (Verified v) ∈ pre /\ X402.valid v = true)
  /\ (Trace.calls Settle tr <= 1)%nat
  /\ (forall pre post, tr = pre ++ Call Settle :: post ->
        exists found, Call Execute ∈ pre /\ Resolve (Executed found) ∈ pre)
  /\ (forall s flag,
        Resolve (Settled s) ∈ tr -> Json.get s "success" = Json.Value flag ->
        exists res found,
          (Api.run w req).1 = Api.Sent res
          /\ Next.statusCode res = 200%N
          /\ Resolve (Executed found) ∈ tr
          /\ Api.body_member res "results"
             = Some (Json.Arr (Search.result_json <$> Search.results found))
          /\ Next.sent_headers res !! "PAYMENT-RESPONSE"
             = if Json.truthy_opt flag
               then Some (X402.encodePaymentResponse s) else None).
Proof.
  destruct (run_cases w req) as [[res Hrun]|[(sig & Hsig & Hv & Hrun)|(sig & Hsig & Hv & Hrun)]];
    rewrite Hrun; cbn [fst snd]; cbv zeta.
  - repeat split; simpl; try lia.
    + intros [|? ?] ? ?; discriminate.
    + intros [|? ?] ? ?; discriminate.
    + intros s flag Hin. inversion Hin.
  - inner_facts w req sig.
    set (V := Facilitator.verifyPayment sig Api.RESOURCE w) in *.
    repeat split.
    + count_calls.
    + intros pre post Heq. exfalso.
      pose proof (calls_positive Execute pre post) as Hpos. rewrite <- Heq in Hpos.
      revert Hpos. count_calls.
    + count_calls.
    + intros pre post Heq. exfalso.
      pose proof (calls_positive Settle pre post) as Hpos. rewrite <- Heq in Hpos.
      revert Hpos. count_calls.
    + intros s flag Hin. exfalso.
      rewrite elem_of_cons, elem_of_app, !elem_of_cons in Hin.
      destruct Hin as [Hin|[Hin|[Hin|[Hin|Hin]]]]; try discriminate; try not_inner.
      inversion Hin.
  - inner_facts w req sig.
    set (V := Facilitator.verifyPayment sig Api.RESOURCE w) in *.
    set (E := SearchExec.executeSearch (Api.query_of req) w) in *.
    set (S := Facilitator.settlePayment sig Api.RESOURCE w) in *.
    set (C := Api.conclude (Api.query_of req) E.1 S.1 Next.fresh w) in *.
    repeat split.
    + count_calls.
    + intros pre post Heq.
      assert (Hpre : pre = Call Verify :: V.2 ++ [Resolve (Verified V.1)]).
      { apply (call_unique Execute _
                 (E.2 ++ Resolve (Executed E.1) :: Call Settle :: S.2
                  ++ Resolve (Settled S.1) :: C.2) _ post).
        - count_calls.
        - count_calls.
        - rewrite <- Heq. simpl. rewrite <- app_assoc. reflexivity. }
      exists V.1. split; [|exact Hv].
      rewrite Hpre. rewrite elem_of_cons, elem_of_app, list_elem_of_singleton. auto.
    + count_calls.
    + intros pre post Heq.
      assert (Hpre : pre = Call Verify :: V.2 ++ Resolve (Verified V.1)
                           :: Call Execute :: E.2 ++ [Resolve (Executed E.1)]).
      { apply (call_unique Settle _ (S.2 ++ Resolve (Settled S.1) :: C.2) _ post).
        - count_calls.
        - count_calls.
        - rewrite <- Heq. simpl. rewrite <- !app_assoc. simpl.
          rewrite <- !app_assoc. reflexivity. }
      exists E.1. rewrite Hpre.
      rewrite !elem_of_cons, !elem_of_app, !elem_of_cons, !elem_of_app,
        !list_elem_of_singleton. split; auto 10.
    + intros s flag Hin Hflag.
      assert (Hs : s = S.1).
      { repeat (rewrite elem_of_cons in Hin || rewrite elem_of_app in Hin).
        repeat match type of Hin with
               | _ \/ _ => destruct Hin as [Hin|Hin]
               end; try discriminate; try not_inner.
        congruence. }
      subst s. subst C. rewrite (conclude_value _ _ _ _ _ _ Hflag). cbn [fst snd].
      eexists _, E.1. split; [reflexivity|]. split; [reflexivity|]. split; [|split].
      * repeat (rewrite elem_of_cons || rewrite elem_of_app). auto 10.
      * reflexivity.
      * destruct (Json.truthy_opt flag); reflexivity.
Qed.

Lemma search_and_settlement_run_once_in_order_witness :
  (Trace.calls Execute (Api.run Sample.refused_world Sample.paid).2 <= 1)%nat
  /\ (Trace.calls Settle (Api.run Sample.refused_world Sample.paid).2 <= 1)%nat
  /\ exists res,
       (Api.run Sample.refused_world Sample.paid).1 = Api.Sent res
       /\ Next.statusCode res = 200%N
       /\ Next.sent_headers res !! "PAYMENT-RESPONSE" = None.
Proof.
  destruct (search_and_settlement_run_once_in_order Sample.refused_world Sample.paid)
    as (Hexec & _ & Hsettle & _ & Hsent).
  split; [exact Hexec|]. split; [exact Hsettle|].
  destruct (Hsent (Json.Obj [("success", Json.Bool false);
                             ("errorReason", Json.Str "insufficient funds")])
              (Some (Json.Bool false)))
    as (res & found & Hrun & Hstatus & _ & _ & Hheader).
  - vm_compute.
    repeat first [ apply list_elem_of_here | apply list_elem_of_further ].
  - reflexivity.
  - exists res. split; [exact Hrun|]. split; [exact Hstatus|exact Hheader].
Defined.

(** An answer of [/settle] that is the JSON text [null] has no [success]
    member to read: it is neither of the two cases above, and the read
    throws. *)
Lemma null_settlement_throws w q found res :
  Api.conclude q found Json.Null res w =
  (Api.Threw "Cannot read properties of null (reading 'success')", []).
Proof. reflexivity. Qed.

(** C1. A [/settle] answer with a success status and the JSON text
    [null] blocks the result response. [settlePayment] returns the parsed
    body unread, so it resolves to [null]; the handler reads
    [settlement.success] outside any [try] and throws. At this input the
    payment was verified, the search ran once and the settlement was
    attempted once, and no response is sent. The sibling [verifyPayment]
    reads [result.isValid] inside its [try]: the same body from [/verify]
    resolves to a negative verification, and the handler answers 402. *)
Theorem null_settle_answer_blocks_the_response :
  let run := Api.run Sample.null_world Sample.paid in
  run.1 = Api.Threw "Cannot read properties of null (reading 'success')"
  /\ (forall res, run.1 <> Api.Sent res)
  /\ Trace.calls Verify run.2 = 1%nat
  /\ Trace.calls Execute run.2 = 1%nat
  /\ Trace.calls Settle run.2 = 1%nat
  /\ (exists v, Resolve (Verified v) ∈ run.2 /\ X402.valid v = true)
  /\ Resolve (Executed {| Search.results := Search.stubResults "bitcoin";
                          Search.mode := Search.fallback_stub |}) ∈ run.2
  /\ Resolve (Settled Json.Null) ∈ run.2
  /\ X402.valid
       (Facilitator.verifyPayment "e30=" Api.RESOURCE Cases.verify_null_world).1
     = false
  /\ (exists res,
        (Api.run Cases.verify_null_world Sample.paid).1 = Api.Sent res
        /\ Next.statusCode res = 402).
Proof.
  cbv zeta.
  assert (Hrun : (Api.run Sample.null_world Sample.paid).1
                 = Api.Threw "Cannot read properties of null (reading 'success')")
    by (vm_compute; reflexivity).
  split; [exact Hrun|]. split; [intros res H; rewrite Hrun in H; discriminate|].
  split; [vm_compute; reflexivity|]. split; [vm_compute; reflexivity|].
  split; [vm_compute; reflexivity|]. split; [|split; [|split; [|split]]].
  - eexists. split.
    + vm_compute. apply list_elem_of_further, list_elem_of_further, list_elem_of_here.
    + reflexivity.
  - vm_compute.
    repeat first [ apply list_elem_of_here | apply list_elem_of_further ].
  - vm_compute.
    repeat first [ apply list_elem_of_here | apply list_elem_of_further ].
  - vm_compute. reflexivity.
  - eexists. split; [vm_compute; reflexivity|reflexivity].
Qed.

(** ** Requests that never reach the facilitator *)

Lemma not_get_true req : Next.method req <> Some "GET" -> Api.not_get req = true.
Proof.
  unfold Api.not_get. destruct (Next.method req) as [m|]; [|reflexivity].
  intros H. destruct (String.eqb m "GET") eqn:E; [|reflexivity].
  apply String.eqb_eq in E. subst m. contradiction.
Qed.

Lemma not_get_false req : Next.method req = Some "GET" -> Api.not_get req = false.
Proof. unfold Api.not_get. intros ->. reflexivity. Qed.

Lemma is_empty_false s : s <> EmptyString -> Js.is_empty s = false.
Proof. destruct s; [contradiction|reflexivity]. Qed.

Lemma extract_absent req :
  Next.headers req !! "payment-signature" = None ->
  Next.headers req !! "x-payment" = None ->
  X402.extractPaymentSignature req = None.
Proof. unfold X402.extractPaymentSignature. intros -> ->. reflexivity. Qed.

(** C10. A request whose method is not GET is answered 405 with the body
    [{error: "Method not allowed"}] and no header of the handler's, and the
    run leaves no trace: the query is not looked at, no token is extracted,
    nothing is verified, searched or settled, and nothing is fetched. *)
Theorem non_get_answered_405_first (w : World) (req : Next.Request) :
  Next.method req <> Some "GET" ->
  Api.run w req =
  (Api.Sent {| Next.sent_headers := ∅;
               Next.statusCode := 405;
               Next.body := Some (Json.Obj [("error", Json.Str "Method not allowed")]) |},
   []).
Proof.
  intros H. unfold Api.run, Api.handler. run_eff.
  rewrite (not_get_true _ H). reflexivity.
Qed.

Lemma non_get_answered_405_first_witness :
  Next.method Sample.posted <> Some "GET"
  /\ Api.run Sample.settled_world Sample.posted =
     (Api.Sent {| Next.sent_headers := ∅;
                  Next.statusCode := 405;
                  Next.body := Some (Json.Obj [("error", Json.Str "Method not allowed")]) |},
      []).
Proof.
  assert (H : Next.method Sample.posted <> Some "GET") by (simpl; discriminate).
  split; [exact H|].
  exact (non_get_answered_405_first Sample.settled_world Sample.posted H).
Defined.

(** C4. A GET request with a query that is not empty after trimming and
    with neither [payment-signature] nor [x-payment] among its headers is
    answered 402: the body is the challenge of the resource (its members,
    followed by the error text), the [PAYMENT-REQUIRED] header is the
    base64 of the JSON text of that challenge, the [WWW-Authenticate]
    header names the facilitator, and the run fetches nothing. *)
Theorem unpaid_request_is_challenged (w : World) (req : Next.Request) :
  Next.method req = Some "GET" ->
  Api.query_of req <> EmptyString ->
  Next.headers req !! "payment-signature" = None ->
  Next.headers req !! "x-payment" = None ->
  let challenge := X402.buildPaymentRequired (X402.load (env w)) Api.RESOURCE in
  exists res members,
    Api.run w req = (Api.Sent res, [])
    /\ Next.statusCode res = 402
    /\ X402.challenge_json challenge = Json.Obj members
    /\ Next.body res =
       Some (Json.Obj
               (members
                ++ [("error",
                     Json.Str "Payment required. Include PAYMENT-SIGNATURE header with a valid x402 payment.")]))
    /\ Next.sent_headers res !! "PAYMENT-REQUIRED"
       = Some (Js.base64 (Json.stringify (X402.challenge_json challenge)))
    /\ Next.sent_headers res !! "WWW-Authenticate"
       = Some ("x402 facilitator=" +:+ Json.quote_mark
               +:+ X402.FACILITATOR_URL (X402.load (env w)) +:+ Json.quote_mark)
    /\ Trace.requests (Api.run w req).2 = [].
Proof.
  intros Hget Hq H2 H1 challenge.
  rewrite (run_unpaid w req (not_get_false _ Hget) (is_empty_false _ Hq)
             (extract_absent _ H2 H1)).
  eexists _, _. split; [reflexivity|]. split; [reflexivity|].
  split; [reflexivity|]. split; [reflexivity|]. split; [reflexivity|].
  split; reflexivity.
Qed.

Lemma unpaid_request_is_challenged_witness :
  Next.method Sample.unpaid = Some "GET"
  /\ Api.query_of Sample.unpaid <> EmptyString
  /\ Next.headers Sample.unpaid !! "payment-signature" = None
  /\ Next.headers Sample.unpaid !! "x-payment" = None
  /\ exists res,
       Api.run Sample.settled_world Sample.unpaid = (Api.Sent res, [])
       /\ Next.statusCode res = 402
       /\ Next.sent_headers res !! "WWW-Authenticate"
          = Some ("x402 facilitator=" +:+ Json.quote_mark
                  +:+ "https://www.x402.org/facilitator" +:+ Json.quote_mark).
Proof.
  assert (Hq : Api.query_of Sample.unpaid <> EmptyString) by discriminate.
  split; [reflexivity|]. split; [exact Hq|].
  split; [reflexivity|]. split; [reflexivity|].
  destruct (unpaid_request_is_challenged Sample.settled_world Sample.unpaid
              eq_refl Hq eq_refl eq_refl)
    as (res & members & Hrun & Hstatus & _ & _ & _ & Hwww & _).
  exists res. split; [exact Hrun|]. split; [exact Hstatus|exact Hwww].
Defined.

(** ** The facilitator client *)

(** C6. When the token does not decode, [verifyPayment] resolves to an
    outcome with [valid] false and [settlePayment] to an outcome whose
    [success] is [false], each with the error text of the decoding, and
    neither fetches anything: their traces are empty. *)
Theorem undecodable_token_short_circuits (w : World) (token resource : string) :
  decode w token = None ->
  (exists v,
      Facilitator.verifyPayment token resource w = (v, [])
      /\ X402.valid v = false
      /\ X402.verror v = Some (Json.Str "Invalid payment signature encoding"))
  /\ (exists s,
        Facilitator.settlePayment token resource w = (s, [])
        /\ Json.get s "success" = Json.Value (Some (Json.Bool false))
        /\ Json.get s "errorReason"
           = Json.Value (Some (Json.Str "Invalid payment signature encoding"))).
Proof.
  intros H. split.
  - unfold Facilitator.verifyPayment. run_eff. rewrite H.
    eexists. split; [reflexivity|]. split; reflexivity.
  - unfold Facilitator.settlePayment. run_eff. rewrite H.
    eexists. split; [reflexivity|]. split; reflexivity.
Qed.

Lemma undecodable_token_short_circuits_witness :
  decode Sample.settled_world "not json" = None
  /\ (Facilitator.verifyPayment "not json" Api.RESOURCE Sample.settled_world).2 = []
  /\ (Facilitator.settlePayment "not json" Api.RESOURCE Sample.settled_world).2 = [].
Proof.
  assert (H : decode Sample.settled_world "not json" = None) by reflexivity.
  split; [exact H|].
  destruct (undecodable_token_short_circuits Sample.settled_world "not json"
              Api.RESOURCE H) as [(v & Hv & _) [s [Hs _]]].
  rewrite Hv, Hs. split; reflexivity.
Defined.

(** ** The signature extractor *)

Lemma lower_idempotent c : Js.lower (Js.lower c) = Js.lower c.
Proof.
  destruct c as [[] [] [] [] [] [] [] []]; reflexivity.
Qed.

Lemma toLowerCase_idempotent s : Js.toLowerCase (Js.toLowerCase s) = Js.toLowerCase s.
Proof.
  induction s as [|c s IH]; simpl; [reflexivity|].
  rewrite lower_idempotent, IH. reflexivity.
Qed.

Lemma add_header_line_lower m line :
  Next.add_header_line m (Next.lower_name line) = Next.add_header_line m line.
Proof.
  unfold Next.add_header_line, Next.lower_name. simpl.
  rewrite toLowerCase_idempotent. reflexivity.
Qed.

Lemma foldl_add_lower lines : forall m,
  foldl Next.add_header_line m (Next.lower_name <$> lines)
  = foldl Next.add_header_line m lines.
Proof.
  induction lines as [|l lines IH]; intros m; simpl; [reflexivity|].
  rewrite add_header_line_lower. apply IH.
Qed.

Lemma incoming_headers_lower lines :
  Next.incoming_headers (Next.lower_name <$> lines) = Next.incoming_headers lines.
Proof. apply foldl_add_lower. Qed.

Lemma nonempty_true s : s <> EmptyString -> Js.nonempty s = true.
Proof. destruct s; [contradiction|reflexivity]. Qed.

Lemma single_line_headers name value :
  Next.incoming_headers [(name, value)] !! Js.toLowerCase name
  = Some (if String.eqb (Js.toLowerCase name) "set-cookie"
          then Next.Many [value] else Next.One value).
Proof.
  unfold Next.incoming_headers, Next.add_header_line. simpl.
  rewrite lookup_empty. apply lookup_insert_eq.
Qed.

(** C9. [extractPaymentSignature] returns the string found under
    [payment-signature] when it is not empty, whatever it holds; else the
    string found under [x-payment] when it is not empty; else [null]. An
    empty string counts as absent in both slots. The result is never the
    empty string, and it does not depend on the case of the header names
    of the request: Node lower-cases them before the lookup. *)
Theorem extractor_reads_two_slots :
  (* the current slot, returned as it is *)
  (forall req s,
      Next.headers req !! "payment-signature" = Some (Next.One s) ->
      s <> EmptyString ->
      X402.extractPaymentSignature req = Some s)
  (* the legacy slot, when the current one is absent or empty *)
  /\ (forall req s,
        Next.headers req !! "payment-signature" = None
        \/ Next.headers req !! "payment-signature" = Some (Next.One EmptyString) ->
        Next.headers req !! "x-payment" = Some (Next.One s) ->
        s <> EmptyString ->
        X402.extractPaymentSignature req = Some s)
  (* both absent or empty: null *)
  /\ (forall req,
        Next.headers req !! "payment-signature" = None
        \/ Next.headers req !! "payment-signature" = Some (Next.One EmptyString) ->
        Next.headers req !! "x-payment" = None
        \/ Next.headers req !! "x-payment" = Some (Next.One EmptyString) ->
        X402.extractPaymentSignature req = None)
  (* never the empty string *)
  /\ (forall req s, X402.extractPaymentSignature req = Some s -> s <> EmptyString)
  (* the case of the names on the wire does not matter *)
  /\ (forall m q lines lines',
        Next.lower_name <$> lines = Next.lower_name <$> lines' ->
        X402.extractPaymentSignature
          {| Next.method := m; Next.query := q;
             Next.headers := Next.incoming_headers lines |}
        = X402.extractPaymentSignature
            {| Next.method := m; Next.query := q;
               Next.headers := Next.incoming_headers lines' |})
  /\ (forall m q name value,
        Js.toLowerCase name = "payment-signature"
        \/ Js.toLowerCase name = "x-payment" ->
        value <> EmptyString ->
        X402.extractPaymentSignature
          {| Next.method := m; Next.query := q;
             Next.headers := Next.incoming_headers [(name, value)] |}
        = Some value).
Proof.
  unfold X402.extractPaymentSignature.
  split; [|split; [|split; [|split; [|split]]]].
  - intros req s -> Hs. simpl. rewrite (nonempty_true _ Hs). reflexivity.
  - intros req s [-> | ->] -> Hs; simpl; rewrite (nonempty_true _ Hs); reflexivity.
  - intros req [-> | ->] [-> | ->]; reflexivity.
  - intros req s H ->.
    pose proof (extract_nonempty req EmptyString H). discriminate.
  - intros m q lines lines' H. simpl.
    rewrite <- (incoming_headers_lower lines), <- (incoming_headers_lower lines'), H.
    reflexivity.
  - intros m q name value Hname Hv. simpl.
    pose proof (single_line_headers name value) as Hl.
    destruct Hname as [E|E]; rewrite E in Hl; simpl in Hl.
    + rewrite Hl. simpl. rewrite (nonempty_true _ Hv). reflexivity.
    + assert (Hnone : Next.incoming_headers [(name, value)] !! "payment-signature" = None).
      { unfold Next.incoming_headers, Next.add_header_line. simpl.
        rewrite lookup_empty, E. simpl.
        rewrite lookup_insert_ne by discriminate. apply lookup_empty. }
      rewrite Hnone, Hl. simpl. rewrite (nonempty_true _ Hv). reflexivity.
Qed.

Lemma extractor_reads_two_slots_witness :
  X402.extractPaymentSignature
    {| Next.method := Some "GET"; Next.query := ∅;
       Next.headers := Next.incoming_headers [("X-Payment", "e30=")] |}
  = Some "e30="
  /\ X402.extractPaymentSignature
       {| Next.method := Some "GET"; Next.query := ∅;
          Next.headers :=
            {[ "payment-signature" := Next.One EmptyString;
               "x-payment" := Next.One "not json" ]} |}
     = Some "not json".
Proof.
  destruct extractor_reads_two_slots as (_ & Hlegacy & _ & _ & _ & Hcase).
  split.
  - apply Hcase; [right; reflexivity|discriminate].
  - apply Hlegacy; [right; reflexivity|reflexivity|discriminate].
Defined.

(** ** The challenge builder *)

(** C7. For every configuration and resource path the challenge offers
    exactly one requirement: its scheme is ["exact"], its amount is the
    price constant, its network, asset and payee are those of the
    configuration, and its [extra] member carries the signing domain (asset
    name ["USD Coin"], version ["2"]). The price constant is the canonical
    decimal writing of the integer 2000, which is 0.002 units of an asset
    with six decimals. A setting that the environment lacks, or holds as
    the empty string, takes its default. The builder is a function of the
    configuration and the path alone: it has no effect and no failure. *)
Theorem builder_offers_one_exact_requirement :
  (forall cfg resource,
      exists r,
        X402.accepts (X402.buildPaymentRequired cfg resource) = [r]
        /\ X402.scheme r = "exact"
        /\ X402.amount r = X402.PRICE_UNITS
        /\ X402.network r = X402.NETWORK cfg
        /\ X402.asset r = X402.ASSET_ADDRESS cfg
        /\ X402.payTo r = X402.PAY_TO cfg
        /\ Json.assoc "name" (X402.extra r) = Some (Json.Str "USD Coin")
        /\ Json.assoc "version" (X402.extra r) = Some (Json.Str "2")
        /\ X402.url (X402.resource (X402.buildPaymentRequired cfg resource))
           = resource)
  /\ (Js.decimal_value X402.PRICE_UNITS = Some 2000
      /\ pretty 2000 = X402.PRICE_UNITS
      /\ 2000 * 10 ^ 3 = 2 * 10 ^ 6)
  /\ (forall env : gmap string string,
        (env !! "X402_FACILITATOR_URL" = None
         \/ env !! "X402_FACILITATOR_URL" = Some EmptyString ->
         X402.FACILITATOR_URL (X402.load env) = "https://www.x402.org/facilitator")
        /\ (env !! "X402_PAY_TO_ADDRESS" = None
            \/ env !! "X402_PAY_TO_ADDRESS" = Some EmptyString ->
            X402.PAY_TO (X402.load env) = EmptyString)
        /\ (env !! "X402_NETWORK" = None
            \/ env !! "X402_NETWORK" = Some EmptyString ->
            X402.NETWORK (X402.load env) = "eip155:84532")
        /\ (env !! "X402_ASSET_ADDRESS" = None
            \/ env !! "X402_ASSET_ADDRESS" = Some EmptyString ->
            X402.ASSET_ADDRESS (X402.load env)
            = "0x036CbD53842c5426634e7929541eC2318f3dCF7e")).
Proof.
  split; [|split].
  - intros cfg resource. eexists. repeat split.
  - repeat split.
  - intros env. unfold X402.load. simpl.
    repeat split; intros [-> | ->]; reflexivity.
Qed.

Lemma builder_offers_one_exact_requirement_witness :
  X402.NETWORK (X402.load ∅) = "eip155:84532"
  /\ X402.ASSET_ADDRESS (X402.load ∅) = "0x036CbD53842c5426634e7929541eC2318f3dCF7e"
  /\ exists r,
       X402.accepts (X402.buildPaymentRequired (X402.load ∅) "/api/search") = [r]
       /\ X402.amount r = "2000".
Proof.
  destruct builder_offers_one_exact_requirement as (Hone & _ & Hdefault).
  destruct (Hdefault ∅) as (_ & _ & Hnet & Hasset).
  split; [apply Hnet; left; reflexivity|].
  split; [apply Hasset; left; reflexivity|].
  destruct (Hone (X402.load ∅) "/api/search") as (r & Hr & _ & Hamount & _).
  exists r. split; [exact Hr|exact Hamount].
Defined.

Lemma append_assoc (a b c : string) : (a +:+ b) +:+ c = a +:+ b +:+ c.
Proof.
  induction a as [|x a IH]; [reflexivity|].
  change (String x ((a +:+ b) +:+ c) = String x (a +:+ b +:+ c)).
  f_equal. exact IH.
Qed.

(** C5. Every request that [verifyPayment] or [settlePayment] sends for a
    resource path carries, as its [paymentRequirements] member, the one
    requirement that the 402 response for the same path offers in
    [accepts]: the same value, hence the same JSON text. Its amount is
    the price constant and its asset that of the configuration, and the
    requirement is the same for every path. *)
Theorem facilitator_gets_the_offered_requirement
    (w : World) (token resource : string) (r : HttpRequest) :
  r ∈ Trace.requests (Facilitator.verifyPayment token resource w).2
  \/ r ∈ Trace.requests (Facilitator.settlePayment token resource w).2 ->
  exists p q,
    decode w token = Some p
    /\ X402.accepts (X402.buildPaymentRequired (X402.load (env w)) resource) = [q]
    /\ payload r =
       Some (Json.stringify
               (Json.Obj [ ("paymentPayload", p);
                           ("paymentRequirements", X402.requirement_json q) ]))
    /\ payload r =
       Some ("{" +:+ Json.quote "paymentPayload" +:+ ":" +:+ Json.stringify p
             +:+ "," +:+ Json.quote "paymentRequirements" +:+ ":"
             +:+ Json.stringify (X402.requirement_json q) +:+ "}")
    /\ Api.body_member (X402.send402 (X402.load (env w)) Next.fresh resource)
         "accepts"
       = Some (Json.Arr [X402.requirement_json q])
    /\ Json.stringify (Json.Arr [X402.requirement_json q])
       = "[" +:+ Json.stringify (X402.requirement_json q) +:+ "]"
    /\ X402.amount q = X402.PRICE_UNITS
    /\ X402.asset q = X402.ASSET_ADDRESS (X402.load (env w))
    /\ forall resource',
         X402.accepts (X402.buildPaymentRequired (X402.load (env w)) resource')
         = [q].
Proof.
  rewrite verify_trace, settle_trace.
  destruct (decode w token) as [p|].
  - intros H. exists p. eexists. split; [reflexivity|]. split; [reflexivity|].
    assert (Hr : payload r =
                 Some (Json.stringify
                         (Facilitator.facilitator_body p
                            (X402.buildPaymentRequired (X402.load (env w)) resource)))).
    { simpl in H. destruct H as [H|H];
        apply list_elem_of_singleton in H; subst r; reflexivity. }
    split; [exact Hr|]. split.
    { rewrite Hr. unfold Facilitator.facilitator_body. simpl.
      rewrite !append_assoc. reflexivity. }
    repeat split.
  - simpl. intros [H|H]; inversion H.
Qed.

Lemma facilitator_gets_the_offered_requirement_witness :
  exists q,
    X402.accepts (X402.buildPaymentRequired (X402.load ∅) "/api/search") = [q]
    /\ payload (Facilitator.verify_request Sample.settled_world (Json.Obj []) "/api/search")
       = Some ("{" +:+ Json.quote "paymentPayload" +:+ ":{},"
               +:+ Json.quote "paymentRequirements" +:+ ":"
               +:+ Json.stringify (X402.requirement_json q) +:+ "}").
Proof.
  destruct (facilitator_gets_the_offered_requirement Sample.settled_world "e30="
              "/api/search"
              (Facilitator.verify_request Sample.settled_world (Json.Obj []) "/api/search"))
    as (p & q & Hp & Hq & _ & Htext & _).
  - left. rewrite verify_trace. simpl. apply list_elem_of_singleton. reflexivity.
  - exists q. split; [exact Hq|]. rewrite Htext.
    injection Hp as <-. reflexivity.
Defined.

(** ** The search executor *)

Lemma search_failure w query :
  SearchExec.live_failure w query ->
  exists message,
    (SearchExec.searchDuckDuckGo query w).1 = Rejected message
    \/ (SearchExec.searchDuckDuckGo query w).1 = Fulfilled [].
Proof.
  unfold SearchExec.searchDuckDuckGo. run_eff.
  intros [m H|resp H Hok|resp m H Hok Ht|resp html m H Hok Ht Hs|resp html H Hok Ht Hs];
    rewrite H; try rewrite Hok; try rewrite Ht; try rewrite Hs; simpl;
    first [ eexists; left; reflexivity | exists EmptyString; right; reflexivity ].
Qed.

(** C8. Under the live strategy (the provider setting, lower-cased, is
    not ["stub"]), whenever the live search fails -- the request fails or
    times out, the status is not a success, the page cannot be read, the
    scraper throws, or no result is parsed -- [executeSearch] still
    resolves: to the stub results of the query, five of them, with the
    tag ["fallback_stub"]. The stub results are a function of the query
    string alone. *)
Theorem failed_live_search_falls_back (w : World) (query : string) :
  SearchExec.provider (env w) <> "stub" ->
  SearchExec.live_failure w query ->
  exists t,
    SearchExec.executeSearch query w =
    ({| Search.results := Search.stubResults query;
        Search.mode := Search.fallback_stub |}, t)
    /\ Search.mode_tag Search.fallback_stub = "fallback_stub"
    /\ length (Search.stubResults query) = 5%nat
    /\ Search.stubResults query <> [].
Proof.
  intros Hlive Hfail.
  destruct (search_failure w query Hfail) as [message Hsearch].
  unfold SearchExec.executeSearch, SearchExec.fall_back. run_eff.
  destruct (String.eqb (SearchExec.provider (env w)) "stub") eqn:E.
  { apply String.eqb_eq in E. contradiction. }
  destruct (SearchExec.searchDuckDuckGo query w) as [found t].
  simpl in Hsearch. destruct Hsearch as [-> | ->];
    (eexists; split; [reflexivity|]; split; [reflexivity|];
     split; [reflexivity|discriminate]).
Qed.

Lemma failed_live_search_falls_back_witness :
  SearchExec.provider (env Sample.offline_world) <> "stub"
  /\ SearchExec.live_failure Sample.offline_world "bitcoin"
  /\ (SearchExec.executeSearch "bitcoin" Sample.offline_world).1 =
     {| Search.results := Search.stubResults "bitcoin";
        Search.mode := Search.fallback_stub |}.
Proof.
  assert (Hlive : SearchExec.provider (env Sample.offline_world) <> "stub")
    by (vm_compute; discriminate).
  assert (Hfail : SearchExec.live_failure Sample.offline_world "bitcoin")
    by (apply (SearchExec.network_error _ _ "fetch failed"); reflexivity).
  split; [exact Hlive|]. split; [exact Hfail|].
  destruct (failed_live_search_falls_back Sample.offline_world "bitcoin" Hlive Hfail)
    as (t & Hrun & _).
  rewrite Hrun. reflexivity.
Defined.

(** ** A payment that is not verified *)

Lemma verify_failure_negative w token resource :
  Facilitator.verify_failure w token resource ->
  X402.valid (Facilitator.verifyPayment token resource w).1 = false.
Proof.
  unfold Facilitator.verifyPayment. run_eff.
  intros [Hd|p m Hd Hf|p resp result Hd Hf Hok Hj Hflag];
    try unfold Facilitator.verify_request in Hf; rewrite Hd; cbv beta iota.
  - reflexivity.
  - rewrite Hf. reflexivity.
  - rewrite Hf. cbv beta iota. rewrite Hok, Hj. simpl. unfold Json.field in Hflag.
    destruct (Json.get result "isValid") as [flag|msg]; [|reflexivity].
    rewrite Hflag. simpl.
    destruct (Json.get result "invalidReason"); reflexivity.
Qed.

(** C2. A present token that does not decode, a facilitator that cannot
    be reached or does not answer in time, and a facilitator that answers
    "not valid" all leave the verification negative. Whenever the
    verification of a present token is negative, the handler answers 402
    with the challenge built anew for the resource: the body is that
    challenge followed by the fixed error text, the [PAYMENT-REQUIRED]
    header is the base64 of its JSON text, and the [WWW-Authenticate]
    header names the facilitator. It is the response that [send402]
    builds, the one an unpaid request gets, and the one any other request
    with a negative verification gets in a process with the same
    environment. The response does not depend on the cause; the reason
    goes to the log of the server only, in the warning that ends the
    trace. *)
Theorem rejected_payment_gets_the_unpaid_challenge :
  (forall w token resource,
      Facilitator.verify_failure w token resource ->
      X402.valid (Facilitator.verifyPayment token resource w).1 = false)
  /\ (forall w req token,
        Next.method req = Some "GET" ->
        Api.query_of req <> EmptyString ->
        X402.extractPaymentSignature req = Some token ->
        X402.valid (Facilitator.verifyPayment token Api.RESOURCE w).1 = false ->
        let challenge := X402.buildPaymentRequired (X402.load (env w)) Api.RESOURCE in
        (exists res members,
            (Api.run w req).1 = Api.Sent res
            /\ res = X402.send402 (X402.load (env w)) Next.fresh Api.RESOURCE
            /\ Next.statusCode res = 402
            /\ X402.challenge_json challenge = Json.Obj members
            /\ Next.body res =
               Some (Json.Obj
                       (members
                        ++ [("error",
                             Json.Str "Payment required. Include PAYMENT-SIGNATURE header with a valid x402 payment.")]))
            /\ Next.sent_headers res !! "PAYMENT-REQUIRED"
               = Some (Js.base64 (Json.stringify (X402.challenge_json challenge)))
            /\ Next.sent_headers res !! "WWW-Authenticate"
               = Some ("x402 facilitator=" +:+ Json.quote_mark
                       +:+ X402.FACILITATOR_URL (X402.load (env w))
                       +:+ Json.quote_mark))
        /\ (exists before,
              (Api.run w req).2
              = before
                ++ [ ConsoleWarn
                       [ Some (Json.Str "[search] Payment verification failed:");
                         X402.verror
                           (Facilitator.verifyPayment token Api.RESOURCE w).1 ] ])
        /\ (forall unpaid,
              Next.method unpaid = Some "GET" ->
              Api.query_of unpaid <> EmptyString ->
              X402.extractPaymentSignature unpaid = None ->
              (Api.run w unpaid).1 = (Api.run w req).1)
        /\ (forall w' req' token',
              env w' = env w ->
              Next.method req' = Some "GET" ->
              Api.query_of req' <> EmptyString ->
              X402.extractPaymentSignature req' = Some token' ->
              X402.valid (Facilitator.verifyPayment token' Api.RESOURCE w').1 = false ->
              (Api.run w' req').1 = (Api.run w req).1)).
Proof.
  split; [exact verify_failure_negative|].
  intros w req token Hget Hq Hsig Hv challenge.
  rewrite (run_rejected w req token (not_get_false _ Hget) (is_empty_false _ Hq) Hsig Hv).
  cbn [fst snd]. split; [|split; [|split]].
  - eexists _, _. split; [reflexivity|]. split; [reflexivity|].
    split; [reflexivity|]. split; [reflexivity|]. split; [reflexivity|].
    split; reflexivity.
  - exists (Call Verify :: (Facilitator.verifyPayment token Api.RESOURCE w).2
            ++ [Resolve (Verified (Facilitator.verifyPayment token Api.RESOURCE w).1)]).
    cbn [app]. rewrite <- List.app_assoc. reflexivity.
  - intros unpaid Hget0 Hq0 Hsig0.
    rewrite (run_unpaid w unpaid (not_get_false _ Hget0) (is_empty_false _ Hq0) Hsig0).
    reflexivity.
  - intros w' req' token' Henv Hget' Hq' Hsig' Hv'.
    rewrite (run_rejected w' req' token' (not_get_false _ Hget')
               (is_empty_false _ Hq') Hsig' Hv').
    cbn [fst]. rewrite Henv. reflexivity.
Qed.

Lemma rejected_payment_gets_the_unpaid_challenge_witness :
  Facilitator.verify_failure Sample.expired_world "e30=" Api.RESOURCE
  /\ Facilitator.verify_failure Sample.offline_world "e30=" Api.RESOURCE
  /\ Facilitator.verify_failure Sample.settled_world "not json" Api.RESOURCE
  /\ (exists res,
        (Api.run Sample.expired_world Sample.paid).1 = Api.Sent res
        /\ Next.statusCode res = 402
        /\ Next.sent_headers res !! "WWW-Authenticate"
           = Some ("x402 facilitator=" +:+ Json.quote_mark
                   +:+ "https://www.x402.org/facilitator" +:+ Json.quote_mark))
  /\ (Api.run Sample.expired_world Sample.paid).1
     = (Api.run Sample.expired_world Sample.unpaid).1
  /\ (Api.run Sample.offline_world Sample.paid).1
     = (Api.run Sample.expired_world Sample.paid).1
  /\ (Api.run Sample.settled_world Sample.garbled).1
     = (Api.run Sample.expired_world Sample.paid).1.
Proof.
  destruct rejected_payment_gets_the_unpaid_challenge as [Hneg Hsame].
  assert (Hexpired : Facilitator.verify_failure Sample.expired_world "e30=" Api.RESOURCE).
  { eapply Facilitator.declared_invalid; reflexivity. }
  assert (Hoffline : Facilitator.verify_failure Sample.offline_world "e30=" Api.RESOURCE).
  { eapply Facilitator.unreachable; reflexivity. }
  assert (Hgarbled : Facilitator.verify_failure Sample.settled_world "not json" Api.RESOURCE).
  { apply Facilitator.undecodable. reflexivity. }
  assert (Hq : Api.query_of Sample.paid <> EmptyString) by discriminate.
  destruct (Hsame Sample.expired_world Sample.paid "e30=" eq_refl Hq eq_refl
              (Hneg _ _ _ Hexpired))
    as ((res & members & Hrun & _ & Hstatus & _ & _ & _ & Hwww) & _ & Hunpaid & Hother).
  split; [exact Hexpired|]. split; [exact Hoffline|]. split; [exact Hgarbled|].
  split; [|split; [|split]].
  - exists res. split; [exact Hrun|]. split; [exact Hstatus|exact Hwww].
  - symmetry. apply Hunpaid; [reflexivity|discriminate|reflexivity].
  - apply (Hother Sample.offline_world Sample.paid "e30=");
      [reflexivity|reflexivity|exact Hq|reflexivity|exact (Hneg _ _ _ Hoffline)].
  - apply (Hother Sample.settled_world Sample.garbled "not json");
      [reflexivity|reflexivity|discriminate|reflexivity|exact (Hneg _ _ _ Hgarbled)].
Defined.

(** ** A settlement that fails *)

Lemma settle_failure_outcome w token resource :
  Facilitator.settle_failure w token resource ->
  let s := (Facilitator.settlePayment token resource w).1 in
  (exists flag, Json.get s "success" = Json.Value flag
                /\ Json.truthy_opt flag = false)
  /\ ((exists p response,
          decode w token = Some p
          /\ fetch w (Facilitator.settle_request w p resource) = Fulfilled response
          /\ ok response = true
          /\ json response = Fulfilled s)
      \/ Json.field s "transaction" = None).
Proof.
  unfold Facilitator.settlePayment. run_eff.
  intros [p m Hd Hf|p resp Hd Hf Hok|p resp m Hd Hf Hok Hj|p resp result flag Hd Hf Hok Hj Hs Hflag];
    pose proof Hf as Hf'; unfold Facilitator.settle_request in Hf';
    rewrite Hd; cbv beta iota; rewrite Hf'; cbv beta iota;
    try rewrite Hok; try rewrite Hj; cbn [negb fst]; cbv beta iota zeta.
  - split; [eexists; split; reflexivity|right; reflexivity].
  - split; [eexists; split; reflexivity|right; reflexivity].
  - split; [eexists; split; reflexivity|right; reflexivity].
  - split; [exists flag; split; assumption|].
    left. exists p, resp. repeat split; assumption.
Qed.

(** C3, as the code has it. When the payment is verified and the
    settlement fails (the facilitator cannot be reached or does not answer
    in time, answers with an error status or an unreadable body, or
    answers with a falsy [success]), the handler still answers 200 with
    the whole result payload and without the [PAYMENT-RESPONSE] header.
    The [payment] member follows the transaction id alone: it is left out
    exactly when the outcome carries no truthy [transaction], which is
    always so unless the facilitator itself answered with one. *)
Theorem failed_settlement_still_answers_200
    (w : World) (req : Next.Request) (token : string) :
  Next.method req = Some "GET" ->
  Api.query_of req <> EmptyString ->
  X402.extractPaymentSignature req = Some token ->
  X402.valid (Facilitator.verifyPayment token Api.RESOURCE w).1 = true ->
  Facilitator.settle_failure w token Api.RESOURCE ->
  let found := (SearchExec.executeSearch (Api.query_of req) w).1 in
  let s := (Facilitator.settlePayment token Api.RESOURCE w).1 in
  exists res,
    (Api.run w req).1 = Api.Sent res
    /\ Next.statusCode res = 200
    /\ Next.body res
       = Some (Api.results_body (Identity.getAgentIdentity (env w))
                 (Api.query_of req) found (Api.payment_of s))
    /\ Api.body_member res "results"
       = Some (Json.Arr (Search.result_json <$> Search.results found))
    /\ Next.sent_headers res !! "PAYMENT-RESPONSE" = None
    /\ (Api.body_member res "payment" = None
        <-> Json.truthy_opt (Json.field s "transaction") = false)
    /\ ((exists p response,
            decode w token = Some p
            /\ fetch w (Facilitator.settle_request w p Api.RESOURCE)
               = Fulfilled response
            /\ ok response = true
            /\ json response = Fulfilled s)
        \/ Api.body_member res "payment" = None).
Proof.
  intros Hget Hq Hsig Hv Hfail found s.
  destruct (settle_failure_outcome w token Api.RESOURCE Hfail)
    as [(flag & Hflag & Hfalsy) Horigin].
  fold s in Hflag, Horigin.
  rewrite (run_paid w req token (not_get_false _ Hget) (is_empty_false _ Hq) Hsig Hv).
  cbn [fst]. fold found s.
  rewrite (conclude_value _ _ _ _ _ _ Hflag). rewrite Hfalsy. cbn [fst].
  eexists. split; [reflexivity|]. split; [reflexivity|]. split; [reflexivity|].
  split; [reflexivity|]. split; [reflexivity|].
  assert (Hpay : Api.body_member
                   (Next.json
                      (Api.results_body (Identity.getAgentIdentity (env w))
                         (Api.query_of req) found (Api.payment_of s))
                      (Next.status 200 Next.fresh)) "payment" = None
                 <-> Json.truthy_opt (Json.field s "transaction") = false).
  { unfold Api.body_member, Api.results_body, Api.payment_of. simpl.
    destruct (Json.truthy_opt (Json.field s "transaction")); simpl;
      split; intros; congruence. }
  split; [exact Hpay|].
  destruct Horigin as [H|H]; [left; exact H|right].
  apply Hpay. rewrite H. reflexivity.
Qed.

Lemma failed_settlement_still_answers_200_witness :
  Facilitator.settle_failure Sample.refused_world "e30=" Api.RESOURCE
  /\ exists res,
       (Api.run Sample.refused_world Sample.paid).1 = Api.Sent res
       /\ Next.statusCode res = 200
       /\ Next.sent_headers res !! "PAYMENT-RESPONSE" = None
       /\ Api.body_member res "payment" = None.
Proof.
  assert (Hfail : Facilitator.settle_failure Sample.refused_world "e30=" Api.RESOURCE).
  { eapply Facilitator.settle_declined; reflexivity. }
  split; [exact Hfail|].
  destruct (failed_settlement_still_answers_200 Sample.refused_world Sample.paid
              "e30=" eq_refl ltac:(discriminate) eq_refl eq_refl Hfail)
    as (res & Hrun & Hstatus & _ & _ & Hheader & Hpay & _).
  exists res. split; [exact Hrun|]. split; [exact Hstatus|].
  split; [exact Hheader|]. apply Hpay. reflexivity.
Defined.

(** C3, as stated, fails. The facilitator answers [/settle] with
    [{success: false, errorReason: "invalid_transaction_state",
      transaction: "0xT1", payer: "0xABC"}]: the settlement has failed, the
    handler answers 200 without the [PAYMENT-RESPONSE] header, and the
    body holds the [payment] member all the same. *)
Lemma failed_settlement_with_transaction_keeps_payment :
  Facilitator.settle_failure Sample.reverted_world "e30=" Api.RESOURCE
  /\ X402.valid (Facilitator.verifyPayment "e30=" Api.RESOURCE Sample.reverted_world).1
     = true
  /\ exists res,
       (Api.run Sample.reverted_world Sample.paid).1 = Api.Sent res
       /\ Next.statusCode res = 200
       /\ Next.sent_headers res !! "PAYMENT-RESPONSE" = None
       /\ Api.body_member res "payment"
          = Some (Json.Obj [ ("transaction", Json.Str "0xT1");
                             ("payer", Json.Str "0xABC") ])
       /\ ~ (Next.sent_headers res !! "PAYMENT-RESPONSE" = None
             /\ Api.body_member res "payment" = None).
Proof.
  split; [eapply Facilitator.settle_declined; reflexivity|].
  split; [reflexivity|].
  eexists. split; [reflexivity|]. split; [reflexivity|]. split; [reflexivity|].
  split; [reflexivity|]. intros [_ H]. discriminate H.
Qed.

(* ===================================================================== *)
(** * Further properties of the code *)
(* ===================================================================== *)

(** ** Query validation *)

Lemma trimEnd_unfold a r :
  Js.trimEnd (String a r)
  = if Js.blank (String a r) then EmptyString else String a (Js.trimEnd r).
Proof. reflexivity. Qed.

Lemma trimEnd_empty s : Js.trimEnd s = EmptyString <-> Js.blank s = true.
Proof.
  destruct s as [|a r]; [split; reflexivity|].
  rewrite trimEnd_unfold. destruct (Js.blank (String a r)); split; congruence.
Qed.

Lemma trim_empty_bounded (n : nat) : forall s,
  (String.length s <= n)%nat ->
  (Js.trim s = EmptyString <-> Js.blank s = true).
Proof.
  unfold Js.trim.
  induction n as [|n IH]; intros s Hn.
  - destruct s; [split; reflexivity|simpl in Hn; lia].
  - destruct s as [|a r1]; [split; reflexivity|].
    simpl in Hn.
    change (Js.trimStart (String a r1)) with
      (if Js.ws1 a then Js.trimStart r1
       else match r1 with
            | EmptyString => String a r1
            | String b r2 =>
                if Js.ws2 a b then Js.trimStart r2
                else match r2 with
                     | EmptyString => String a r1
                     | String c r3 =>
                         if Js.ws3 a b c then Js.trimStart r3 else String a r1
                     end
            end).
    change (Js.blank (String a r1)) with
      (if Js.ws1 a then Js.blank r1
       else match r1 with
            | EmptyString => false
            | String b r2 =>
                if Js.ws2 a b then Js.blank r2
                else match r2 with
                     | EmptyString => false
                     | String c r3 => Js.ws3 a b c && Js.blank r3
                     end
            end).
    destruct (Js.ws1 a) eqn:E1; [apply IH; lia|].
    assert (Hfix : forall t, Js.blank (String a r1) = t ->
              (Js.trimEnd (String a r1) = EmptyString <-> t = true)).
    { intros t <-. apply trimEnd_empty. }
    destruct r1 as [|b r2].
    { apply Hfix. simpl. rewrite E1. reflexivity. }
    simpl in Hn.
    destruct (Js.ws2 a b) eqn:E2; [apply IH; lia|].
    destruct r2 as [|c r3].
    { apply Hfix. simpl. rewrite E1, E2. reflexivity. }
    simpl in Hn.
    destruct (Js.ws3 a b c) eqn:E3; [simpl; apply IH; lia|].
    apply Hfix. simpl. rewrite E1, E2, E3. reflexivity.
Qed.

Lemma trim_empty s : Js.trim s = EmptyString <-> Js.blank s = true.
Proof. apply (trim_empty_bounded (String.length s)). lia. Qed.

Lemma query_of_empty req : Api.query_of req = EmptyString <-> Cases.no_query req.
Proof.
  unfold Api.query_of, Cases.no_query.
  destruct (Next.query req !! "q") as [[s|l]|].
  - rewrite trim_empty. split.
    + intros H. right. right. exists s. auto.
    + intros [H|[[l H]|(s' & H & Hb)]]; try discriminate.
      injection H as <-. exact Hb.
  - split; [intros _; right; left; eauto|reflexivity].
  - split; [intros _; left; reflexivity|reflexivity].
Qed.

(** ** What the facilitator client resolves to *)

Lemma verify_valid_iff (w : World) (token resource : string) :
  (X402.valid (Facilitator.verifyPayment token resource w).1 = true
   <-> Cases.approved w token resource)
  /\ (forall p response result,
        decode w token = Some p ->
        fetch w (Facilitator.verify_request w p resource) = Fulfilled response ->
        ok response = true ->
        json response = Fulfilled result ->
        Json.truthy_opt (Json.field result "isValid") = true ->
        X402.payer (Facilitator.verifyPayment token resource w).1
        = Json.field result "payer").
Proof.
  unfold Cases.approved, Facilitator.verify_request, Facilitator.verifyPayment.
  run_eff. split.
  - split.
    + destruct (decode w token) as [p|]; [|discriminate]. cbv beta iota.
      destruct (fetch w _) as [resp|m] eqn:Hf; [|discriminate].
      destruct (ok resp) eqn:Hok; [|discriminate]. cbn [negb]. cbv iota.
      destruct (json resp) as [result|m] eqn:Hj; [|discriminate].
      unfold Json.field.
      destruct (Json.get result "isValid") as [flag|m] eqn:Hg; [|discriminate].
      destruct (Json.truthy_opt flag) eqn:Hflag; cbn [negb]; cbv iota.
      * intros _. exists p, resp, result. rewrite Hg. repeat split; auto.
      * destruct (Json.get result "invalidReason"); discriminate.
    + intros (p & resp & result & Hd & Hf & Hok & Hj & Hflag).
      rewrite Hd. cbv beta iota. rewrite Hf. cbv beta iota. rewrite Hok, Hj.
      cbn [negb]. cbv iota. unfold Json.field in Hflag.
      destruct (Json.get result "isValid") as [flag|m] eqn:Hg; [|discriminate].
      rewrite Hflag. cbn [negb]. cbv iota.
      rewrite (get_value_field _ _ _ Hg "payer"). reflexivity.
  - intros p resp result Hd Hf Hok Hj Hflag.
    rewrite Hd. cbv beta iota. rewrite Hf. cbv beta iota. rewrite Hok, Hj.
    cbn [negb]. cbv iota. unfold Json.field in *.
    destruct (Json.get result "isValid") as [flag|m] eqn:Hg; [|discriminate].
    rewrite Hflag. cbn [negb]. cbv iota.
    rewrite (get_value_field _ _ _ Hg "payer"). reflexivity.
Qed.


(** X2. [verifyPayment] resolves to a valid outcome exactly when the
    facilitator approves the token; the payer it reports is then the
    [payer] member of the facilitator's answer. *)
Theorem valid_exactly_when_approved (w : World) (token resource : string) :
  (X402.valid (Facilitator.verifyPayment token resource w).1 = true
   <-> Cases.approved w token resource)
  /\ (forall p response result,
        decode w token = Some p ->
        fetch w (Facilitator.verify_request w p resource) = Fulfilled response ->
        ok response = true ->
        json response = Fulfilled result ->
        Json.truthy_opt (Json.field result "isValid") = true ->
        X402.payer (Facilitator.verifyPayment token resource w).1
        = Json.field result "payer").
Proof. exact (verify_valid_iff w token resource). Qed.

Lemma valid_exactly_when_approved_witness :
  Cases.approved Sample.settled_world "e30=" Api.RESOURCE
  /\ X402.valid (Facilitator.verifyPayment "e30=" Api.RESOURCE Sample.settled_world).1
     = true
  /\ X402.payer (Facilitator.verifyPayment "e30=" Api.RESOURCE Sample.settled_world).1
     = Some (Json.Str "0xABC").
Proof.
  assert (H : Cases.approved Sample.settled_world "e30=" Api.RESOURCE).
  { eexists _, _, _. repeat split; reflexivity. }
  destruct (valid_exactly_when_approved Sample.settled_world "e30=" Api.RESOURCE)
    as [Hiff Hpayer].
  split; [exact H|]. split; [apply Hiff; exact H|].
  exact (Hpayer (Json.Obj [])
           {| status := 200;
              text := Fulfilled
                        (Json.stringify
                           (Json.Obj [("isValid", Json.Bool true);
                                      ("payer", Json.Str "0xABC")]));
              json := Fulfilled
                        (Json.Obj [("isValid", Json.Bool true);
                                   ("payer", Json.Str "0xABC")]) |}
           (Json.Obj [("isValid", Json.Bool true); ("payer", Json.Str "0xABC")])
           eq_refl eq_refl eq_refl eq_refl eq_refl).
Defined.

Lemma settle_outcome (w : World) (token resource : string) :
  let s := (Facilitator.settlePayment token resource w).1 in
  (Cases.settle_answer w token resource s
   \/ exists reason, s = Facilitator.unsuccessful reason)
  /\ (forall body, Cases.settle_answer w token resource body -> s = body)
  /\ Trace.requests (Facilitator.settlePayment token resource w).2
     = match decode w token with
       | Some p => [Facilitator.settle_request w p resource]
       | None => []
       end.
Proof.
  cbv zeta. split; [|split].
  - unfold Cases.settle_answer, Facilitator.settle_request,
      Facilitator.settlePayment. run_eff.
    destruct (decode w token) as [p|]; [|right; eexists; reflexivity].
    cbv beta iota.
    destruct (fetch w _) as [resp|m] eqn:Hf; [|right; eexists; reflexivity].
    destruct (ok resp) eqn:Hok; [|right; eexists; reflexivity].
    cbn [negb]. cbv iota.
    destruct (json resp) as [result|m] eqn:Hj; [|right; eexists; reflexivity].
    left. exists p, resp. repeat split; auto.
  - unfold Cases.settle_answer, Facilitator.settle_request,
      Facilitator.settlePayment. run_eff.
    intros body (p & resp & Hd & Hf & Hok & Hj).
    rewrite Hd. cbv beta iota. rewrite Hf. cbv beta iota. rewrite Hok, Hj.
    reflexivity.
  - rewrite settle_trace. destruct (decode w token); reflexivity.
Qed.

(** X3. [settlePayment] resolves either to the JSON body of a success
    answer of [/settle], as it came, or to an object it builds itself with
    [success] false and an [errorReason]; it sends one request when the
    token decodes and none otherwise. *)
Theorem settlement_is_forwarded_or_built (w : World) (token resource : string) :
  let s := (Facilitator.settlePayment token resource w).1 in
  (Cases.settle_answer w token resource s
   \/ exists reason, s = Facilitator.unsuccessful reason)
  /\ (forall body, Cases.settle_answer w token resource body -> s = body)
  /\ Trace.requests (Facilitator.settlePayment token resource w).2
     = match decode w token with
       | Some p => [Facilitator.settle_request w p resource]
       | None => []
       end.
Proof. exact (settle_outcome w token resource). Qed.

Lemma settlement_is_forwarded_or_built_witness :
  Cases.settle_answer Sample.reverted_world "e30=" Api.RESOURCE
    (Json.Obj [("success", Json.Bool false);
               ("errorReason", Json.Str "invalid_transaction_state");
               ("transaction", Json.Str "0xT1");
               ("payer", Json.Str "0xABC")])
  /\ (Facilitator.settlePayment "e30=" Api.RESOURCE Sample.reverted_world).1
     = Json.Obj [("success", Json.Bool false);
                 ("errorReason", Json.Str "invalid_transaction_state");
                 ("transaction", Json.Str "0xT1");
                 ("payer", Json.Str "0xABC")].
Proof.
  assert (H : Cases.settle_answer Sample.reverted_world "e30=" Api.RESOURCE
                (Json.Obj [("success", Json.Bool false);
                           ("errorReason", Json.Str "invalid_transaction_state");
                           ("transaction", Json.Str "0xT1");
                           ("payer", Json.Str "0xABC")])).
  { eexists _, _. repeat split; reflexivity. }
  split; [exact H|].
  destruct (settlement_is_forwarded_or_built Sample.reverted_world "e30="
              Api.RESOURCE) as (_ & Hforward & _).
  apply Hforward. exact H.
Defined.

(** ** Every outcome of the handler and its cause *)

Lemma not_get_false_inv req : Api.not_get req = false -> Next.method req = Some "GET".
Proof.
  unfold Api.not_get. destruct (Next.method req) as [m|]; [|discriminate].
  destruct (String.eqb m "GET") eqn:E; [|discriminate].
  apply String.eqb_eq in E. subst m. reflexivity.
Qed.

Lemma not_get_true_inv req : Api.not_get req = true -> Next.method req <> Some "GET".
Proof. intros H E. rewrite (not_get_false _ E) in H. discriminate. Qed.

Lemma is_empty_true s : Js.is_empty s = true -> s = EmptyString.
Proof. destruct s; [reflexivity|discriminate]. Qed.

Lemma is_empty_false_inv s : Js.is_empty s = false -> s <> EmptyString.
Proof. destruct s; [discriminate|discriminate]. Qed.

Lemma get_type_error s k m : Json.get s k = Json.TypeError m -> s = Json.Null.
Proof. destruct s; try discriminate; reflexivity. Qed.

Lemma settle_null_answer w token resource :
  (Facilitator.settlePayment token resource w).1 = Json.Null ->
  Cases.settle_answer w token resource Json.Null.
Proof.
  intros H. destruct (settle_outcome w token resource) as ([Ha|[reason Hr]] & _ & _).
  - rewrite H in Ha. exact Ha.
  - rewrite H in Hr. discriminate.
Qed.

Lemma outcome_table (w : World) (req : Next.Request) :
  match (Api.run w req).1 with
  | Api.Sent res =>
      (Next.statusCode res = 405 /\ Next.method req <> Some "GET")
      \/ (Next.statusCode res = 400
          /\ Next.method req = Some "GET" /\ Cases.no_query req)
      \/ (Next.statusCode res = 402
          /\ Next.method req = Some "GET" /\ ~ Cases.no_query req
          /\ (X402.extractPaymentSignature req = None
              \/ exists token,
                   X402.extractPaymentSignature req = Some token
                   /\ ~ Cases.approved w token Api.RESOURCE))
      \/ (Next.statusCode res = 200
          /\ Next.method req = Some "GET" /\ ~ Cases.no_query req
          /\ exists token,
               X402.extractPaymentSignature req = Some token
               /\ Cases.approved w token Api.RESOURCE
               /\ (Facilitator.settlePayment token Api.RESOURCE w).1 <> Json.Null)
  | Api.Threw _ =>
      Next.method req = Some "GET" /\ ~ Cases.no_query req
      /\ exists token,
           X402.extractPaymentSignature req = Some token
           /\ Cases.approved w token Api.RESOURCE
           /\ Cases.settle_answer w token Api.RESOURCE Json.Null
  end.
Proof.
  destruct (Api.not_get req) eqn:Hget.
  { destruct (run_quiet w req (or_introl Hget)) as [res Hrun].
    pose proof Hrun as Hrun'. unfold Api.run, Api.handler in Hrun'.
    revert Hrun'. run_eff. rewrite Hget. intros [= <-]. rewrite Hrun. cbn [fst].
    left. split; [reflexivity|apply not_get_true_inv, Hget]. }
  pose proof (not_get_false_inv _ Hget) as Hmethod.
  destruct (Js.is_empty (Api.query_of req)) eqn:Hq.
  { pose proof (proj1 (query_of_empty req) (is_empty_true _ Hq)) as Hno.
    unfold Api.run, Api.handler. run_eff. rewrite Hget, Hq. cbn [fst].
    right. left. auto. }
  assert (Hyes : ~ Cases.no_query req).
  { intros Hno. apply query_of_empty in Hno. rewrite Hno in Hq. discriminate. }
  destruct (X402.extractPaymentSignature req) as [token|] eqn:Hsig.
  2:{ rewrite (run_unpaid w req Hget Hq Hsig). cbn [fst].
      right. right. left. auto. }
  destruct (verify_valid_iff w token Api.RESOURCE) as [Hiff _].
  destruct (X402.valid (Facilitator.verifyPayment token Api.RESOURCE w).1) eqn:Hv.
  2:{ rewrite (run_rejected w req token Hget Hq Hsig Hv). cbn [fst].
      right. right. left. split; [reflexivity|]. split; [exact Hmethod|].
      split; [exact Hyes|]. right. exists token. split; [reflexivity|].
      intros Ha. apply Hiff in Ha. discriminate. }
  rewrite (run_paid w req token Hget Hq Hsig Hv). cbn [fst].
  destruct (Json.get (Facilitator.settlePayment token Api.RESOURCE w).1 "success")
    as [flag|m] eqn:Hs.
  - rewrite (conclude_value _ _ _ _ _ _ Hs). cbn [fst].
    right. right. right. split; [destruct (Json.truthy_opt flag); reflexivity|].
    split; [exact Hmethod|]. split; [exact Hyes|].
    exists token. split; [reflexivity|]. split; [apply Hiff; reflexivity|].
    intros Hnull. rewrite Hnull in Hs. discriminate.
  - unfold Api.conclude, Api.reading. rewrite Hs. cbn [fst].
    split; [exact Hmethod|]. split; [exact Hyes|].
    exists token. split; [reflexivity|]. split; [apply Hiff; reflexivity|].
    apply settle_null_answer. eapply get_type_error, Hs.
Qed.

(** X4. The status of the response tells the path the request took:
    405 for a method other than GET; 400 for a GET without a usable query;
    402 for a GET with a query and no token, or a token the facilitator
    does not approve; 200 only for a GET with a query and a token that the
    facilitator approved. The handler sends no other status, and it throws
    only after an approved payment, when [/settle] answers with a success
    status and the JSON text [null]. *)
Theorem every_outcome_has_its_cause (w : World) (req : Next.Request) :
  match (Api.run w req).1 with
  | Api.Sent res =>
      (Next.statusCode res = 405 /\ Next.method req <> Some "GET")
      \/ (Next.statusCode res = 400
          /\ Next.method req = Some "GET" /\ Cases.no_query req)
      \/ (Next.statusCode res = 402
          /\ Next.method req = Some "GET" /\ ~ Cases.no_query req
          /\ (X402.extractPaymentSignature req = None
              \/ exists token,
                   X402.extractPaymentSignature req = Some token
                   /\ ~ Cases.approved w token Api.RESOURCE))
      \/ (Next.statusCode res = 200
          /\ Next.method req = Some "GET" /\ ~ Cases.no_query req
          /\ exists token,
               X402.extractPaymentSignature req = Some token
               /\ Cases.approved w token Api.RESOURCE
               /\ (Facilitator.settlePayment token Api.RESOURCE w).1 <> Json.Null)
  | Api.Threw _ =>
      Next.method req = Some "GET" /\ ~ Cases.no_query req
      /\ exists token,
           X402.extractPaymentSignature req = Some token
           /\ Cases.approved w token Api.RESOURCE
           /\ Cases.settle_answer w token Api.RESOURCE Json.Null
  end.
Proof. exact (outcome_table w req). Qed.

(** X1. A GET request without a usable query -- no [q], a repeated [q],
    or a [q] of white space only -- is answered 400 with the error body
    and leaves no trace, whatever its headers; and a GET request is
    answered 400 only then. *)
Theorem unusable_query_answered_400 (w : World) (req : Next.Request) :
  Next.method req = Some "GET" ->
  (Cases.no_query req ->
   Api.run w req =
   (Api.Sent {| Next.sent_headers := ∅;
                Next.statusCode := 400;
                Next.body :=
                  Some (Json.Obj [("error",
                                   Json.Str "Missing required query parameter: q")]) |},
    []))
  /\ (forall res,
        (Api.run w req).1 = Api.Sent res -> Next.statusCode res = 400 ->
        Cases.no_query req).
Proof.
  intros Hget. split.
  - intros Hno. apply query_of_empty in Hno.
    unfold Api.run, Api.handler. run_eff.
    rewrite (not_get_false _ Hget), Hno. reflexivity.
  - intros res Hrun Hstatus. pose proof (outcome_table w req) as H.
    rewrite Hrun in H.
    destruct H as [[E _]|[(_ & _ & Hno)|[[E _]|[E _]]]];
      try (rewrite Hstatus in E; discriminate). exact Hno.
Qed.

Lemma unusable_query_answered_400_witness :
  Next.method (Sample.request "GET" "   " [("PAYMENT-SIGNATURE", "e30=")])
  = Some "GET"
  /\ Cases.no_query (Sample.request "GET" "   " [("PAYMENT-SIGNATURE", "e30=")])
  /\ (Api.run Sample.settled_world
        (Sample.request "GET" "   " [("PAYMENT-SIGNATURE", "e30=")])).2 = [].
Proof.
  assert (Hno : Cases.no_query
                  (Sample.request "GET" "   " [("PAYMENT-SIGNATURE", "e30=")])).
  { right. right. exists "   ". split; reflexivity. }
  split; [reflexivity|]. split; [exact Hno|].
  destruct (unusable_query_answered_400 Sample.settled_world
              (Sample.request "GET" "   " [("PAYMENT-SIGNATURE", "e30=")]) eq_refl)
    as [H _].
  rewrite (H Hno). reflexivity.
Defined.

(** ** What leaves the process *)

Lemma requests_app t u :
  Trace.requests (t ++ u) = Trace.requests t ++ Trace.requests u.
Proof.
  induction t as [|e t IH]; [reflexivity|].
  destruct e; simpl; rewrite IH; reflexivity.
Qed.

Lemma execute_requests w q :
  Trace.requests (SearchExec.executeSearch q w).2
  = if String.eqb (SearchExec.provider (env w)) "stub" then []
    else [SearchExec.live_request q].
Proof.
  unfold SearchExec.executeSearch, SearchExec.searchDuckDuckGo, SearchExec.fall_back.
  run_eff.
  destruct (String.eqb _ "stub"); [reflexivity|].
  destruct (fetch w _) as [resp|msg]; [|reflexivity].
  destruct (negb (ok resp)); [reflexivity|].
  destruct (text resp) as [html|]; [|reflexivity].
  destruct (scrape w html) as [[|r rs]|]; reflexivity.
Qed.

Lemma conclude_requests w q found s res :
  Trace.requests (Api.conclude q found s res w).2 = [].
Proof.
  destruct (Json.get s "success") as [flag|msg] eqn:E.
  - rewrite (conclude_value _ _ _ _ _ _ E). destruct (Json.truthy_opt flag); reflexivity.
  - unfold Api.conclude, Api.reading. rewrite E. reflexivity.
Qed.

Lemma run_requests (w : World) (req : Next.Request) :
  let rs := Trace.requests (Api.run w req).2 in
  rs = []
  \/ exists token p,
       X402.extractPaymentSignature req = Some token
       /\ decode w token = Some p
       /\ payload (Facilitator.verify_request w p Api.RESOURCE)
          = payload (Facilitator.settle_request w p Api.RESOURCE)
       /\ ((rs = [Facilitator.verify_request w p Api.RESOURCE]
            /\ ~ Cases.approved w token Api.RESOURCE)
           \/ (Cases.approved w token Api.RESOURCE
               /\ (rs = [ Facilitator.verify_request w p Api.RESOURCE;
                          Facilitator.settle_request w p Api.RESOURCE ]
                   \/ rs = [ Facilitator.verify_request w p Api.RESOURCE;
                             SearchExec.live_request (Api.query_of req);
                             Facilitator.settle_request w p Api.RESOURCE ]))).
Proof.
  cbv zeta.
  destruct (run_cases w req)
    as [[res Hrun]|[(token & Hsig & Hv & Hrun)|(token & Hsig & Hv & Hrun)]];
    rewrite Hrun; cbn [snd].
  - left. reflexivity.
  - destruct (verify_valid_iff w token Api.RESOURCE) as [Hiff _].
    simpl. rewrite requests_app, verify_trace.
    destruct (decode w token) as [p|] eqn:Hd; [|left; reflexivity].
    right. exists token, p. split; [exact Hsig|]. split; [exact Hd|].
    split; [reflexivity|]. left. split; [reflexivity|].
    intros Ha. apply Hiff in Ha. rewrite Ha in Hv. discriminate.
  - destruct (verify_valid_iff w token Api.RESOURCE) as [Hiff _].
    pose proof (proj1 Hiff Hv) as Ha.
    destruct Ha as (p & resp & result & Hd & Ha).
    right. exists token, p. split; [exact Hsig|]. split; [exact Hd|].
    split; [reflexivity|]. right.
    split; [exists p, resp, result; split; [exact Hd|exact Ha]|].
    simpl. rewrite requests_app. simpl. rewrite requests_app. simpl.
    rewrite requests_app. simpl.
    rewrite verify_trace, settle_trace, execute_requests, conclude_requests, Hd.
    destruct (String.eqb (SearchExec.provider (env w)) "stub");
      [left|right]; reflexivity.
Qed.

(** X5. A run of the handler sends at most three requests, in this
    order: the verification, then (under the live strategy) the search,
    then the settlement. Nothing is sent before the verification, the
    settlement is sent only for an approved token, and it carries the very
    body of the verification request. *)
Theorem requests_of_a_run (w : World) (req : Next.Request) :
  let rs := Trace.requests (Api.run w req).2 in
  rs = []
  \/ exists token p,
       X402.extractPaymentSignature req = Some token
       /\ decode w token = Some p
       /\ payload (Facilitator.verify_request w p Api.RESOURCE)
          = payload (Facilitator.settle_request w p Api.RESOURCE)
       /\ ((rs = [Facilitator.verify_request w p Api.RESOURCE]
            /\ ~ Cases.approved w token Api.RESOURCE)
           \/ (Cases.approved w token Api.RESOURCE
               /\ (rs = [ Facilitator.verify_request w p Api.RESOURCE;
                          Facilitator.settle_request w p Api.RESOURCE ]
                   \/ rs = [ Facilitator.verify_request w p Api.RESOURCE;
                             SearchExec.live_request (Api.query_of req);
                             Facilitator.settle_request w p Api.RESOURCE ]))).
Proof. exact (run_requests w req). Qed.

(** ** The search executor, whatever the strategy *)

Lemma execute_cases (w : World) (q : string) :
  let r := (SearchExec.executeSearch q w).1 in
  Search.results r <> []
  /\ (Search.mode r = Search.stub <-> SearchExec.provider (env w) = "stub")
  /\ (Search.mode r = Search.stub ->
      SearchExec.executeSearch q w
      = ({| Search.results := Search.stubResults q; Search.mode := Search.stub |}, []))
  /\ (Search.mode r = Search.duckduckgo ->
      (SearchExec.searchDuckDuckGo q w).1 = Fulfilled (Search.results r))
  /\ (Search.mode r = Search.fallback_stub ->
      Search.results r = Search.stubResults q
      /\ ((SearchExec.searchDuckDuckGo q w).1 = Fulfilled []
          \/ exists message,
               (SearchExec.searchDuckDuckGo q w).1 = Rejected message)).
Proof.
  cbv zeta. unfold SearchExec.executeSearch, SearchExec.fall_back. run_eff.
  destruct (String.eqb (SearchExec.provider (env w)) "stub") eqn:E.
  - apply String.eqb_eq in E. cbn [fst].
    repeat split; try discriminate; auto.
  - assert (Hne : SearchExec.provider (env w) <> "stub").
    { intros H. rewrite H in E. discriminate. }
    destruct (SearchExec.searchDuckDuckGo q w) as [[[|r rs]|m] t]; cbn [fst];
      (split; [discriminate|]);
      (split; [split; [discriminate|intros H; contradiction]|]);
      (split; [discriminate|]);
      split; try discriminate; auto.
    intros _. split; [reflexivity|]. right. eauto.
Qed.

(** X6. [executeSearch] always resolves with at least one result, and
    its tag tells where the results come from: [stub] exactly when the
    provider setting, lower-cased, is [stub], and then nothing is fetched
    or logged; [duckduckgo] only with the results that the live search
    resolved to; [fallback_stub] only with the stub results, after the live
    search resolved to nothing or rejected. *)
Theorem search_always_answers (w : World) (q : string) :
  let r := (SearchExec.executeSearch q w).1 in
  Search.results r <> []
  /\ (Search.mode r = Search.stub <-> SearchExec.provider (env w) = "stub")
  /\ (Search.mode r = Search.stub ->
      SearchExec.executeSearch q w
      = ({| Search.results := Search.stubResults q; Search.mode := Search.stub |}, []))
  /\ (Search.mode r = Search.duckduckgo ->
      (SearchExec.searchDuckDuckGo q w).1 = Fulfilled (Search.results r))
  /\ (Search.mode r = Search.fallback_stub ->
      Search.results r = Search.stubResults q
      /\ ((SearchExec.searchDuckDuckGo q w).1 = Fulfilled []
          \/ exists message,
               (SearchExec.searchDuckDuckGo q w).1 = Rejected message)).
Proof. exact (execute_cases w q). Qed.

Lemma search_always_answers_witness :
  Search.mode (SearchExec.executeSearch "bitcoin" Sample.offline_world).1
  = Search.fallback_stub
  /\ Search.results (SearchExec.executeSearch "bitcoin" Sample.offline_world).1
     = Search.stubResults "bitcoin".
Proof.
  destruct (search_always_answers Sample.offline_world "bitcoin")
    as (_ & _ & _ & _ & Hfallback).
  assert (H : Search.mode (SearchExec.executeSearch "bitcoin" Sample.offline_world).1
              = Search.fallback_stub) by reflexivity.
  split; [exact H|]. exact (proj1 (Hfallback H)).
Defined.

(** ** The 200 response *)

Lemma run_quiet_status w req :
  Api.not_get req = true \/ Js.is_empty (Api.query_of req) = true
  \/ X402.extractPaymentSignature req = None ->
  exists res, (Api.run w req).1 = Api.Sent res /\ Next.statusCode res <> 200.
Proof.
  unfold Api.run, Api.handler. run_eff.
  destruct (Api.not_get req); [intros _; eexists; split; [reflexivity|discriminate]|].
  destruct (Js.is_empty (Api.query_of req));
    [intros _; eexists; split; [reflexivity|discriminate]|].
  intros [H|[H|H]]; try discriminate.
  rewrite H. eexists; split; [reflexivity|discriminate].
Qed.

Lemma ok_body (w : World) (req : Next.Request) (res : Next.Response) :
  (Api.run w req).1 = Api.Sent res ->
  Next.statusCode res = 200 ->
  exists token,
    X402.extractPaymentSignature req = Some token
    /\ Next.body res
       = Some (Api.results_body (Identity.getAgentIdentity (env w))
                 (Api.query_of req)
                 (SearchExec.executeSearch (Api.query_of req) w).1
                 (Api.payment_of (Facilitator.settlePayment token Api.RESOURCE w).1)).
Proof.
  intros Hrun Hstatus.
  destruct (Api.not_get req) eqn:Hget.
  { destruct (run_quiet_status w req (or_introl Hget)) as (r & Hr & Hne).
    rewrite Hrun in Hr. injection Hr as <-. contradiction. }
  destruct (Js.is_empty (Api.query_of req)) eqn:Hq.
  { destruct (run_quiet_status w req (or_intror (or_introl Hq))) as (r & Hr & Hne).
    rewrite Hrun in Hr. injection Hr as <-. contradiction. }
  destruct (X402.extractPaymentSignature req) as [token|] eqn:Hsig.
  2:{ destruct (run_quiet_status w req (or_intror (or_intror Hsig))) as (r & Hr & Hne).
      rewrite Hrun in Hr. injection Hr as <-. contradiction. }
  exists token. split; [reflexivity|].
  destruct (X402.valid (Facilitator.verifyPayment token Api.RESOURCE w).1) eqn:Hv.
  2:{ rewrite (run_rejected w req token Hget Hq Hsig Hv) in Hrun.
      cbn [fst] in Hrun. injection Hrun as <-. discriminate. }
  rewrite (run_paid w req token Hget Hq Hsig Hv) in Hrun. cbn [fst] in Hrun.
  destruct (Json.get (Facilitator.settlePayment token Api.RESOURCE w).1 "success")
    as [flag|m] eqn:Hs.
  - rewrite (conclude_value _ _ _ _ _ _ Hs) in Hrun. cbn [fst] in Hrun.
    injection Hrun as <-. reflexivity.
  - unfold Api.conclude, Api.reading in Hrun. rewrite Hs in Hrun. discriminate.
Qed.

Lemma query_of_string req :
  Api.query_of req <> EmptyString ->
  exists s, Next.query req !! "q" = Some (Next.One s) /\ Api.query_of req = Js.trim s.
Proof.
  unfold Api.query_of. destruct (Next.query req !! "q") as [[s|l]|]; try contradiction.
  intros _. exists s. auto.
Qed.

(** X7. Every 200 answer echoes the query string trimmed, holds at least
    one result, names the strategy that produced the results, and carries
    the identity of the agent. *)
Theorem ok_answer_holds_results (w : World) (req : Next.Request)
    (res : Next.Response) :
  (Api.run w req).1 = Api.Sent res ->
  Next.statusCode res = 200 ->
  exists s found,
    Next.query req !! "q" = Some (Next.One s)
    /\ Js.trim s <> EmptyString
    /\ Api.body_member res "query" = Some (Json.Str (Js.trim s))
    /\ found = (SearchExec.executeSearch (Js.trim s) w).1
    /\ Search.results found <> []
    /\ Api.body_member res "results"
       = Some (Json.Arr (Search.result_json <$> Search.results found))
    /\ Api.body_member res "search_mode"
       = Some (Json.Str (Search.mode_tag (Search.mode found)))
    /\ Api.body_member res "agent_identity"
       = Some (Identity.identity_json (Identity.getAgentIdentity (env w))).
Proof.
  intros Hrun Hstatus.
  destruct (ok_body w req res Hrun Hstatus) as (token & Hsig & Hbody).
  pose proof (outcome_table w req) as Htable. rewrite Hrun in Htable.
  destruct Htable as [[E _]|[[E _]|[[E _]|(_ & _ & Hyes & _)]]];
    try (rewrite Hstatus in E; discriminate).
  assert (Hq : Api.query_of req <> EmptyString).
  { intros H. apply Hyes, query_of_empty, H. }
  destruct (query_of_string req Hq) as (s & Hs & Htrim).
  exists s, (SearchExec.executeSearch (Js.trim s) w).1.
  rewrite <- Htrim. split; [exact Hs|]. split; [exact Hq|].
  unfold Api.body_member. rewrite Hbody. unfold Api.results_body.
  split; [reflexivity|]. split; [reflexivity|].
  split; [apply (execute_cases w (Api.query_of req))|].
  split; [reflexivity|]. split; reflexivity.
Qed.

Lemma ok_answer_holds_results_witness :
  exists res,
    (Api.run Sample.settled_world (Sample.request "GET" " bitcoin " [("X-Payment", "e30=")])).1
    = Api.Sent res
    /\ Next.statusCode res = 200
    /\ Api.body_member res "query" = Some (Json.Str "bitcoin").
Proof.
  eexists. split; [reflexivity|]. split; [reflexivity|].
  destruct (ok_answer_holds_results Sample.settled_world
              (Sample.request "GET" " bitcoin " [("X-Payment", "e30=")])
              _ eq_refl eq_refl)
    as (s & found & Hs & _ & Hquery & _).
  injection Hs as <-. exact Hquery.
Defined.

(** ** The discovery endpoint *)

(** X8. [GET /api/agent] answers 200 to any request, whatever its
    method, without fetching or logging anything. The network it
    advertises is the network of the requirement that the 402 challenge
    offers, and its [agent_identity] is the one every 200 answer of the
    search endpoint carries. *)
Theorem discovery_agrees_with_search (w : World) (any : Next.Request) :
  exists res r,
    AgentApi.run w any = (Api.Sent res, [])
    /\ Next.statusCode res = 200
    /\ X402.accepts (X402.buildPaymentRequired (X402.load (env w)) Api.RESOURCE)
       = [r]
    /\ (exists pricing,
          Api.body_member res "pricing" = Some pricing
          /\ Json.field pricing "network" = Some (Json.Str (X402.network r))
          /\ Json.field pricing "amount" = Json.field Api.pricing "amount"
          /\ Json.field pricing "currency" = Json.field Api.pricing "currency")
    /\ (forall req found,
          (Api.run w req).1 = Api.Sent found ->
          Next.statusCode found = 200 ->
          Api.body_member found "agent_identity"
          = Api.body_member res "agent_identity").
Proof.
  eexists _, _. split; [reflexivity|]. split; [reflexivity|].
  split; [reflexivity|]. split.
  - eexists. split; [reflexivity|]. repeat split.
  - intros req found Hrun Hstatus.
    destruct (ok_body w req found Hrun Hstatus) as (token & _ & Hbody).
    unfold Api.body_member. rewrite Hbody. reflexivity.
Qed.

Lemma discovery_agrees_with_search_witness :
  exists found,
    (Api.run Sample.settled_world Sample.paid).1 = Api.Sent found
    /\ Api.body_member found "agent_identity"
       = Some (Identity.identity_json (Identity.getAgentIdentity ∅)).
Proof.
  destruct (discovery_agrees_with_search Sample.settled_world Sample.posted)
    as (res & r & Hrun & _ & _ & _ & Hsame).
  eexists. split; [reflexivity|].
  rewrite (Hsame Sample.paid _ eq_refl eq_refl).
  injection Hrun as <-. reflexivity.
Defined.

(** ** What the encoders write *)

Lemma code_bound c : Js.code c < 256.
Proof. apply N_ascii_bounded. Qed.

Lemma base64_digit n : n < 64 -> Text.base64_char (Js.digit_of Js.B64 n) = true.
Proof.
  intros H. destruct n as [|p]; [reflexivity|].
  do 6 (try destruct p as [p|p|]); try reflexivity; lia.
Qed.

Lemma every_base64 s : Text.every Text.base64_char (Js.base64 s) = true.
Proof.
  assert (Hall : forall n s, (String.length s <= n)%nat ->
                   Text.every Text.base64_char (Js.base64 s) = true).
  { clear s. induction n as [|n IH]; intros s Hn.
    - destruct s; [reflexivity|simpl in Hn; lia].
    - destruct s as [|a [|b [|c r]]]; [reflexivity| | |].
      + pose proof (code_bound a).
        cbn [Js.base64 Text.every].
        rewrite !base64_digit; [reflexivity| |].
        * pose proof (N.mod_lt (Js.code a) 4). lia.
        * apply N.Div0.div_lt_upper_bound. lia.
      + pose proof (code_bound a). pose proof (code_bound b).
        cbn [Js.base64 Text.every].
        pose proof (N.mod_lt (Js.code a) 4). pose proof (N.mod_lt (Js.code b) 16).
        assert (Js.code b / 16 < 16) by (apply N.Div0.div_lt_upper_bound; lia).
        rewrite !base64_digit; [reflexivity| | |]; try lia.
        apply N.Div0.div_lt_upper_bound. lia.
      + pose proof (code_bound a). pose proof (code_bound b).
        pose proof (code_bound c).
        cbn [Js.base64 Text.every].
        pose proof (N.mod_lt (Js.code a) 4). pose proof (N.mod_lt (Js.code b) 16).
        pose proof (N.mod_lt (Js.code c) 64).
        assert (Js.code b / 16 < 16) by (apply N.Div0.div_lt_upper_bound; lia).
        assert (Js.code c / 64 < 4) by (apply N.Div0.div_lt_upper_bound; lia).
        rewrite !base64_digit; try lia.
        * simpl. apply IH. simpl in Hn. lia.
        * apply N.Div0.div_lt_upper_bound. lia. }
  apply (Hall (String.length s)). lia.
Qed.

Lemma base64_length s :
  String.length (Js.base64 s) = (4 * ((String.length s + 2) / 3))%nat.
Proof.
  assert (Hall : forall n s, (String.length s <= n)%nat ->
                   String.length (Js.base64 s)
                   = (4 * ((String.length s + 2) / 3))%nat).
  { clear s. induction n as [|n IH]; intros s Hn.
    - destruct s; [reflexivity|simpl in Hn; lia].
    - destruct s as [|a [|b [|c r]]]; [reflexivity|reflexivity|reflexivity|].
      cbn [Js.base64 String.length]. rewrite IH by (simpl in Hn; lia).
      change (S (S (S (String.length r))) + 2)%nat
        with (3 + (String.length r + 2))%nat.
      replace (3 + (String.length r + 2))%nat
        with ((String.length r + 2) + 1 * 3)%nat by lia.
      rewrite Nat.div_add by lia. lia. }
  apply (Hall (String.length s)). lia.
Qed.

(** X9. The two header values that the server computes are safe header
    text whatever goes into them: [encodePaymentResponse] of any
    settlement, and the [PAYMENT-REQUIRED] header of any configuration and
    resource path, are made of characters of the base64 alphabet and the
    padding only, four for every three bytes of the JSON text. *)
Theorem computed_headers_are_base64 :
  (forall settlement,
      Text.every Text.base64_char (X402.encodePaymentResponse settlement) = true
      /\ String.length (X402.encodePaymentResponse settlement)
         = (4 * ((String.length (Json.stringify settlement) + 2) / 3))%nat)
  /\ (forall cfg res resource,
        exists value,
          Next.sent_headers (X402.send402 cfg res resource) !! "PAYMENT-REQUIRED"
          = Some value
          /\ Text.every Text.base64_char value = true).
Proof.
  split.
  - intros settlement. unfold X402.encodePaymentResponse.
    split; [apply every_base64|apply base64_length].
  - intros cfg res resource. eexists. split.
    + unfold X402.send402. cbn [Next.json Next.status Next.setHeader Next.sent_headers].
      rewrite lookup_insert_ne by discriminate. apply lookup_insert_eq.
    + apply every_base64.
Qed.

Lemma hex_digit_unreserved n : n < 16 -> Js.unreserved (Js.digit_of Js.HEX n) = true.
Proof.
  intros H. destruct n as [|p]; [reflexivity|].
  do 4 (try destruct p as [p|p|]); try reflexivity; lia.
Qed.

Lemma every_app p a b :
  Text.every p (a +:+ b) = Text.every p a && Text.every p b.
Proof.
  induction a as [|c a IH]; [reflexivity|].
  change (String c a +:+ b) with (String c (a +:+ b)). simpl.
  rewrite IH, andb_assoc. reflexivity.
Qed.

Lemma encoded_chars s :
  Text.every Text.escaped_char (Js.encodeURIComponent s) = true.
Proof.
  induction s as [|c s IH]; [reflexivity|].
  cbn [Js.encodeURIComponent]. rewrite every_app, IH, andb_true_r.
  destruct (Js.unreserved c) eqn:E.
  - simpl. unfold Text.escaped_char. rewrite E. reflexivity.
  - pose proof (code_bound c). unfold Js.percent. cbn [Text.every].
    unfold Text.escaped_char at 2 3.
    rewrite !hex_digit_unreserved; [reflexivity| |].
    + apply N.mod_lt. lia.
    + apply N.Div0.div_lt_upper_bound. lia.
Qed.

Lemma every_weaken (p q : ascii -> bool) s :
  (forall c, p c = true -> q c = true) ->
  Text.every p s = true -> Text.every q s = true.
Proof.
  intros Hpq. induction s as [|c s IH]; [reflexivity|]. simpl.
  intros [Hc Hs]%andb_prop. rewrite (Hpq c Hc), (IH Hs). reflexivity.
Qed.

Lemma escaped_char_is_plain c :
  Text.escaped_char c = true ->
  negb (Js.contains_char c "&=#?/+ :;,@$<>[]{}|^`") = true.
Proof.
  destruct c as [[] [] [] [] [] [] [] []]; vm_compute; congruence.
Qed.

(** X10. Whatever the query, its encoded form holds no character with a
    meaning in a URL ([&], [=], [#], [?], [/], [+], the space and the
    like): the address of the live search is the fixed prefix followed by
    such text, so it has the one parameter [q], and so have the addresses
    in the stub results. *)
Theorem query_cannot_reshape_the_address (query : string) :
  Text.free_of "&=#?/+ :;,@$<>[]{}|^`" (Js.encodeURIComponent query) = true
  /\ target (SearchExec.live_request query)
     = "https://html.duckduckgo.com/html/?q=" +:+ Js.encodeURIComponent query
  /\ Search.url <$> Search.stubResults query
     = [ "https://en.wikipedia.org/wiki/" +:+ Js.encodeURIComponent query;
         "https://news.ycombinator.com/item?id=00000";
         "https://example.com/guide/" +:+ Js.encodeURIComponent query;
         "https://scholar.google.com/scholar?q=" +:+ Js.encodeURIComponent query;
         "https://www.reddit.com/search/?q=" +:+ Js.encodeURIComponent query ].
Proof.
  split; [|split; reflexivity].
  unfold Text.free_of.
  apply (every_weaken Text.escaped_char); [apply escaped_char_is_plain|].
  apply encoded_chars.
Qed.

(** ** Percent decoding undoes percent encoding *)

Lemma hex_value_digit n :
  n < 16 -> Uri.hex_value (Js.digit_of Js.HEX n) = Some n.
Proof.
  intros H. destruct n as [|p]; [reflexivity|].
  do 4 (try destruct p as [p|p|]); try reflexivity; lia.
Qed.

Lemma percent_app c rest :
  Js.percent c +:+ rest
  = String "%" (String (Js.digit_of Js.HEX (Js.code c / 16))
                  (String (Js.digit_of Js.HEX (Js.code c mod 16)) rest)).
Proof. reflexivity. Qed.

Lemma byte_of_digits c : Js.code c / 16 * 16 + Js.code c mod 16 = Js.code c.
Proof. pose proof (N.div_mod (Js.code c) 16). lia. Qed.

Lemma ascii_of_code c : ascii_of_N (Js.code c) = c.
Proof. apply ascii_N_embedding. Qed.

Lemma digits_in_range c :
  Js.code c / 16 < 16 /\ Js.code c mod 16 < 16.
Proof.
  pose proof (code_bound c). split.
  - apply N.Div0.div_lt_upper_bound. lia.
  - apply N.mod_lt. lia.
Qed.

(** An escape read between sequences. *)
Lemma decode_escape_idle c rest :
  Uri.decode Uri.Idle (Js.percent c +:+ rest)
  = if Js.code c <? 128 then Uri.emit [Js.code c] (Uri.decode Uri.Idle rest)
    else match Uri.sequence_length (Js.code c) with
         | Some n => Uri.decode (Uri.Escape [Js.code c] n) rest
         | None => Uri.malformed
         end.
Proof.
  rewrite percent_app. destruct (digits_in_range c) as [Hh Hl].
  cbn [Uri.decode]. change (Js.code "%" =? 37) with true. cbv iota.
  rewrite (hex_value_digit _ Hh), (hex_value_digit _ Hl).
  cbv beta iota zeta. rewrite byte_of_digits. reflexivity.
Qed.

(** An escape read inside a sequence. *)
Lemma decode_escape_inside a octets total c rest :
  Uri.decode (Uri.Escape (a :: octets) total) (Js.percent c +:+ rest)
  = if Uri.continuation (Js.code c) then
      if Nat.eqb (length ((a :: octets) ++ [Js.code c])) total then
        if Uri.encodes_code_point ((a :: octets) ++ [Js.code c])
        then Uri.emit ((a :: octets) ++ [Js.code c]) (Uri.decode Uri.Idle rest)
        else Uri.malformed
      else Uri.decode (Uri.Escape ((a :: octets) ++ [Js.code c]) total) rest
    else Uri.malformed.
Proof.
  rewrite percent_app. destruct (digits_in_range c) as [Hh Hl].
  cbn [Uri.decode]. change (Js.code "%" =? 37) with true. cbv iota.
  rewrite (hex_value_digit _ Hh), (hex_value_digit _ Hl).
  cbv beta iota zeta. rewrite byte_of_digits. reflexivity.
Qed.

Lemma unreserved_ascii c :
  Js.unreserved c = true -> (Js.code c <? 128) = true /\ (Js.code c =? 37) = false.
Proof.
  destruct c as [[] [] [] [] [] [] [] []]; vm_compute; intros; split; congruence.
Qed.

Lemma high_not_unreserved c : (Js.code c <? 128) = false -> Js.unreserved c = false.
Proof.
  destruct (Js.unreserved c) eqn:E; [|reflexivity].
  destruct (unreserved_ascii c E) as [H _]. congruence.
Qed.

Lemma encode_cons c r :
  Js.encodeURIComponent (String c r)
  = (if Js.unreserved c then String c EmptyString else Js.percent c)
    +:+ Js.encodeURIComponent r.
Proof. reflexivity. Qed.

Lemma encode_high c r :
  (Js.code c <? 128) = false ->
  Js.encodeURIComponent (String c r) = Js.percent c +:+ Js.encodeURIComponent r.
Proof. intros H. rewrite encode_cons, (high_not_unreserved c H). reflexivity. Qed.

Lemma continuation_high b : Uri.continuation b = true -> (b <? 128) = false.
Proof. unfold Uri.continuation. intros [H _]%andb_prop. apply N.ltb_ge. apply N.leb_le in H. lia. Qed.

Lemma decode_encode_bounded (n : nat) : forall s,
  (String.length s <= n)%nat ->
  Uri.well_formed s = true ->
  Uri.decode Uri.Idle (Js.encodeURIComponent s) = Fulfilled s.
Proof.
  induction n as [|n IH]; intros s Hn Hwf.
  - destruct s; [reflexivity|simpl in Hn; lia].
  - destruct s as [|a r1]; [reflexivity|].
    simpl in Hn.
    change (Uri.well_formed (String a r1)) with
      (if Js.code a <? 128 then Uri.well_formed r1
       else match r1 with
            | EmptyString => false
            | String b r2 =>
                if (194 <=? Js.code a) && (Js.code a <=? 223) then
                  Uri.continuation (Js.code b) && Uri.well_formed r2
                else match r2 with
                     | EmptyString => false
                     | String c r3 =>
                         if (224 <=? Js.code a) && (Js.code a <=? 239) then
                           Uri.continuation (Js.code b) && Uri.continuation (Js.code c)
                           && Uri.encodes_code_point [Js.code a; Js.code b; Js.code c]
                           && Uri.well_formed r3
                         else match r3 with
                              | EmptyString => false
                              | String d r4 =>
                                  (240 <=? Js.code a) && (Js.code a <=? 244)
                                  && Uri.continuation (Js.code b)
                                  && Uri.continuation (Js.code c)
                                  && Uri.continuation (Js.code d)
                                  && Uri.encodes_code_point
                                       [Js.code a; Js.code b; Js.code c; Js.code d]
                                  && Uri.well_formed r4
                              end
                     end
            end) in Hwf.
    destruct (Js.code a <? 128) eqn:Ha.
    { (* one byte *)
      rewrite encode_cons. destruct (Js.unreserved a) eqn:Hu.
      - destruct (unreserved_ascii a Hu) as [_ Hp].
        change (String a EmptyString +:+ Js.encodeURIComponent r1)
          with (String a (Js.encodeURIComponent r1)).
        cbn [Uri.decode]. rewrite Hp, (IH r1 ltac:(lia) Hwf).
        simpl. rewrite ascii_of_code. reflexivity.
      - rewrite decode_escape_idle, Ha, (IH r1 ltac:(lia) Hwf).
        simpl. rewrite ascii_of_code. reflexivity. }
    destruct r1 as [|b r2]; [discriminate|]. simpl in Hn.
    rewrite (encode_high a _ Ha), decode_escape_idle, Ha.
    destruct ((194 <=? Js.code a) && (Js.code a <=? 223)) eqn:H2.
    { (* two bytes *)
      apply andb_prop in Hwf. destruct Hwf as [Hb Hwf].
      apply andb_prop in H2. destruct H2 as [Hlo Hhi].
      assert (Hlen : Uri.sequence_length (Js.code a) = Some 2%nat).
      { unfold Uri.sequence_length. apply N.leb_le in Hlo, Hhi.
        replace (192 <=? Js.code a) with true by (symmetry; apply N.leb_le; lia).
        replace (Js.code a <=? 223) with true by (symmetry; apply N.leb_le; lia).
        reflexivity. }
      rewrite Hlen, (encode_high b _ (continuation_high _ Hb)).
      rewrite decode_escape_inside, Hb. cbn [length app Nat.eqb].
      cbn [Uri.encodes_code_point]. rewrite Hlo.
      rewrite (IH r2 ltac:(lia) Hwf). simpl. rewrite !ascii_of_code. reflexivity. }
    destruct r2 as [|c r3]; [discriminate|]. simpl in Hn.
    destruct ((224 <=? Js.code a) && (Js.code a <=? 239)) eqn:H3.
    { (* three bytes *)
      apply andb_prop in Hwf. destruct Hwf as [Hwf Hrest].
      apply andb_prop in Hwf. destruct Hwf as [Hwf Hvalid].
      apply andb_prop in Hwf. destruct Hwf as [Hb Hc].
      apply andb_prop in H3. destruct H3 as [Hlo Hhi].
      assert (Hlen : Uri.sequence_length (Js.code a) = Some 3%nat).
      { unfold Uri.sequence_length. apply N.leb_le in Hlo, Hhi.
        replace (192 <=? Js.code a) with true by (symmetry; apply N.leb_le; lia).
        replace (Js.code a <=? 223) with false by (symmetry; apply N.leb_gt; lia).
        replace (224 <=? Js.code a) with true by (symmetry; apply N.leb_le; lia).
        replace (Js.code a <=? 239) with true by (symmetry; apply N.leb_le; lia).
        reflexivity. }
      rewrite Hlen, (encode_high b _ (continuation_high _ Hb)).
      rewrite decode_escape_inside, Hb. cbn [length app Nat.eqb].
      rewrite (encode_high c _ (continuation_high _ Hc)).
      rewrite decode_escape_inside, Hc. cbn [length app Nat.eqb].
      rewrite Hvalid, (IH r3 ltac:(lia) Hrest).
      simpl. rewrite !ascii_of_code. reflexivity. }
    destruct r3 as [|d r4]; [discriminate|]. simpl in Hn.
    (* four bytes *)
    apply andb_prop in Hwf. destruct Hwf as [Hwf Hrest].
    apply andb_prop in Hwf. destruct Hwf as [Hwf Hvalid].
    apply andb_prop in Hwf. destruct Hwf as [Hwf Hd].
    apply andb_prop in Hwf. destruct Hwf as [Hwf Hc].
    apply andb_prop in Hwf. destruct Hwf as [Hwf Hb].
    apply andb_prop in Hwf. destruct Hwf as [Hlo Hhi].
    assert (Hlen : Uri.sequence_length (Js.code a) = Some 4%nat).
    { unfold Uri.sequence_length. apply N.leb_le in Hlo, Hhi.
      replace (192 <=? Js.code a) with true by (symmetry; apply N.leb_le; lia).
      replace (Js.code a <=? 223) with false by (symmetry; apply N.leb_gt; lia).
      replace (224 <=? Js.code a) with true by (symmetry; apply N.leb_le; lia).
      replace (Js.code a <=? 239) with false by (symmetry; apply N.leb_gt; lia).
      replace (240 <=? Js.code a) with true by (symmetry; apply N.leb_le; lia).
      replace (Js.code a <=? 247) with true by (symmetry; apply N.leb_le; lia).
      reflexivity. }
    rewrite Hlen, (encode_high b _ (continuation_high _ Hb)).
    rewrite decode_escape_inside, Hb. cbn [length app Nat.eqb].
    rewrite (encode_high c _ (continuation_high _ Hc)).
    rewrite decode_escape_inside, Hc. cbn [length app Nat.eqb].
    rewrite (encode_high d _ (continuation_high _ Hd)).
    rewrite decode_escape_inside, Hd. cbn [length app Nat.eqb].
    rewrite Hvalid, (IH r4 ltac:(lia) Hrest).
    simpl. rewrite !ascii_of_code. reflexivity.
Qed.

Lemma decode_encode s :
  Uri.well_formed s = true ->
  Uri.decodeURIComponent (Js.encodeURIComponent s) = Fulfilled s.
Proof. apply (decode_encode_bounded (String.length s)). lia. Qed.

(** ** The link behind a redirect *)

Lemma search_skips (m : string -> option string) front rest :
  (forall c r, Js.contains_char c "?&" = false -> m (String c r) = None) ->
  Text.free_of "?&" front = true ->
  Regex.search m (front +:+ rest) = Regex.search m rest.
Proof.
  intros Hm. induction front as [|c front IH]; [reflexivity|].
  unfold Text.free_of. cbn [Text.every]. intros [Hc Hf]%andb_prop.
  change (String c front +:+ rest) with (String c (front +:+ rest)).
  cbn [Regex.search]. rewrite Hm by (destruct (Js.contains_char c "?&"); [discriminate|reflexivity]).
  apply IH, Hf.
Qed.

Lemma uddg_pattern_needs_mark c r :
  Js.contains_char c "?&" = false -> Scraper.uddg_pattern (String c r) = None.
Proof.
  unfold Scraper.uddg_pattern, Regex.one. simpl.
  rewrite !(Ascii.eqb_sym c).
  destruct (Ascii.eqb "?" c), (Ascii.eqb "&" c); try discriminate; reflexivity.
Qed.

Lemma capture_all (p : ascii -> bool) text back seen :
  Text.every p text = true ->
  back = EmptyString \/ (exists c r, back = String c r /\ p c = false) ->
  Regex.capture_many p (fun seen _ => Some seen) seen (text +:+ back)
  = Some (seen +:+ text).
Proof.
  revert seen. induction text as [|c text IH]; intros seen Ht Hback.
  - change (EmptyString +:+ back) with back.
    assert (Hs : seen +:+ EmptyString = seen).
    { clear. induction seen as [|x seen IH]; [reflexivity|].
      change (String x seen +:+ EmptyString) with (String x (seen +:+ EmptyString)).
      rewrite IH. reflexivity. }
    rewrite Hs. destruct Hback as [->|(c & r & -> & Hc)]; [reflexivity|].
    cbn [Regex.capture_many]. rewrite Hc. reflexivity.
  - cbn [Text.every] in Ht. apply andb_prop in Ht. destruct Ht as [Hc Ht].
    change (String c text +:+ back) with (String c (text +:+ back)).
    cbn [Regex.capture_many]. rewrite Hc, (IH _ Ht Hback).
    cbn [Regex.orelse]. rewrite append_assoc. reflexivity.
Qed.

Lemma encoded_not_empty s : s <> EmptyString -> Js.encodeURIComponent s <> EmptyString.
Proof.
  destruct s as [|c r]; [contradiction|]. intros _.
  rewrite encode_cons. destruct (Js.unreserved c); discriminate.
Qed.

Lemma escaped_char_no_amp c :
  Text.escaped_char c = true -> Scraper.except "&" c = true.
Proof.
  destruct c as [[] [] [] [] [] [] [] []]; vm_compute; congruence.
Qed.

Lemma uddg_found front target back :
  Text.free_of "?&" front = true ->
  target <> EmptyString ->
  back = EmptyString \/ (exists r, back = String "&" r) ->
  Scraper.uddg (front +:+ "?uddg=" +:+ Js.encodeURIComponent target +:+ back)
  = Some (Js.encodeURIComponent target).
Proof.
  intros Hfront Htarget Hback.
  unfold Scraper.uddg.
  rewrite (search_skips Scraper.uddg_pattern front _ uddg_pattern_needs_mark Hfront).
  change ("?uddg=" +:+ Js.encodeURIComponent target +:+ back)
    with (String "?" (String "u" (String "d" (String "d" (String "g" (String "="
            (Js.encodeURIComponent target +:+ back))))))).
  cbn [Regex.search]. unfold Scraper.uddg_pattern at 1. cbn [Regex.one Regex.lit].
  simpl Ascii.eqb. cbn [orb]. cbv iota.
  pose proof (encoded_chars target) as Hchars.
  apply (every_weaken _ (Scraper.except "&") _ escaped_char_no_amp) in Hchars.
  destruct (Js.encodeURIComponent target) as [|c text] eqn:E.
  { exfalso. apply (encoded_not_empty target Htarget). exact E. }
  cbn [Text.every] in Hchars. apply andb_prop in Hchars. destruct Hchars as [Hc Ht].
  change (String c text +:+ back) with (String c (text +:+ back)).
  unfold Regex.capture_many1. rewrite Hc.
  rewrite (capture_all (Scraper.except "&") text back (String c EmptyString) Ht).
  - reflexivity.
  - destruct Hback as [->|[r ->]]; [left; reflexivity|right].
    exists "&"%char, r. split; reflexivity.
Qed.

Lemma uddg_absent raw : Text.free_of "?&" raw = true -> Scraper.uddg raw = None.
Proof.
  unfold Scraper.uddg.
  induction raw as [|c raw IH]; [reflexivity|].
  unfold Text.free_of. cbn [Text.every]. intros [Hc Hf]%andb_prop.
  cbn [Regex.search].
  rewrite uddg_pattern_needs_mark
    by (destruct (Js.contains_char c "?&"); [discriminate|reflexivity]).
  apply IH, Hf.
Qed.

(** X11. A redirect link gives back its target: when the link is a front
    part without [?] or [&], then [?uddg=] and the percent-encoded target,
    then nothing or further parameters after an [&], [extractDdgUrl]
    returns the target itself, for every target that is not empty and is
    well-formed UTF-8. A link without [?] and [&] is no redirect: it comes
    back as it is, with [https:] in front when it starts with [//]. *)
Theorem redirect_link_gives_back_its_target :
  (forall front target back,
      Text.free_of "?&" front = true ->
      target <> EmptyString ->
      Uri.well_formed target = true ->
      back = EmptyString \/ (exists r, back = String "&" r) ->
      Scraper.extractDdgUrl
        (front +:+ "?uddg=" +:+ Js.encodeURIComponent target +:+ back)
      = Fulfilled target)
  /\ (forall raw,
        Text.free_of "?&" raw = true ->
        Scraper.extractDdgUrl raw
        = Fulfilled (if Regex.startsWith "//" raw then "https:" +:+ raw else raw)).
Proof.
  split.
  - intros front target back Hfront Htarget Hwf Hback.
    unfold Scraper.extractDdgUrl.
    rewrite (uddg_found front target back Hfront Htarget Hback).
    apply decode_encode, Hwf.
  - intros raw Hraw. unfold Scraper.extractDdgUrl. rewrite (uddg_absent raw Hraw).
    destruct (Regex.startsWith "//" raw); reflexivity.
Qed.

Lemma redirect_link_gives_back_its_target_witness :
  Scraper.extractDdgUrl
    ("//duckduckgo.com/l/" +:+ "?uddg="
     +:+ Js.encodeURIComponent "https://ex.com/a b?x=1&y=é" +:+ "&amp;rut=abc")
  = Fulfilled "https://ex.com/a b?x=1&y=é"
  /\ Scraper.extractDdgUrl "//ex.com/page" = Fulfilled "https://ex.com/page".
Proof.
  destruct redirect_link_gives_back_its_target as [Hback Hplain].
  split.
  - apply Hback; [reflexivity|discriminate|reflexivity|].
    right. eexists. reflexivity.
  - exact (Hplain "//ex.com/page" eq_refl).
Defined.

(** ** White space in scraped text *)

Lemma trimStart_unfold a r1 :
  Js.trimStart (String a r1)
  = if Js.ws1 a then Js.trimStart r1
    else match r1 with
         | EmptyString => String a r1
         | String b r2 =>
             if Js.ws2 a b then Js.trimStart r2
             else match r2 with
                  | EmptyString => String a r1
                  | String c r3 =>
                      if Js.ws3 a b c then Js.trimStart r3 else String a r1
                  end
         end.
Proof. reflexivity. Qed.

Lemma length_append a b :
  String.length (a +:+ b) = (String.length a + String.length b)%nat.
Proof.
  induction a as [|c a IH]; [reflexivity|].
  change (String c a +:+ b) with (String c (a +:+ b)). simpl. rewrite IH. reflexivity.
Qed.

(** What [trimStart] does, in one statement: it drops a front part that
    is not empty exactly when the string starts with white space, and
    what is left does not start with white space. *)
Lemma trimStart_spec_bounded (n : nat) : forall s,
  (String.length s <= n)%nat ->
  Text.ws_at (Js.trimStart s) = false
  /\ exists front,
       s = front +:+ Js.trimStart s
       /\ (Text.ws_at s = true -> front <> EmptyString)
       /\ (Text.ws_at s = false -> front = EmptyString).
Proof.
  induction n as [|n IH]; intros s Hn.
  - destruct s; [|simpl in Hn; lia].
    split; [reflexivity|]. exists EmptyString. repeat split; auto; discriminate.
  - destruct s as [|a r1].
    { split; [reflexivity|]. exists EmptyString. repeat split; auto; discriminate. }
    simpl in Hn. rewrite trimStart_unfold.
    assert (Hstay : Text.ws_at (String a r1) = false ->
              Text.ws_at (String a r1) = false
              /\ exists front,
                   String a r1 = front +:+ String a r1
                   /\ (Text.ws_at (String a r1) = true -> front <> EmptyString)
                   /\ (Text.ws_at (String a r1) = false -> front = EmptyString)).
    { intros H. split; [exact H|]. exists EmptyString.
      split; [reflexivity|]. split; [rewrite H; discriminate|reflexivity]. }
    destruct (Js.ws1 a) eqn:E1.
    { destruct (IH r1 ltac:(lia)) as (Hno & front & Hfront & _).
      split; [exact Hno|]. exists (String a front).
      split; [change (String a front +:+ Js.trimStart r1)
                with (String a (front +:+ Js.trimStart r1)); congruence|].
      split; [discriminate|]. simpl. rewrite E1. discriminate. }
    destruct r1 as [|b r2].
    { apply Hstay. simpl. rewrite E1. reflexivity. }
    simpl in Hn. destruct (Js.ws2 a b) eqn:E2.
    { destruct (IH r2 ltac:(lia)) as (Hno & front & Hfront & _).
      split; [exact Hno|]. exists (String a (String b front)).
      split; [change (String a (String b front) +:+ Js.trimStart r2)
                with (String a (String b (front +:+ Js.trimStart r2))); congruence|].
      split; [discriminate|]. simpl. rewrite E1, E2. discriminate. }
    destruct r2 as [|c r3].
    { apply Hstay. simpl. rewrite E1, E2. reflexivity. }
    simpl in Hn. destruct (Js.ws3 a b c) eqn:E3.
    { destruct (IH r3 ltac:(lia)) as (Hno & front & Hfront & _).
      split; [exact Hno|]. exists (String a (String b (String c front))).
      split; [change (String a (String b (String c front)) +:+ Js.trimStart r3)
                with (String a (String b (String c (front +:+ Js.trimStart r3))));
              congruence|].
      split; [discriminate|]. simpl. rewrite E1, E2, E3. discriminate. }
    apply Hstay. simpl. rewrite E1, E2, E3. reflexivity.
Qed.

Lemma trimStart_spec s :
  Text.ws_at (Js.trimStart s) = false
  /\ exists front,
       s = front +:+ Js.trimStart s
       /\ (Text.ws_at s = true -> front <> EmptyString)
       /\ (Text.ws_at s = false -> front = EmptyString).
Proof. apply (trimStart_spec_bounded (String.length s)). lia. Qed.

Lemma trimStart_fixed s : Text.ws_at s = false -> Js.trimStart s = s.
Proof.
  intros H. destruct (trimStart_spec s) as (_ & front & Hfront & _ & Hempty).
  rewrite (Hempty H) in Hfront. symmetry. exact Hfront.
Qed.

Lemma trimStart_shorter s :
  Text.ws_at s = true -> (String.length (Js.trimStart s) < String.length s)%nat.
Proof.
  intros H. destruct (trimStart_spec s) as (_ & front & Hfront & Hne & _).
  specialize (Hne H). rewrite Hfront at 2. rewrite length_append.
  destruct front; [contradiction|simpl; lia].
Qed.

(** The greedy white space pattern hands what [trimStart] leaves to what
    follows it, when that succeeds there. *)
Lemma spaces_greedy {R : Type} (k : string -> option R) (n : nat) : forall s x,
  (String.length s <= n)%nat ->
  k (Js.trimStart s) = Some x -> Regex.spaces k s = Some x.
Proof.
  induction n as [|n IH]; intros s x Hn Hk.
  - destruct s; [exact Hk|simpl in Hn; lia].
  - destruct s as [|a r1]; [exact Hk|].
    simpl in Hn. rewrite trimStart_unfold in Hk. cbn [Regex.spaces].
    destruct (Js.ws1 a).
    { rewrite (IH r1 x ltac:(lia) Hk). reflexivity. }
    destruct r1 as [|b r2]; [exact Hk|].
    simpl in Hn. destruct (Js.ws2 a b).
    { rewrite (IH r2 x ltac:(lia) Hk). reflexivity. }
    destruct r2 as [|c r3]; [exact Hk|].
    simpl in Hn. destruct (Js.ws3 a b c); [|exact Hk].
    rewrite (IH r3 x ltac:(lia) Hk). reflexivity.
Qed.

Lemma spaces_none {R : Type} (k : string -> option R) s :
  Text.ws_at s = false -> Regex.spaces k s = k s.
Proof.
  destruct s as [|a [|b [|c r3]]]; simpl; try reflexivity.
  - intros H. apply orb_false_elim in H. destruct H as [-> _]. reflexivity.
  - intros H. apply orb_false_elim in H. destruct H as [-> H].
    apply orb_false_elim in H. destruct H as [-> _]. reflexivity.
  - intros H. apply orb_false_elim in H. destruct H as [-> H].
    apply orb_false_elim in H. destruct H as [-> ->]. reflexivity.
Qed.

Lemma gap_spec s :
  Scraper.gap s = if Text.ws_at s then Some (Js.trimStart s) else None.
Proof.
  unfold Scraper.gap, Regex.spaces1.
  destruct (Text.ws_at s) eqn:E.
  - apply (spaces_greedy _ (String.length s)); [lia|].
    pose proof (trimStart_shorter s E) as H.
    apply Nat.ltb_lt in H. rewrite H. reflexivity.
  - rewrite (spaces_none _ s E). rewrite Nat.ltb_irrefl. reflexivity.
Qed.

(** ** What a global replacement does *)

Lemma replace_skip m by_ front rest :
  Regex.replace_from m by_ (String.length front) (front +:+ rest)
  = Regex.replace_from m by_ 0 rest.
Proof.
  induction front as [|c front IH]; [destruct rest; reflexivity|].
  change (String c front +:+ rest) with (String c (front +:+ rest)).
  exact IH.
Qed.

(** A match at the head is replaced, and the scan goes on after it. *)
Lemma replace_match m by_ c front rest :
  m (String c front +:+ rest) = Some rest ->
  Regex.replace_all m by_ (String c front +:+ rest)
  = by_ +:+ Regex.replace_all m by_ rest.
Proof.
  intros H. unfold Regex.replace_all.
  change (String c front +:+ rest) with (String c (front +:+ rest)) in *.
  cbn [Regex.replace_from]. rewrite H.
  replace (String.length (String c (front +:+ rest)) - String.length rest - 1)%nat
    with (String.length front)
    by (simpl; rewrite length_append; lia).
  rewrite replace_skip. reflexivity.
Qed.

(** Where nothing matches at the head, the first character stays. *)
Lemma replace_pass m by_ c r :
  m (String c r) = None ->
  Regex.replace_all m by_ (String c r) = String c (Regex.replace_all m by_ r).
Proof. intros H. unfold Regex.replace_all. cbn [Regex.replace_from]. rewrite H. reflexivity. Qed.

(** A text without the characters that can open a match stays as it
    is, and the scan goes on behind it. *)
Lemma replace_free m by_ bad front rest :
  (forall c r, Js.contains_char c bad = false -> m (String c r) = None) ->
  Text.free_of bad front = true ->
  Regex.replace_all m by_ (front +:+ rest) = front +:+ Regex.replace_all m by_ rest.
Proof.
  intros Hm. induction front as [|c front IH]; [reflexivity|].
  unfold Text.free_of. cbn [Text.every]. intros [Hc Hf]%andb_prop.
  change (String c front +:+ rest) with (String c (front +:+ rest)).
  rewrite replace_pass
    by (apply Hm; destruct (Js.contains_char c bad); [discriminate|reflexivity]).
  rewrite (IH Hf). reflexivity.
Qed.

Lemma append_empty s : s +:+ EmptyString = s.
Proof.
  induction s as [|c s IH]; [reflexivity|].
  change (String c s +:+ EmptyString) with (String c (s +:+ EmptyString)).
  rewrite IH. reflexivity.
Qed.

Lemma replace_free_all m by_ bad s :
  (forall c r, Js.contains_char c bad = false -> m (String c r) = None) ->
  Text.free_of bad s = true ->
  Regex.replace_all m by_ s = s.
Proof.
  intros Hm Hs. rewrite <- (append_empty s) at 1.
  rewrite (replace_free m by_ bad s EmptyString Hm Hs). apply append_empty.
Qed.

(** The replacement of white space runs by one space, step by step. *)
Lemma collapse_step s :
  Regex.replace_all Scraper.gap " " s
  = if Text.ws_at s
    then String " " (Regex.replace_all Scraper.gap " " (Js.trimStart s))
    else match s with
         | EmptyString => EmptyString
         | String c r => String c (Regex.replace_all Scraper.gap " " r)
         end.
Proof.
  destruct (Text.ws_at s) eqn:E.
  - destruct (trimStart_spec s) as (_ & front & Hfront & Hne & _).
    specialize (Hne E). destruct front as [|c front]; [contradiction|].
    rewrite Hfront at 1. rewrite replace_match; [reflexivity|].
    rewrite <- Hfront, gap_spec, E. reflexivity.
  - destruct s as [|c r]; [reflexivity|].
    apply replace_pass. rewrite gap_spec, E. reflexivity.
Qed.

Lemma space_is_ws r : Text.ws_at (String " " r) = true.
Proof. reflexivity. Qed.

Lemma not_ws_not_space c r : Text.ws_at (String c r) = false -> Ascii.eqb c " " = false.
Proof.
  intros H. destruct (Ascii.eqb c " ") eqn:E; [|reflexivity].
  apply Ascii.eqb_eq in E. subst c. discriminate.
Qed.

Lemma ws2_space a : Js.ws2 a " " = false.
Proof. unfold Js.ws2. apply andb_false_r. Qed.

Lemma ws3_space_second a c : Js.ws3 a " " c = false.
Proof.
  unfold Js.ws3.
  change (Js.code " " =? 154) with false. change (Js.code " " =? 128) with false.
  change (Js.code " " =? 129) with false. change (Js.code " " =? 187) with false.
  rewrite !andb_false_r. reflexivity.
Qed.

Lemma ws3_space_third a b : Js.ws3 a b " " = false.
Proof.
  unfold Js.ws3.
  change (Js.code " " =? 128) with false. change (Js.code " " =? 159) with false.
  change (Js.code " " =? 191) with false. change (Js.code " " =? 168) with false.
  change (Js.code " " =? 169) with false. change (Js.code " " =? 175) with false.
  change (Js.between 128 138 " ") with false.
  rewrite !andb_false_r. reflexivity.
Qed.

(** Collapsing what follows a character that opens no white space does
    not make it open one. *)
Lemma ws_at_collapse c r :
  Text.ws_at (String c r) = false ->
  Text.ws_at (String c (Regex.replace_all Scraper.gap " " r)) = false.
Proof.
  intros H. rewrite (collapse_step r).
  destruct (Text.ws_at r) eqn:Er.
  - simpl in H |- *. apply orb_false_elim in H. destruct H as [-> _].
    rewrite ws2_space. simpl.
    destruct (Regex.replace_all Scraper.gap " " (Js.trimStart r)); [reflexivity|].
    apply ws3_space_second.
  - destruct r as [|b r2]; [exact H|].
    rewrite (collapse_step r2).
    simpl in H. apply orb_false_elim in H. destruct H as [H1 H].
    apply orb_false_elim in H. destruct H as [H2 H3].
    simpl. rewrite H1, H2. simpl.
    destruct (Text.ws_at r2) eqn:Er2.
    + apply ws3_space_third.
    + destruct r2 as [|d r3]; [reflexivity|exact H3].
Qed.

Lemma single_spaced_flag b c r :
  Ascii.eqb c " " = false ->
  Text.single_spaced b (String c r) = Text.single_spaced false (String c r).
Proof. intros H. simpl. rewrite H. reflexivity. Qed.

Lemma collapse_single_spaced (n : nat) : forall s,
  (String.length s <= n)%nat ->
  Text.single_spaced false (Regex.replace_all Scraper.gap " " s) = true.
Proof.
  induction n as [|n IH]; intros s Hn.
  - destruct s; [reflexivity|simpl in Hn; lia].
  - rewrite collapse_step. destruct (Text.ws_at s) eqn:E.
    + pose proof (trimStart_shorter s E) as Hshort.
      destruct (trimStart_spec s) as (Hno & _).
      cbn [Text.single_spaced]. change (Ascii.eqb " " " ") with true.
      cbv iota. cbn [negb andb].
      pose proof (IH (Js.trimStart s) ltac:(lia)) as Hrest.
      rewrite collapse_step, Hno in Hrest |- *.
      destruct (Js.trimStart s) as [|c r] eqn:Et; [reflexivity|].
      rewrite single_spaced_flag by (apply (not_ws_not_space c r), Hno).
      exact Hrest.
    + destruct s as [|c r]; [reflexivity|]. simpl in Hn.
      cbn [Text.single_spaced]. rewrite (not_ws_not_space c r E).
      rewrite (ws_at_collapse c r E). cbn [negb andb].
      apply IH. lia.
Qed.

Lemma single_spaced_no_ws r : Text.single_spaced true r = true -> Text.ws_at r = false.
Proof.
  destruct r as [|d r']; [reflexivity|]. cbn [Text.single_spaced].
  destruct (Ascii.eqb d " "); [discriminate|].
  intros [H _]%andb_prop. destruct (Text.ws_at (String d r')); [discriminate|reflexivity].
Qed.

Lemma trimStart_single_spaced y :
  Text.single_spaced false y = true ->
  Text.single_spaced true (Js.trimStart y) = true.
Proof.
  destruct y as [|c r]; [reflexivity|].
  destruct (Ascii.eqb c " ") eqn:E.
  - apply Ascii.eqb_eq in E. subst c. cbn [Text.single_spaced].
    change (Ascii.eqb " " " ") with true. cbv iota. cbn [negb andb].
    intros H. rewrite trimStart_unfold. change (Js.ws1 " ") with true. cbv iota.
    rewrite (trimStart_fixed r (single_spaced_no_ws r H)). exact H.
  - intros H.
    assert (Hno : Text.ws_at (String c r) = false).
    { cbn [Text.single_spaced] in H. rewrite E in H.
      apply andb_prop in H. destruct H as [H _].
      destruct (Text.ws_at (String c r)); [discriminate|reflexivity]. }
    rewrite (trimStart_fixed _ Hno), (single_spaced_flag true c r E). exact H.
Qed.

Lemma trimEnd_prefix r : exists q, r = Js.trimEnd r +:+ q.
Proof.
  induction r as [|a r [q IH]]; [exists EmptyString; reflexivity|].
  rewrite trimEnd_unfold. destruct (Js.blank (String a r)).
  - exists (String a r). reflexivity.
  - exists q. change (String a (Js.trimEnd r) +:+ q) with (String a (Js.trimEnd r +:+ q)).
    rewrite <- IH. reflexivity.
Qed.

Lemma ws_at_longer a p q :
  Text.ws_at (String a (p +:+ q)) = false -> Text.ws_at (String a p) = false.
Proof.
  destruct p as [|b [|c p]].
  - simpl. intros H. destruct (Js.ws1 a); [discriminate|reflexivity].
  - change (String b EmptyString +:+ q) with (String b q). simpl.
    intros H. destruct (Js.ws1 a); [discriminate|].
    destruct (Js.ws2 a b); [discriminate|reflexivity].
  - change (String b (String c p) +:+ q) with (String b (String c (p +:+ q))).
    simpl. auto.
Qed.

Lemma blank_after_space r : Js.blank (String " " r) = Js.blank r.
Proof. reflexivity. Qed.

Lemma trimEnd_tidy z : forall b,
  Text.single_spaced b z = true ->
  Text.single_spaced b (Js.trimEnd z) = true /\ Text.open_ended (Js.trimEnd z) = true.
Proof.
  induction z as [|a r IH]; intros b H; [split; reflexivity|].
  rewrite trimEnd_unfold. destruct (Js.blank (String a r)) eqn:Hblank;
    [split; reflexivity|].
  cbn [Text.single_spaced] in H |- *.
  destruct (Ascii.eqb a " ") eqn:E.
  - apply Ascii.eqb_eq in E. subst a.
    apply andb_prop in H. destruct H as [Hb Hr].
    destruct (IH true Hr) as [Hs Ho]. rewrite Hb, Hs. split; [reflexivity|].
    rewrite blank_after_space in Hblank.
    destruct (Js.trimEnd r) as [|d t] eqn:Et.
    + assert (Hb' : Js.blank r = true) by (apply trimEnd_empty; exact Et).
      congruence.
    + exact Ho.
  - apply andb_prop in H. destruct H as [Hw Hr].
    destruct (IH false Hr) as [Hs Ho]. rewrite Hs.
    destruct (trimEnd_prefix r) as [q Hq].
    assert (Hno : Text.ws_at (String a (Js.trimEnd r)) = false).
    { apply (ws_at_longer a _ q). rewrite <- Hq.
      destruct (Text.ws_at (String a r)); [discriminate|reflexivity]. }
    rewrite Hno. split; [reflexivity|].
    destruct (Js.trimEnd r) as [|d t]; [|exact Ho].
    simpl. rewrite E. reflexivity.
Qed.

Lemma trim_tidy y :
  Text.single_spaced false y = true -> Text.tidy (Js.trim y) = true.
Proof.
  intros H. unfold Text.tidy, Js.trim.
  destruct (trimEnd_tidy _ true (trimStart_single_spaced y H)) as [Hs Ho].
  rewrite Hs, Ho. reflexivity.
Qed.

Lemma stripHtml_tidy s : Text.tidy (Scraper.stripHtml s) = true.
Proof.
  unfold Scraper.stripHtml. cbv zeta. apply trim_tidy.
  match goal with
  | |- Text.single_spaced false (Regex.replace_all Scraper.gap " " ?x) = true =>
      apply (collapse_single_spaced (String.length x)); lia
  end.
Qed.

(** ** Text that [stripHtml] keeps, and markup that it drops *)

Lemma tag_needs_open c r : Js.contains_char c "<" = false -> Scraper.tag (String c r) = None.
Proof.
  unfold Scraper.tag, Regex.one, Scraper.only. cbn [Js.contains_char].
  rewrite orb_false_r.
  destruct (Ascii.eqb c "<"); [discriminate|reflexivity].
Qed.

Lemma word_needs_amp w c r :
  Js.contains_char c "&" = false -> Scraper.word (String "&" w) (String c r) = None.
Proof.
  unfold Scraper.word. cbn [Regex.lit Js.contains_char].
  rewrite (Ascii.eqb_sym "&" c), orb_false_r.
  destruct (Ascii.eqb c "&"); [discriminate|reflexivity].
Qed.

Lemma free_of_weaken bad bad' s :
  (forall c, Js.contains_char c bad = false -> Js.contains_char c bad' = false) ->
  Text.free_of bad s = true -> Text.free_of bad' s = true.
Proof.
  intros H. unfold Text.free_of. apply every_weaken. intros c Hc.
  rewrite H; [reflexivity|]. destruct (Js.contains_char c bad); [discriminate|reflexivity].
Qed.

Lemma free_of_open s : Text.free_of "<&" s = true -> Text.free_of "<" s = true.
Proof.
  apply free_of_weaken. intros c. simpl.
  destruct (Ascii.eqb c "<"); [discriminate|reflexivity].
Qed.

Lemma free_of_amp s : Text.free_of "<&" s = true -> Text.free_of "&" s = true.
Proof.
  apply free_of_weaken. intros c. simpl.
  destruct (Ascii.eqb c "&"); [rewrite orb_true_r; discriminate|reflexivity].
Qed.

Lemma collapse_fixed t : forall b,
  Text.single_spaced b t = true -> Regex.replace_all Scraper.gap " " t = t.
Proof.
  induction t as [|c r IH]; intros b H; [reflexivity|].
  rewrite collapse_step. cbn [Text.single_spaced] in H.
  destruct (Ascii.eqb c " ") eqn:E.
  - apply Ascii.eqb_eq in E. subst c. rewrite space_is_ws.
    apply andb_prop in H. destruct H as [_ H].
    rewrite trimStart_unfold. change (Js.ws1 " ") with true. cbv iota.
    rewrite (trimStart_fixed r (single_spaced_no_ws r H)), (IH true H). reflexivity.
  - apply andb_prop in H. destruct H as [Hw H].
    destruct (Text.ws_at (String c r)); [discriminate|].
    rewrite (IH false H). reflexivity.
Qed.

Lemma blank_ws s : Js.blank s = true -> s = EmptyString \/ Text.ws_at s = true.
Proof.
  destruct s as [|a [|b [|c r]]]; [left; reflexivity| | |]; simpl; intros H; right.
  - destruct (Js.ws1 a); [reflexivity|discriminate].
  - destruct (Js.ws1 a); [reflexivity|]. destruct (Js.ws2 a b); [reflexivity|discriminate].
  - destruct (Js.ws1 a); [reflexivity|]. destruct (Js.ws2 a b); [reflexivity|].
    apply andb_prop in H. destruct H as [-> _]. reflexivity.
Qed.

Lemma trimEnd_fixed t : forall b,
  Text.single_spaced b t = true -> Text.open_ended t = true -> Js.trimEnd t = t.
Proof.
  induction t as [|a r IH]; intros b Hs Ho; [reflexivity|].
  rewrite trimEnd_unfold. cbn [Text.single_spaced] in Hs.
  destruct (Ascii.eqb a " ") eqn:E.
  - apply Ascii.eqb_eq in E. subst a.
    apply andb_prop in Hs. destruct Hs as [_ Hs].
    destruct r as [|d r']; [discriminate Ho|].
    rewrite blank_after_space.
    destruct (Js.blank (String d r')) eqn:Hb.
    + destruct (blank_ws _ Hb) as [H|H]; [discriminate|].
      rewrite (single_spaced_no_ws _ Hs) in H. discriminate.
    + rewrite (IH true Hs Ho). reflexivity.
  - apply andb_prop in Hs. destruct Hs as [Hw Hs].
    destruct (Js.blank (String a r)) eqn:Hb.
    + destruct (blank_ws _ Hb) as [H|H]; [discriminate|].
      rewrite H in Hw. discriminate.
    + assert (Ho' : Text.open_ended r = true).
      { destruct r as [|d r']; [reflexivity|exact Ho]. }
      rewrite (IH false Hs Ho'). reflexivity.
Qed.

Lemma trim_fixed t : Text.tidy t = true -> Js.trim t = t.
Proof.
  unfold Text.tidy, Js.trim. intros [Hs Ho]%andb_prop.
  rewrite (trimStart_fixed t (single_spaced_no_ws t Hs)).
  apply (trimEnd_fixed t true Hs Ho).
Qed.

Lemma stripHtml_fixed t :
  Text.free_of "<&" t = true -> Text.tidy t = true -> Scraper.stripHtml t = t.
Proof.
  intros Hfree Htidy. unfold Scraper.stripHtml. cbv zeta.
  rewrite (replace_free_all Scraper.tag _ "<" t tag_needs_open (free_of_open t Hfree)).
  rewrite !(replace_free_all _ _ "&" t (word_needs_amp _) (free_of_amp t Hfree)).
  unfold Text.tidy in Htidy. pose proof Htidy as Ht.
  apply andb_prop in Ht. destruct Ht as [Hs _].
  rewrite (collapse_fixed t true Hs). apply trim_fixed, Htidy.
Qed.

Lemma many_all {R : Type} (p : ascii -> bool) (k : string -> option R) text c r x :
  Text.every p text = true -> p c = false -> k (String c r) = Some x ->
  Regex.many p k (text +:+ String c r) = Some x.
Proof.
  intros Ht Hc Hk. induction text as [|d text IH].
  - change (EmptyString +:+ String c r) with (String c r).
    cbn [Regex.many]. rewrite Hc. exact Hk.
  - cbn [Text.every] in Ht. apply andb_prop in Ht. destruct Ht as [Hd Ht].
    change (String d text +:+ String c r) with (String d (text +:+ String c r)).
    cbn [Regex.many]. rewrite Hd, (IH Ht). reflexivity.
Qed.

Lemma tag_matches inner rest :
  inner <> EmptyString -> Text.free_of ">" inner = true ->
  Scraper.tag ("<" +:+ inner +:+ ">" +:+ rest) = Some rest.
Proof.
  intros Hne Hfree. destruct inner as [|d inner]; [contradiction|].
  unfold Text.free_of in Hfree. cbn [Text.every] in Hfree.
  apply andb_prop in Hfree. destruct Hfree as [Hd Hfree].
  assert (Hp : forall c, negb (Js.contains_char c ">") = true ->
                 Scraper.except ">" c = true).
  { intros c. unfold Scraper.except. simpl. rewrite orb_false_r. auto. }
  change ("<" +:+ String d inner +:+ ">" +:+ rest)
    with (String "<" (String d (inner +:+ String ">" rest))).
  unfold Scraper.tag, Regex.many1. cbn [Regex.one]. 
  change (Scraper.only "<" "<") with true. cbv iota.
  rewrite (Hp d Hd).
  apply many_all; [apply (every_weaken _ _ _ Hp Hfree)|reflexivity|reflexivity].
Qed.

Lemma stripHtml_drops_tag inner rest :
  inner <> EmptyString -> Text.free_of ">" inner = true ->
  Scraper.stripHtml ("<" +:+ inner +:+ ">" +:+ rest) = Scraper.stripHtml rest.
Proof.
  intros Hne Hfree. unfold Scraper.stripHtml. cbv zeta.
  change ("<" +:+ inner +:+ ">" +:+ rest)
    with (String "<" (inner +:+ ">" +:+ rest)).
  assert (Hform : String "<" (inner +:+ ">" +:+ rest)
                  = String "<" (inner +:+ ">") +:+ rest).
  { change (String "<" (inner +:+ ">") +:+ rest)
      with (String "<" ((inner +:+ ">") +:+ rest)).
    rewrite append_assoc. reflexivity. }
  rewrite Hform, replace_match.
  - reflexivity.
  - rewrite <- Hform. apply (tag_matches inner rest Hne Hfree).
Qed.

Lemma single_spaced_ascii s : forall b,
  Text.single_spaced b s = true ->
  Text.every (fun c => negb (Js.ws1 c) || Ascii.eqb c " ") s = true.
Proof.
  induction s as [|c r IH]; intros b H; [reflexivity|].
  cbn [Text.single_spaced] in H. cbn [Text.every].
  destruct (Ascii.eqb c " ") eqn:E.
  - rewrite orb_true_r. apply andb_prop in H. destruct H as [_ H].
    exact (IH _ H).
  - apply andb_prop in H. destruct H as [Hws H]. rewrite (IH _ H).
    apply negb_true_iff in Hws. cbn [Text.ws_at] in Hws.
    apply orb_false_elim in Hws. destruct Hws as [Hws _].
    rewrite Hws. reflexivity.
Qed.

(** X12. Whatever it is given, [stripHtml] returns tidy text: the white
    space of ECMAScript -- what [\s] and [trim] know, that is U+0009 to
    U+000D, U+0020, U+00A0, U+1680, U+2000 to U+200A, U+2028, U+2029,
    U+202F, U+205F, U+3000 and U+FEFF -- occurs in the result only as
    single U+0020 between other characters, never at the start or the
    end; in particular the only ASCII white space left is the space. A
    character outside that set is no white space for [stripHtml]: U+0085
    NEXT LINE is kept as it is. *)
Theorem stripped_text_is_tidy :
  (forall s, Text.tidy (Scraper.stripHtml s) = true)
  /\ (forall s,
        Text.every (fun c => negb (Js.ws1 c) || Ascii.eqb c " ")
          (Scraper.stripHtml s) = true)
  /\ Scraper.stripHtml ("a" +:+ Text.next_line +:+ "b")
     = "a" +:+ Text.next_line +:+ "b".
Proof.
  split; [exact stripHtml_tidy|]. split; [|vm_compute; reflexivity].
  intros s. pose proof (stripHtml_tidy s) as H. unfold Text.tidy in H.
  apply andb_prop in H. destruct H as [H _].
  exact (single_spaced_ascii _ _ H).
Qed.

(** X13. [stripHtml] keeps tidy text without [<] and [&] as it is, and
    drops a tag in front of a text: the result is that of the text
    alone. *)
Theorem plain_text_kept_and_tags_dropped :
  (forall t,
      Text.free_of "<&" t = true -> Text.tidy t = true ->
      Scraper.stripHtml t = t)
  /\ (forall inner rest,
        inner <> EmptyString -> Text.free_of ">" inner = true ->
        Scraper.stripHtml ("<" +:+ inner +:+ ">" +:+ rest)
        = Scraper.stripHtml rest).
Proof. split; [exact stripHtml_fixed|exact stripHtml_drops_tag]. Qed.

Lemma plain_text_kept_and_tags_dropped_witness :
  Scraper.stripHtml
    ("<" +:+ "a href=x" +:+ ">" +:+ "Bitcoin - Open source P2P money")
  = "Bitcoin - Open source P2P money".
Proof.
  destruct plain_text_kept_and_tags_dropped as [Hkeep Hdrop].
  rewrite Hdrop; [|discriminate|reflexivity].
  apply Hkeep; reflexivity.
Defined.

(** ** Encoded markup *)

Lemma replace_every m by_ (p : ascii -> bool) front rest :
  (forall c r, p c = true -> m (String c r) = None) ->
  Text.every p front = true ->
  Regex.replace_all m by_ (front +:+ rest) = front +:+ Regex.replace_all m by_ rest.
Proof.
  intros Hm. induction front as [|c front IH]; [reflexivity|].
  cbn [Text.every]. intros [Hc Hf]%andb_prop.
  change (String c front +:+ rest) with (String c (front +:+ rest)).
  rewrite (replace_pass _ _ _ _ (Hm c _ Hc)), (IH Hf). reflexivity.
Qed.

Lemma printable_no_ws c r : Text.printable c = true -> Text.ws_at (String c r) = false.
Proof.
  destruct c as [[] [] [] [] [] [] [] []]; intros H; try discriminate H;
    destruct r as [|b [|d r]]; reflexivity.
Qed.

Lemma word_char_printable c : Text.word_char c = true -> Text.printable c = true.
Proof. unfold Text.word_char. intros [H _]%andb_prop. exact H. Qed.

Lemma word_char_plain c :
  Text.word_char c = true -> Js.contains_char c "<>&" = false.
Proof.
  unfold Text.word_char. intros [_ H]%andb_prop.
  destruct (Js.contains_char c "<>&"); [discriminate|reflexivity].
Qed.

Lemma tag_skips_word c r : Text.word_char c = true -> Scraper.tag (String c r) = None.
Proof.
  intros H. apply tag_needs_open. apply word_char_plain in H.
  cbn [Js.contains_char] in *. destruct (Ascii.eqb c "<"); [discriminate|reflexivity].
Qed.

Lemma word_skips_word w c r :
  Text.word_char c = true -> Scraper.word (String "&" w) (String c r) = None.
Proof.
  intros H. apply word_needs_amp. apply word_char_plain in H.
  cbn [Js.contains_char] in *.
  destruct (Ascii.eqb c "<"), (Ascii.eqb c ">"), (Ascii.eqb c "&");
    try discriminate; reflexivity.
Qed.

Lemma gap_skips_printable c r : Text.printable c = true -> Scraper.gap (String c r) = None.
Proof. intros H. rewrite gap_spec, (printable_no_ws c r H). reflexivity. Qed.

Lemma printable_not_space c : Text.printable c = true -> Ascii.eqb c " " = false.
Proof. intros H. apply (not_ws_not_space c EmptyString), printable_no_ws, H. Qed.

Lemma printable_single_spaced s : forall b,
  Text.every Text.printable s = true -> Text.single_spaced b s = true.
Proof.
  induction s as [|c r IH]; intros b H; [reflexivity|].
  cbn [Text.every] in H. apply andb_prop in H. destruct H as [Hc Hr].
  cbn [Text.single_spaced].
  rewrite (printable_not_space c Hc), (printable_no_ws c r Hc), (IH false Hr).
  reflexivity.
Qed.

Lemma printable_open_ended s :
  Text.every Text.printable s = true -> Text.open_ended s = true.
Proof.
  induction s as [|c r IH]; intros H; [reflexivity|].
  cbn [Text.every] in H. apply andb_prop in H. destruct H as [Hc Hr].
  destruct r as [|d r'].
  - simpl. rewrite (printable_not_space c Hc). reflexivity.
  - exact (IH Hr).
Qed.

Lemma printable_tidy s : Text.every Text.printable s = true -> Text.tidy s = true.
Proof.
  intros H. unfold Text.tidy.
  rewrite (printable_single_spaced s true H), (printable_open_ended s H). reflexivity.
Qed.

Lemma bracketed_printable t :
  Text.every Text.word_char t = true ->
  Text.every Text.printable ("<" +:+ t +:+ ">") = true.
Proof.
  intros H. change ("<" +:+ t +:+ ">") with (String "<" (t +:+ ">")).
  cbn [Text.every]. rewrite every_app.
  rewrite (every_weaken _ _ _ word_char_printable H). reflexivity.
Qed.

Ltac walk H :=
  repeat first
    [ rewrite replace_pass by reflexivity
    | rewrite (replace_every _ _ Text.word_char _ _ (word_skips_word _) H)
    | rewrite (replace_every _ _ Text.word_char _ _ tag_skips_word H) ].

Lemma replace_nothing m by_ : Regex.replace_all m by_ EmptyString = EmptyString.
Proof. reflexivity. Qed.

Lemma pass_tags t :
  Text.every Text.word_char t = true ->
  Regex.replace_all Scraper.tag EmptyString (Page.lt_text_gt t) = Page.lt_text_gt t.
Proof. intros H. unfold Page.lt_text_gt. walk H. reflexivity. Qed.

Lemma pass_amp t :
  Text.every Text.word_char t = true ->
  Regex.replace_all (Scraper.word "&amp;") "&" (Page.lt_text_gt t) = Page.lt_text_gt t.
Proof. intros H. unfold Page.lt_text_gt. walk H. reflexivity. Qed.

Lemma pass_lt t :
  Text.every Text.word_char t = true ->
  Regex.replace_all (Scraper.word "&lt;") "<" (Page.lt_text_gt t) = Page.open_text_gt t.
Proof.
  intros H. unfold Page.lt_text_gt, Page.open_text_gt.
  change (String "&" (String "l" (String "t" (String ";"
            (t +:+ String "&" (String "g" (String "t" (String ";" EmptyString))))))))
    with (String "&" "lt;"
          +:+ (t +:+ String "&" (String "g" (String "t" (String ";" EmptyString))))).
  rewrite replace_match by reflexivity. walk H. reflexivity.
Qed.

Lemma pass_gt t :
  Text.every Text.word_char t = true ->
  Regex.replace_all (Scraper.word "&gt;") ">" (Page.open_text_gt t) = Page.open_text_close t.
Proof.
  intros H. unfold Page.open_text_gt, Page.open_text_close.
  rewrite replace_pass by reflexivity.
  rewrite (replace_every _ _ Text.word_char _ _ (word_skips_word _) H).
  change (String "&" (String "g" (String "t" (String ";" EmptyString))))
    with (String "&" "gt;" +:+ EmptyString).
  rewrite replace_match by reflexivity. reflexivity.
Qed.

Lemma pass_other w by_ t :
  Text.every Text.word_char t = true ->
  Regex.replace_all (Scraper.word (String "&" w)) by_ (Page.open_text_close t)
  = Page.open_text_close t.
Proof.
  intros H. unfold Page.open_text_close.
  rewrite replace_pass by reflexivity.
  rewrite (replace_every _ _ Text.word_char _ _ (word_skips_word _) H).
  rewrite replace_pass by reflexivity. reflexivity.
Qed.

Lemma pass_gap_trim t :
  Text.every Text.word_char t = true ->
  Js.trim (Regex.replace_all Scraper.gap " " (Page.open_text_close t))
  = "<" +:+ t +:+ ">".
Proof.
  intros H. change (Page.open_text_close t) with ("<" +:+ t +:+ ">").
  pose proof (bracketed_printable t H) as Hp.
  rewrite <- (append_empty ("<" +:+ t +:+ ">")) at 1.
  rewrite (replace_every _ _ Text.printable _ _ gap_skips_printable Hp).
  change (Regex.replace_all Scraper.gap " " EmptyString) with EmptyString.
  rewrite append_empty. apply trim_fixed, printable_tidy, Hp.
Qed.

Lemma decode_lt_gt t :
  Text.every Text.word_char t = true ->
  Scraper.stripHtml ("&lt;" +:+ t +:+ "&gt;") = "<" +:+ t +:+ ">".
Proof.
  intros H. unfold Scraper.stripHtml. cbv zeta.
  change ("&lt;" +:+ t +:+ "&gt;") with (Page.lt_text_gt t).
  rewrite (pass_tags t H), (pass_amp t H), (pass_lt t H), (pass_gt t H).
  rewrite !(pass_other _ _ t H). apply (pass_gap_trim t H).
Qed.

Lemma pass_tags_amp t :
  Text.every Text.word_char t = true ->
  Regex.replace_all Scraper.tag EmptyString ("&amp;lt;" +:+ t +:+ "&amp;gt;")
  = "&amp;lt;" +:+ t +:+ "&amp;gt;".
Proof.
  intros H.
  change ("&amp;lt;" +:+ t +:+ "&amp;gt;")
    with (String "&" (String "a" (String "m" (String "p" (String ";"
            (String "l" (String "t" (String ";"
               (t +:+ "&amp;gt;"))))))))).
  walk H. reflexivity.
Qed.

Lemma pass_amp_amp t :
  Text.every Text.word_char t = true ->
  Regex.replace_all (Scraper.word "&amp;") "&" ("&amp;lt;" +:+ t +:+ "&amp;gt;")
  = Page.lt_text_gt t.
Proof.
  intros H.
  change ("&amp;lt;" +:+ t +:+ "&amp;gt;")
    with (String "&" "amp;" +:+ (String "l" (String "t" (String ";"
            (t +:+ String "&" "amp;" +:+ "gt;"))))).
  rewrite replace_match by reflexivity.
  rewrite !replace_pass by reflexivity.
  rewrite (replace_every _ _ Text.word_char _ _ (word_skips_word _) H).
  rewrite replace_match by reflexivity.
  rewrite !replace_pass by reflexivity. reflexivity.
Qed.

Lemma decode_amp_lt_gt t :
  Text.every Text.word_char t = true ->
  Scraper.stripHtml ("&amp;lt;" +:+ t +:+ "&amp;gt;") = "<" +:+ t +:+ ">".
Proof.
  intros H. unfold Scraper.stripHtml. cbv zeta.
  rewrite (pass_tags_amp t H), (pass_amp_amp t H), (pass_lt t H), (pass_gt t H).
  rewrite !(pass_other _ _ t H). apply (pass_gap_trim t H).
Qed.

(** X14. [stripHtml] removes tags first and decodes entities after, one
    entity after the other with the ampersand first: markup written with
    entities comes out as markup. For every word [t] of printable
    characters other than [<], [>] and [&], both the once-encoded and the
    twice-encoded form of the tag [<t>] come out as that tag. *)
Theorem encoded_markup_comes_out_as_markup (t : string) :
  Text.every Text.word_char t = true ->
  Scraper.stripHtml ("&lt;" +:+ t +:+ "&gt;") = "<" +:+ t +:+ ">"
  /\ Scraper.stripHtml ("&amp;lt;" +:+ t +:+ "&amp;gt;") = "<" +:+ t +:+ ">".
Proof. intros H. split; [exact (decode_lt_gt t H)|exact (decode_amp_lt_gt t H)]. Qed.

Lemma encoded_markup_comes_out_as_markup_witness :
  Text.every Text.word_char "script" = true
  /\ Scraper.stripHtml "&lt;script&gt;" = "<script>"
  /\ Scraper.stripHtml "&amp;lt;script&amp;gt;" = "<script>".
Proof.
  assert (H : Text.every Text.word_char "script" = true) by reflexivity.
  split; [exact H|]. exact (encoded_markup_comes_out_as_markup "script" H).
Defined.

(** ** The loop over the result blocks *)

Lemma decode_rejects st s m : Uri.decode st s = Rejected m -> m = "URI malformed".
Proof.
  assert (Hemit : forall octets r, Uri.emit octets r = Rejected m -> r = Rejected m).
  { intros octets [x|x]; simpl; [discriminate|auto]. }
  revert st. induction s as [|c s IH]; intros st.
  - destruct st; simpl; unfold Uri.malformed; congruence.
  - destruct st as [|octets total|octets total high|octets total]; cbn [Uri.decode].
    + destruct (Js.code c =? 37); [apply IH|]. intros H. apply Hemit in H. eapply IH, H.
    + destruct (Uri.hex_value c); [apply IH|unfold Uri.malformed; congruence].
    + destruct (Uri.hex_value c) as [low|]; [|unfold Uri.malformed; congruence].
      cbv zeta. destruct octets as [|o octets].
      * destruct (high * 16 + low <? 128).
        -- intros H. apply Hemit in H. eapply IH, H.
        -- destruct (Uri.sequence_length _); [apply IH|unfold Uri.malformed; congruence].
      * destruct (Uri.continuation _); [|unfold Uri.malformed; congruence].
        destruct (Nat.eqb _ _); [|apply IH].
        destruct (Uri.encodes_code_point _); [|unfold Uri.malformed; congruence].
        intros H. apply Hemit in H. eapply IH, H.
    + destruct (Js.code c =? 37); [apply IH|unfold Uri.malformed; congruence].
Qed.

Lemma extract_rejects raw m :
  Scraper.extractDdgUrl raw = Rejected m -> m = "URI malformed".
Proof.
  unfold Scraper.extractDdgUrl. destruct (Scraper.uddg raw) as [v|].
  - apply decode_rejects.
  - destruct (Regex.startsWith "//" raw); discriminate.
Qed.

Lemma collect_keeps (todo : list string) : forall acc,
  Forall (fun r => Scraper.acceptable r = true) acc ->
  (length acc <= 5)%nat ->
  match Scraper.collect todo acc with
  | Fulfilled out =>
      Forall (fun r => Scraper.acceptable r = true) out
      /\ (length out <= 5)%nat
      /\ exists more, out = acc ++ more
  | Rejected m => m = "URI malformed"
  end.
Proof.
  induction todo as [|block todo IH]; intros acc Hacc Hlen.
  - simpl. split; [exact Hacc|]. split; [exact Hlen|]. exists []. rewrite app_nil_r. reflexivity.
  - cbn [Scraper.collect].
    destruct (5 <=? length acc)%nat eqn:Hfull.
    { split; [exact Hacc|]. split; [exact Hlen|]. exists []. rewrite app_nil_r. reflexivity. }
    apply Nat.leb_gt in Hfull.
    destruct (Scraper.href_of block) as [href|]; [|apply IH; assumption].
    destruct (Scraper.title_of block) as [inner|]; [|apply IH; assumption].
    destruct (Scraper.extractDdgUrl href) as [resultUrl|m] eqn:Hurl;
      [|apply (extract_rejects href m Hurl)].
    cbv zeta.
    destruct (Js.nonempty (Scraper.stripHtml inner) && Js.nonempty resultUrl
              && negb (Regex.includes "duckduckgo.com" resultUrl)) eqn:Hkeep;
      [|apply IH; assumption].
    match goal with
    | |- context [Scraper.collect todo (acc ++ [?r])] =>
        specialize (IH (acc ++ [r]));
        assert (Hr : Scraper.acceptable r = true)
    end.
    { unfold Scraper.acceptable. cbn [Search.title Search.url Search.snippet].
      rewrite Hkeep, stripHtml_tidy. cbn [andb].
      destruct (Scraper.snippet_of block); [apply stripHtml_tidy|reflexivity]. }
    match type of IH with ?A -> ?B -> _ =>
      assert (HA : A) by (apply Forall_app; split; [exact Hacc|repeat constructor; exact Hr]);
      assert (HB : B) by (rewrite length_app; simpl; lia)
    end.
    specialize (IH HA HB).
    destruct (Scraper.collect todo _) as [out|m]; [|exact IH].
    destruct IH as (Hout & Hl & more & Hmore).
    split; [exact Hout|]. split; [exact Hl|].
    eexists. rewrite Hmore, <- app_assoc. reflexivity.
Qed.

Lemma scraped_bound html :
  match Scraper.parse_results html with
  | Fulfilled out => (length out <= 5)%nat
  | Rejected _ => True
  end.
Proof.
  pose proof (collect_keeps (Scraper.blocks html) [] (List.Forall_nil _) ltac:(simpl; lia)) as H.
  unfold Scraper.parse_results.
  destruct (Scraper.collect (Scraper.blocks html) []) as [out|m]; [|exact I].
  destruct H as (_ & Hlen & _). exact Hlen.
Qed.

(** X15. Whatever the page, the scraper returns at most five results;
    each has a title and an address that are not empty, an address that
    does not contain [duckduckgo.com], and a title and a snippet that are
    tidy text. When it throws instead, it is the [URIError] of a redirect
    link with a malformed escape. *)
Theorem scraped_results_are_few_and_clean (html : string) :
  match Scraper.parse_results html with
  | Fulfilled out =>
      (length out <= 5)%nat
      /\ Forall (fun r =>
                   Search.title r <> EmptyString
                   /\ Search.url r <> EmptyString
                   /\ Regex.includes "duckduckgo.com" (Search.url r) = false
                   /\ Text.tidy (Search.title r) = true
                   /\ Text.tidy (Search.snippet r) = true) out
  | Rejected m => m = "URI malformed"
  end.
Proof.
  pose proof (collect_keeps (Scraper.blocks html) [] (List.Forall_nil _) ltac:(simpl; lia)) as H.
  unfold Scraper.parse_results.
  destruct (Scraper.collect (Scraper.blocks html) []) as [out|m]; [|exact H].
  destruct H as (Hout & Hlen & _). split; [exact Hlen|].
  eapply Forall_impl; [exact Hout|].
  intros r Hr. unfold Scraper.acceptable in Hr.
  apply andb_prop in Hr. destruct Hr as [Hr Hsn].
  apply andb_prop in Hr. destruct Hr as [Hr Hti].
  apply andb_prop in Hr. destruct Hr as [Hr Hinc].
  apply andb_prop in Hr. destruct Hr as [Ht Hu].
  repeat split; try assumption.
  - intros E. rewrite E in Ht. discriminate.
  - intros E. rewrite E in Hu. discriminate.
  - destruct (Regex.includes "duckduckgo.com" (Search.url r)); [discriminate|reflexivity].
Qed.

(** ** A page without result blocks *)

Lemma split_without_match m s : forall piece,
  Regex.search m s = None ->
  Regex.split_from m 0 piece s = [piece +:+ s].
Proof.
  induction s as [|c r IH]; intros piece H.
  - simpl. rewrite append_empty. reflexivity.
  - cbn [Regex.search] in H. cbn [Regex.split_from].
    destruct (m (String c r)); [discriminate|]. simpl in H.
    rewrite (IH _ H), append_assoc. reflexivity.
Qed.

Lemma no_block_no_result html :
  Regex.search Scraper.block_start html = None ->
  Scraper.parse_results html = Fulfilled [].
Proof.
  intros H. unfold Scraper.parse_results, Scraper.blocks, Regex.split.
  rewrite (split_without_match _ _ _ H). reflexivity.
Qed.

(** X16. Under the live strategy, when the search engine answers with a
    page in which no result block starts (a challenge page, or a page
    with other class names), nothing is parsed and [executeSearch]
    resolves to the stub results, tagged [fallback_stub], after logging
    that no results were parsed. *)
Theorem page_without_blocks_falls_back (w : World) (query : string)
    (response : HttpResponse) (html : string) :
  Scraper.scrapes w ->
  SearchExec.provider (env w) <> "stub" ->
  fetch w (SearchExec.live_request query) = Fulfilled response ->
  ok response = true ->
  text response = Fulfilled html ->
  Regex.search Scraper.block_start html = None ->
  SearchExec.executeSearch query w
  = ({| Search.results := Search.stubResults query;
        Search.mode := Search.fallback_stub |},
     [ Fetch (SearchExec.live_request query);
       ConsoleError
         [ Some (Json.Str "[search] DuckDuckGo scraping failed, falling back to stub:");
           Some (Json.Str "No results parsed") ] ]).
Proof.
  intros Hscrape Hlive Hfetch Hok Htext Hnone.
  unfold SearchExec.executeSearch, SearchExec.searchDuckDuckGo, SearchExec.fall_back.
  run_eff.
  destruct (String.eqb (SearchExec.provider (env w)) "stub") eqn:E.
  { apply String.eqb_eq in E. contradiction. }
  rewrite Hfetch. cbv beta iota. rewrite Hok, Htext. cbn [negb]. cbv beta iota.
  rewrite (Hscrape html), (no_block_no_result html Hnone). reflexivity.
Qed.

Lemma page_without_blocks_falls_back_witness :
  SearchExec.executeSearch "bitcoin" (Live.world (Live.page Live.challenge))
  = ({| Search.results := Search.stubResults "bitcoin";
        Search.mode := Search.fallback_stub |},
     [ Fetch (SearchExec.live_request "bitcoin");
       ConsoleError
         [ Some (Json.Str "[search] DuckDuckGo scraping failed, falling back to stub:");
           Some (Json.Str "No results parsed") ] ]).
Proof.
  apply (page_without_blocks_falls_back
           (Live.world (Live.page Live.challenge)) "bitcoin"
           {| status := 200;
              text := Fulfilled Live.challenge;
              json := Rejected "Unexpected token < in JSON at position 0" |}
           Live.challenge).
  - intros html. reflexivity.
  - vm_compute. discriminate.
  - reflexivity.
  - reflexivity.
  - reflexivity.
  - vm_compute. reflexivity.
Defined.

(** X17. In a world whose scraper is the one of the program,
    [executeSearch] resolves with at least one and at most five results,
    under either strategy and whatever the network does. *)
Theorem between_one_and_five_results (w : World) (query : string) :
  Scraper.scrapes w ->
  (1 <= length (Search.results (SearchExec.executeSearch query w).1) <= 5)%nat.
Proof.
  intros Hscrape.
  destruct (execute_cases w query) as (Hne & _ & Hstub & Hlive & Hfall).
  split.
  { destruct (Search.results (SearchExec.executeSearch query w).1);
      [contradiction|simpl; lia]. }
  destruct (Search.mode (SearchExec.executeSearch query w).1) eqn:Hmode.
  - specialize (Hlive eq_refl).
    assert (Hparsed : exists html,
              Scraper.parse_results html
              = Fulfilled (Search.results (SearchExec.executeSearch query w).1)).
    { revert Hlive. unfold SearchExec.searchDuckDuckGo. run_eff.
      destruct (fetch w _) as [resp|m]; [|discriminate].
      destruct (negb (ok resp)); [discriminate|].
      destruct (text resp) as [html|m]; [|discriminate].
      cbn [fst]. rewrite (Hscrape html). intros H. exists html. exact H. }
    destruct Hparsed as [html Hparsed].
    pose proof (scraped_bound html) as H. rewrite Hparsed in H. exact H.
  - rewrite (Hstub eq_refl). simpl. lia.
  - destruct (Hfall eq_refl) as [-> _]. simpl. lia.
Qed.

Lemma between_one_and_five_results_witness :
  (1 <= length (Search.results
                  (SearchExec.executeSearch "bitcoin"
                     (Live.world (Live.page Page.sample))).1) <= 5)%nat.
Proof.
  apply (between_one_and_five_results (Live.world (Live.page Page.sample)) "bitcoin").
  intros html. reflexivity.
Defined.

(** ** Matching over a text that is known in part *)

Lemma orelse_none {R : Type} (x : option R) : Regex.orelse x None = x.
Proof. destruct x; reflexivity. Qed.

Lemma search_misses {R : Type} (m : string -> option R) tail t :
  Text.misses m tail t = true ->
  Regex.search m (t +:+ tail) = Regex.search m tail.
Proof.
  induction t as [|c t IH]; [reflexivity|].
  cbn [Text.misses]. destruct (m (String c t +:+ tail)) eqn:E; [discriminate|].
  intros H. change (String c t +:+ tail) with (String c (t +:+ tail)) in *.
  cbn [Regex.search]. rewrite E. cbn [Regex.orelse]. apply IH, H.
Qed.

Lemma split_misses m tail t : forall piece,
  Text.misses m tail t = true ->
  Regex.split_from m 0 piece (t +:+ tail) = Regex.split_from m 0 (piece +:+ t) tail.
Proof.
  induction t as [|c t IH]; intros piece.
  - rewrite append_empty. reflexivity.
  - cbn [Text.misses]. destruct (m (String c t +:+ tail)) eqn:E; [discriminate|].
    intros H. change (String c t +:+ tail) with (String c (t +:+ tail)) in *.
    cbn [Regex.split_from]. rewrite E, (IH _ H), append_assoc. reflexivity.
Qed.

Lemma split_skip m a : forall piece rest,
  Regex.split_from m (String.length a) piece (a +:+ rest)
  = Regex.split_from m 0 piece rest.
Proof.
  induction a as [|c a IH]; intros piece rest.
  - destruct rest; reflexivity.
  - change (String c a +:+ rest) with (String c (a +:+ rest)).
    cbn [String.length Regex.split_from]. apply IH.
Qed.

Lemma many_misses {R : Type} p (k : string -> option R) tail t :
  Text.every p t = true ->
  Text.misses k tail t = true ->
  Regex.many p k (t +:+ tail) = Regex.many p k tail.
Proof.
  induction t as [|c t IH]; [reflexivity|].
  cbn [Text.every Text.misses]. intros [Hc Ht]%andb_prop.
  destruct (k (String c t +:+ tail)) eqn:E; [discriminate|].
  intros H. change (String c t +:+ tail) with (String c (t +:+ tail)) in *.
  cbn [Regex.many]. rewrite Hc, E, orelse_none. apply IH; assumption.
Qed.

Lemma many_greedy {R : Type} p (k : string -> option R) tail t x :
  Text.every p t = true ->
  Regex.many p k tail = Some x ->
  Regex.many p k (t +:+ tail) = Some x.
Proof.
  intros Ht Hk. induction t as [|c t IH]; [exact Hk|].
  cbn [Text.every] in Ht. apply andb_prop in Ht. destruct Ht as [Hc Ht].
  change (String c t +:+ tail) with (String c (t +:+ tail)).
  cbn [Regex.many]. rewrite Hc, (IH Ht). reflexivity.
Qed.

Lemma few_misses {R : Type} (k : string -> string -> option R) tail t : forall seen,
  (forall seen, Text.misses (k seen) tail t = true) ->
  Regex.capture_few k seen (t +:+ tail) = Regex.capture_few k (seen +:+ t) tail.
Proof.
  induction t as [|c t IH]; intros seen H.
  - rewrite append_empty. reflexivity.
  - change (String c t +:+ tail) with (String c (t +:+ tail)).
    cbn [Regex.capture_few].
    pose proof (H seen) as Hs. cbn [Text.misses] in Hs.
    change (String c t +:+ tail) with (String c (t +:+ tail)) in Hs.
    destruct (k seen (String c (t +:+ tail))); [discriminate|].
    cbn [Regex.orelse]. rewrite IH.
    + rewrite append_assoc. reflexivity.
    + intros seen'. specialize (H seen'). cbn [Text.misses] in H.
      destruct (k seen' (String c t +:+ tail)); [discriminate|exact H].
Qed.

Lemma capture_stops {R : Type} p (k : string -> string -> option R) text back x :
  forall seen,
  Text.every p text = true ->
  Regex.capture_many p k (seen +:+ text) back = Some x ->
  Regex.capture_many p k seen (text +:+ back) = Some x.
Proof.
  induction text as [|c text IH]; intros seen Ht Hk.
  - rewrite append_empty in Hk. exact Hk.
  - cbn [Text.every] in Ht. apply andb_prop in Ht. destruct Ht as [Hc Ht].
    change (String c text +:+ back) with (String c (text +:+ back)).
    cbn [Regex.capture_many]. rewrite Hc, (IH _ Ht); [reflexivity|].
    rewrite append_assoc. exact Hk.
Qed.

(** A literal cannot match inside a text of another alphabet, nor
    across its end when the character that follows is not in the
    literal. *)
Lemma lit_foreign {R : Type} (l : string) (k : string -> option R) p c rest :
  forall t,
  Text.every p t = true ->
  Text.every p l = false ->
  Js.contains_char c l = false ->
  Regex.lit l k (t +:+ String c rest) = None.
Proof.
  induction l as [|a l IH]; intros t Ht Hl Hc; [discriminate|].
  cbn [Js.contains_char] in Hc. apply orb_false_elim in Hc. destruct Hc as [Hca Hc].
  destruct t as [|d t].
  - change (EmptyString +:+ String c rest) with (String c rest).
    cbn [Regex.lit]. rewrite Ascii.eqb_sym, Hca. reflexivity.
  - change (String d t +:+ String c rest) with (String d (t +:+ String c rest)).
    cbn [Regex.lit]. destruct (Ascii.eqb a d) eqn:E; [|reflexivity].
    apply Ascii.eqb_eq in E. subst d.
    cbn [Text.every] in Ht, Hl. apply andb_prop in Ht. destruct Ht as [Ha Ht].
    rewrite Ha in Hl. apply IH; assumption.
Qed.

Lemma misses_foreign {R : Type} (l : string) (k : string -> option R) p c rest t :
  Text.every p t = true ->
  Text.every p l = false ->
  Js.contains_char c l = false ->
  Text.misses (Regex.lit l k) (String c rest) t = true.
Proof.
  intros Ht Hl Hc. induction t as [|d t IH]; [reflexivity|].
  cbn [Text.misses]. rewrite (lit_foreign l k p c rest (String d t) Ht Hl Hc).
  cbn [Text.every] in Ht. apply andb_prop in Ht. apply IH, Ht.
Qed.

(** A literal that does not match at the head of [t] does not match
    there when more text follows, unless it runs across the end of
    [t]. *)
Lemma lit_extend {R : Type} (l : string) (k : string -> option R) c rest :
  forall t,
  Regex.lit l (fun _ => Some tt) t = None ->
  Js.contains_char c l = false ->
  Regex.lit l k (t +:+ String c rest) = None.
Proof.
  induction l as [|a l IH]; intros t Ht Hc; [discriminate|].
  cbn [Js.contains_char] in Hc. apply orb_false_elim in Hc. destruct Hc as [Hca Hc].
  destruct t as [|d t].
  - change (EmptyString +:+ String c rest) with (String c rest).
    cbn [Regex.lit]. rewrite Ascii.eqb_sym, Hca. reflexivity.
  - change (String d t +:+ String c rest) with (String d (t +:+ String c rest)).
    cbn [Regex.lit] in *. destruct (Ascii.eqb a d); [|reflexivity].
    apply IH; assumption.
Qed.

Lemma lit_extend_inside {R : Type} a (l : string) (k : string -> option R) c rest d t :
  Regex.lit (String a l) (fun _ => Some tt) (String d t) = None ->
  Js.contains_char c l = false ->
  Regex.lit (String a l) k (String d t +:+ String c rest) = None.
Proof.
  intros Ht Hc.
  change (String d t +:+ String c rest) with (String d (t +:+ String c rest)).
  cbn [Regex.lit] in *. destruct (Ascii.eqb a d); [|reflexivity].
  apply lit_extend; assumption.
Qed.

Lemma includes_false l t :
  Regex.includes l t = false ->
  Regex.search (Regex.lit l (fun _ => Some tt)) t = None.
Proof.
  unfold Regex.includes.
  destruct (Regex.search (Regex.lit l (fun _ : string => Some ())) t) as [[]|];
    [discriminate|reflexivity].
Qed.

Lemma search_none_cons {R : Type} (m : string -> option R) d t :
  Regex.search m (String d t) = None ->
  m (String d t) = None /\ Regex.search m t = None.
Proof.
  cbn [Regex.search]. destruct (m (String d t)); [discriminate|]. auto.
Qed.

Lemma misses_absent {R : Type} a (l : string) (k : string -> option R) c rest t :
  Regex.includes (String a l) t = false ->
  Js.contains_char c l = false ->
  Text.misses (Regex.lit (String a l) k) (String c rest) t = true.
Proof.
  intros Ht Hc. apply includes_false in Ht.
  induction t as [|d t IH]; [reflexivity|].
  apply search_none_cons in Ht. destruct Ht as [Hhere Ht].
  cbn [Text.misses]. rewrite (lit_extend_inside a l k c rest d t Hhere Hc).
  apply IH, Ht.
Qed.

(** ** Reading a result block *)

Lemma single_shape target title snippet :
  Page.single target title snippet
  = Block.lead +:+ Block.opening +:+ Block.body target title snippet.
Proof.
  unfold Page.single, Page.result_block, Scraper.quoted.
  rewrite !append_assoc. reflexivity.
Qed.

Lemma escaped_char_inside_tag c :
  Text.escaped_char c = true -> Scraper.except ">" c = true.
Proof. destruct c as [[] [] [] [] [] [] [] []]; vm_compute; congruence. Qed.

Lemma escaped_char_no_quote c :
  Text.escaped_char c = true -> Scraper.except (ascii_of_N 34) c = true.
Proof. destruct c as [[] [] [] [] [] [] [] []]; vm_compute; congruence. Qed.

Lemma search_here {R : Type} (m : string -> option R) s x :
  m s = Some x -> Regex.search m s = Some x.
Proof. intros H. destruct s; cbn [Regex.search]; rewrite H; reflexivity. Qed.

Lemma lit_prefix {R : Type} (l : string) (k : string -> option R) rest :
  Regex.lit l k (l +:+ rest) = k rest.
Proof.
  induction l as [|c l IH]; [reflexivity|].
  change (String c l +:+ rest) with (String c (l +:+ rest)).
  cbn [Regex.lit]. rewrite Ascii.eqb_refl. exact IH.
Qed.

Lemma many_here {R : Type} p (k : string -> option R) c r x :
  p c = true ->
  Regex.many p k r = None ->
  k (String c r) = Some x ->
  Regex.many p k (String c r) = Some x.
Proof. intros Hc Hr Hk. cbn [Regex.many]. rewrite Hc, Hr. exact Hk. Qed.

Lemma href_of_body target title snippet :
  Scraper.href_of (Block.body target title snippet)
  = Some (Block.redirector +:+ Js.encodeURIComponent target +:+ Block.parameters).
Proof.
  pose proof (encoded_chars target) as Henc.
  unfold Scraper.href_of, Block.body.
  rewrite search_misses by (vm_compute; reflexivity).
  set (after := title +:+ _).
  set (enc := Js.encodeURIComponent target) in *.
  apply search_here.
  change ("class=" +:+ Scraper.quoted "result__a") with Block.link.
  rewrite lit_prefix.
  apply (many_greedy _ _ _ Block.to_href); [reflexivity|].
  change (Block.href +:+ Block.redirector +:+ enc +:+ Block.parameters
          +:+ Block.to_title +:+ after)
    with (String "h" (("ref=" +:+ Json.quote_mark +:+ Block.redirector)
                      +:+ enc +:+ String "&" ("amp;rut=abc" +:+ Block.to_title +:+ after))).
  apply many_here; [reflexivity| |].
  - rewrite many_misses by (vm_compute; reflexivity).
    rewrite many_misses.
    + reflexivity.
    + exact (every_weaken _ _ _ escaped_char_inside_tag Henc).
    + apply (misses_foreign _ _ Text.escaped_char); [exact Henc|reflexivity|reflexivity].
  - change (String "h" (("ref=" +:+ Json.quote_mark +:+ Block.redirector)
                      +:+ enc +:+ String "&" ("amp;rut=abc" +:+ Block.to_title +:+ after)))
      with (("href=" +:+ Json.quote_mark)
            +:+ String "/" ("/duckduckgo.com/l/?uddg=" +:+ enc +:+ Block.parameters
                             +:+ String (ascii_of_N 34) (">" +:+ after))).
    rewrite lit_prefix. unfold Regex.capture_many1.
    change (Scraper.except (ascii_of_N 34) "/") with true. cbv iota.
    apply capture_stops; [reflexivity|].
    apply capture_stops; [exact (every_weaken _ _ _ escaped_char_no_quote Henc)|].
    apply capture_stops; [reflexivity|].
    cbn [Regex.capture_many].
    change (Scraper.except (ascii_of_N 34) (ascii_of_N 34)) with false. cbv iota.
    change Json.quote_mark with (String (ascii_of_N 34) EmptyString).
    cbn [Regex.lit]. rewrite Ascii.eqb_refl.
    rewrite !append_assoc. reflexivity.
Qed.

Lemma inline_parts t :
  Page.inline t = true ->
  Text.free_of Json.quote_mark t = true
  /\ Regex.includes "</a>" t = false
  /\ Regex.includes "</span>" t = false
  /\ Regex.includes "</div>" t = false.
Proof.
  unfold Page.inline. intros H.
  apply andb_prop in H. destruct H as [H Hdiv].
  apply andb_prop in H. destruct H as [H Hspan].
  apply andb_prop in H. destruct H as [Hq Ha].
  repeat split; [exact Hq| | |];
    match goal with |- ?x = false => destruct x; [discriminate|reflexivity] end.
Qed.

Lemma many_stop {R : Type} p (k : string -> option R) c l rest :
  p c = false ->
  Regex.many p k (String c l +:+ rest) = k (String c l +:+ rest).
Proof.
  intros H. change (String c l +:+ rest) with (String c (l +:+ rest)).
  cbn [Regex.many]. rewrite H. reflexivity.
Qed.

Lemma title_of_body target title snippet :
  Page.inline title = true ->
  Scraper.title_of (Block.body target title snippet) = Some title.
Proof.
  intros Htitle. apply inline_parts in Htitle. destruct Htitle as (_ & Ha & _).
  pose proof (encoded_chars target) as Henc.
  unfold Scraper.title_of, Block.body.
  rewrite search_misses by (vm_compute; reflexivity).
  set (after := Block.snippet_class +:+ _).
  set (enc := Js.encodeURIComponent target) in *.
  apply search_here.
  change ("class=" +:+ Scraper.quoted "result__a") with Block.link.
  rewrite lit_prefix.
  change (Block.to_href +:+ Block.href +:+ Block.redirector +:+ enc
          +:+ Block.parameters +:+ Block.to_title +:+ title
          +:+ Block.to_snippet_class +:+ after)
    with ((Block.to_href +:+ Block.href +:+ Block.redirector) +:+ enc
          +:+ (Block.parameters +:+ Json.quote_mark)
          +:+ ">" +:+ title +:+ String "<" ("/a><a " +:+ after)).
  apply many_greedy; [reflexivity|].
  apply many_greedy; [exact (every_weaken _ _ _ escaped_char_inside_tag Henc)|].
  apply many_greedy; [reflexivity|].
  rewrite many_stop by reflexivity.
  rewrite (lit_prefix ">").
  rewrite few_misses.
  - cbn [Regex.capture_few Regex.lit]. reflexivity.
  - intros seen. apply misses_absent; [exact Ha|reflexivity].
Qed.

(** The three closing tags that end a snippet. *)
Lemma closing_none {R : Type} (k : string -> option R) s :
  Regex.lit "</a>" k s = None ->
  Regex.lit "</span>" k s = None ->
  Regex.lit "</div>" k s = None ->
  Regex.lit "</"
    (fun s =>
       Regex.orelse (Regex.lit "a" (Regex.lit ">" k) s)
         (Regex.orelse (Regex.lit "span" (Regex.lit ">" k) s)
            (Regex.lit "div" (Regex.lit ">" k) s))) s = None.
Proof.
  destruct s as [|a [|b s]]; cbn [Regex.lit]; try reflexivity.
  - destruct (Ascii.eqb "<" a); reflexivity.
  - destruct (Ascii.eqb "<" a); [|reflexivity].
    destruct (Ascii.eqb "/" b); [|reflexivity].
    intros Ha Hspan Hdiv.
    change (Regex.lit "a" (Regex.lit ">" k) s) with (Regex.lit "a>" k s).
    change (Regex.lit "span" (Regex.lit ">" k) s) with (Regex.lit "span>" k s).
    change (Regex.lit "div" (Regex.lit ">" k) s) with (Regex.lit "div>" k s).
    cbn [Regex.lit]. cbn [Regex.lit] in Ha, Hspan, Hdiv.
    rewrite Ha, Hspan, Hdiv. reflexivity.
Qed.

Lemma misses_closing {R : Type} (k : string -> option R) rest t :
  Regex.includes "</a>" t = false ->
  Regex.includes "</span>" t = false ->
  Regex.includes "</div>" t = false ->
  Text.misses
    (Regex.lit "</"
       (fun s =>
          Regex.orelse (Regex.lit "a" (Regex.lit ">" k) s)
            (Regex.orelse (Regex.lit "span" (Regex.lit ">" k) s)
               (Regex.lit "div" (Regex.lit ">" k) s))))
    (String "<" rest) t = true.
Proof.
  intros Ha Hspan Hdiv.
  apply includes_false in Ha. apply includes_false in Hspan.
  apply includes_false in Hdiv.
  induction t as [|d t IH]; [reflexivity|].
  apply search_none_cons in Ha. destruct Ha as [Ha Ha'].
  apply search_none_cons in Hspan. destruct Hspan as [Hspan Hspan'].
  apply search_none_cons in Hdiv. destruct Hdiv as [Hdiv Hdiv'].
  cbn [Text.misses]. rewrite closing_none.
  - apply IH; assumption.
  - apply lit_extend_inside; [exact Ha|reflexivity].
  - apply lit_extend_inside; [exact Hspan|reflexivity].
  - apply lit_extend_inside; [exact Hdiv|reflexivity].
Qed.

Lemma snippet_of_body target title snippet :
  Page.inline title = true ->
  Page.inline snippet = true ->
  Scraper.snippet_of (Block.body target title snippet) = Some snippet.
Proof.
  intros Htitle Hsnippet.
  apply inline_parts in Htitle. destruct Htitle as (Hq & _).
  apply inline_parts in Hsnippet. destruct Hsnippet as (_ & Ha & Hspan & Hdiv).
  pose proof (encoded_chars target) as Henc.
  unfold Scraper.snippet_of, Block.body.
  set (enc := Js.encodeURIComponent target) in *.
  set (m := Regex.lit _ _).
  change (Block.to_link +:+ Block.link +:+ Block.to_href +:+ Block.href
          +:+ Block.redirector +:+ enc +:+ Block.parameters +:+ Block.to_title
          +:+ title +:+ Block.to_snippet_class +:+ Block.snippet_class
          +:+ Block.to_snippet +:+ snippet +:+ Block.ending)
    with ((Block.to_link +:+ Block.link +:+ Block.to_href +:+ Block.href
           +:+ Block.redirector)
          +:+ enc
          +:+ (Block.parameters +:+ Block.to_title)
          +:+ title
          +:+ Block.to_snippet_class
          +:+ Block.snippet_class +:+ Block.to_snippet +:+ snippet +:+ Block.ending).
  rewrite search_misses by (vm_compute; reflexivity).
  rewrite search_misses
    by (apply (misses_foreign _ _ Text.escaped_char); [exact Henc|reflexivity|reflexivity]).
  rewrite search_misses by (vm_compute; reflexivity).
  rewrite search_misses
    by (apply (misses_foreign _ _ (fun c => negb (Js.contains_char c Json.quote_mark)));
        [exact Hq|reflexivity|reflexivity]).
  rewrite search_misses by (vm_compute; reflexivity).
  apply search_here. subst m.
  change ("class=" +:+ Scraper.quoted "result__snippet") with Block.snippet_class.
  rewrite lit_prefix.
  change (Block.to_snippet +:+ snippet +:+ Block.ending)
    with ((" href=" +:+ Scraper.quoted "#")
          +:+ ">" +:+ snippet +:+ String "<" "/a></div></body></html>").
  apply many_greedy; [reflexivity|].
  rewrite many_stop by reflexivity.
  rewrite (lit_prefix ">").
  rewrite few_misses.
  - cbn [Regex.capture_few Regex.lit]. reflexivity.
  - intros seen. apply misses_closing; assumption.
Qed.

(** ** The split into blocks *)

Lemma search_step {R : Type} (m : string -> option R) c l rest :
  m (String c l +:+ rest) = None ->
  Regex.search m (String c l +:+ rest) = Regex.search m (l +:+ rest).
Proof.
  change (String c l +:+ rest) with (String c (l +:+ rest)).
  intros H. cbn [Regex.search]. rewrite H. reflexivity.
Qed.

Lemma block_start_without_gap rest :
  Text.ws_at rest = false ->
  Scraper.block_start (("class=" +:+ Json.quote_mark +:+ "result") +:+ rest) = None.
Proof.
  intros H. unfold Scraper.block_start. rewrite lit_prefix.
  unfold Regex.spaces1. rewrite (spaces_none _ rest H), Nat.ltb_irrefl. reflexivity.
Qed.

Lemma block_start_opening rest :
  Scraper.block_start (Block.opening +:+ rest) = Some rest.
Proof.
  change (Block.opening +:+ rest)
    with (("class=" +:+ Json.quote_mark +:+ "result")
          +:+ String " " ("results_links" +:+ rest)).
  unfold Scraper.block_start. rewrite lit_prefix.
  unfold Regex.spaces1.
  apply (spaces_greedy _ (String.length (String " " ("results_links" +:+ rest))));
    [lia|].
  change (Js.trimStart (String " " ("results_links" +:+ rest)))
    with ("results_links" +:+ rest).
  replace (String.length ("results_links" +:+ rest)
           <? String.length (String " " ("results_links" +:+ rest)))%nat with true
    by (symmetry; apply Nat.ltb_lt; cbn [String.length]; lia).
  apply lit_prefix.
Qed.

Lemma split_match m c a rest piece :
  m (String c a +:+ rest) = Some rest ->
  Regex.split_from m 0 piece (String c a +:+ rest)
  = piece :: Regex.split_from m 0 EmptyString rest.
Proof.
  intros H. pose proof (length_append (String c a) rest) as Hlen.
  change (String c a +:+ rest) with (String c (a +:+ rest)) in *.
  cbn [Regex.split_from]. rewrite H.
  replace (String.length (String c (a +:+ rest)) - String.length rest - 1)%nat
    with (String.length a) by (rewrite Hlen; cbn [String.length]; lia).
  rewrite split_skip. reflexivity.
Qed.

Lemma no_block_in_body target title snippet :
  Page.inline title = true ->
  Page.inline snippet = true ->
  Regex.search Scraper.block_start (Block.body target title snippet) = None.
Proof.
  intros Htitle Hsnippet.
  apply inline_parts in Htitle. destruct Htitle as (Hqt & _).
  apply inline_parts in Hsnippet. destruct Hsnippet as (Hqs & _).
  pose proof (encoded_chars target) as Henc.
  unfold Block.body.
  set (enc := Js.encodeURIComponent target) in *.
  change (Block.to_link +:+ Block.link +:+ Block.to_href +:+ Block.href
          +:+ Block.redirector +:+ enc +:+ Block.parameters +:+ Block.to_title
          +:+ title +:+ Block.to_snippet_class +:+ Block.snippet_class
          +:+ Block.to_snippet +:+ snippet +:+ Block.ending)
    with (Block.to_link
          +:+ String "c" ("lass=" +:+ Scraper.quoted "result__a" +:+ Block.to_href
                          +:+ Block.href +:+ Block.redirector)
          +:+ enc
          +:+ (Block.parameters +:+ Block.to_title)
          +:+ title
          +:+ Block.to_snippet_class
          +:+ String "c" ("lass=" +:+ Scraper.quoted "result__snippet"
                          +:+ Block.to_snippet)
          +:+ snippet +:+ Block.ending).
  rewrite search_misses by (vm_compute; reflexivity).
  rewrite search_step by (apply block_start_without_gap; reflexivity).
  rewrite search_misses by (vm_compute; reflexivity).
  rewrite search_misses
    by (apply (misses_foreign _ _ Text.escaped_char); [exact Henc|reflexivity|reflexivity]).
  rewrite search_misses by (vm_compute; reflexivity).
  rewrite search_misses
    by (apply (misses_foreign _ _ (fun c => negb (Js.contains_char c Json.quote_mark)));
        [exact Hqt|reflexivity|reflexivity]).
  rewrite search_misses by (vm_compute; reflexivity).
  rewrite search_step by (apply block_start_without_gap; reflexivity).
  rewrite search_misses by (vm_compute; reflexivity).
  rewrite search_misses
    by (apply (misses_foreign _ _ (fun c => negb (Js.contains_char c Json.quote_mark)));
        [exact Hqs|reflexivity|reflexivity]).
  reflexivity.
Qed.

Lemma blocks_of_single target title snippet :
  Page.inline title = true ->
  Page.inline snippet = true ->
  Scraper.blocks (Page.single target title snippet)
  = [Block.body target title snippet].
Proof.
  intros Htitle Hsnippet.
  unfold Scraper.blocks, Regex.split. rewrite single_shape.
  rewrite split_misses by (vm_compute; reflexivity).
  rewrite (split_match _ "c" _ _ _ (block_start_opening _)).
  rewrite (split_without_match _ _ _ (no_block_in_body _ _ _ Htitle Hsnippet)).
  reflexivity.
Qed.

Lemma link_of_body target :
  target <> EmptyString ->
  Uri.well_formed target = true ->
  Scraper.extractDdgUrl
    (Block.redirector +:+ Js.encodeURIComponent target +:+ Block.parameters)
  = Fulfilled target.
Proof.
  intros Hne Hwf. unfold Scraper.extractDdgUrl.
  change (Block.redirector +:+ Js.encodeURIComponent target +:+ Block.parameters)
    with ("//duckduckgo.com/l/" +:+ "?uddg=" +:+ Js.encodeURIComponent target
          +:+ Block.parameters).
  rewrite (uddg_found "//duckduckgo.com/l/" target Block.parameters eq_refl Hne).
  - apply decode_encode, Hwf.
  - right. eexists. reflexivity.
Qed.

Lemma single_parsed target title snippet :
  target <> EmptyString ->
  Uri.well_formed target = true ->
  Regex.includes "duckduckgo.com" target = false ->
  Page.inline title = true ->
  Page.inline snippet = true ->
  Scraper.stripHtml title <> EmptyString ->
  Scraper.parse_results (Page.single target title snippet)
  = Fulfilled [ {| Search.title := Scraper.stripHtml title;
                   Search.url := target;
                   Search.snippet := Scraper.stripHtml snippet |} ].
Proof.
  intros Hne Hwf Hout Htitle Hsnippet Hshown.
  unfold Scraper.parse_results.
  rewrite (blocks_of_single target title snippet Htitle Hsnippet).
  cbn [Scraper.collect length Nat.leb].
  rewrite href_of_body, (title_of_body _ _ _ Htitle),
    (snippet_of_body _ _ _ Htitle Hsnippet), (link_of_body target Hne Hwf).
  cbv zeta. rewrite Hout.
  destruct (Scraper.stripHtml title) as [|c t] eqn:E; [contradiction|].
  destruct target as [|d target']; [contradiction|].
  reflexivity.
Qed.

(** X18. A result block written the way the search engine writes it is
    read back: from a page with one block whose link goes through the
    redirector to [target], whose title is the markup [title] and whose
    snippet is the markup [snippet], the scraper returns one result, with
    the target itself as address and the title and the snippet stripped
    of their markup. This holds for every target that is not empty, is
    well-formed UTF-8 and does not contain [duckduckgo.com], and for
    every title and snippet without a double quote and without [</a>],
    [</span>] and [</div>], when the stripped title is not empty. *)
Theorem result_block_is_read_back (target title snippet : string) :
  target <> EmptyString ->
  Uri.well_formed target = true ->
  Regex.includes "duckduckgo.com" target = false ->
  Page.inline title = true ->
  Page.inline snippet = true ->
  Scraper.stripHtml title <> EmptyString ->
  Scraper.parse_results (Page.single target title snippet)
  = Fulfilled [ {| Search.title := Scraper.stripHtml title;
                   Search.url := target;
                   Search.snippet := Scraper.stripHtml snippet |} ].
Proof. exact (single_parsed target title snippet). Qed.

Lemma result_block_is_read_back_witness :
  Scraper.parse_results
    (Page.single "https://ex.com/a b?x=1&y=é"
       "<b>Bit</b>coin &amp;  friends" "x &lt; y <b>z</b>")
  = Fulfilled [ {| Search.title := "Bitcoin & friends";
                   Search.url := "https://ex.com/a b?x=1&y=é";
                   Search.snippet := "x < y z" |} ].
Proof.
  apply (result_block_is_read_back "https://ex.com/a b?x=1&y=é"
           "<b>Bit</b>coin &amp;  friends" "x &lt; y <b>z</b>");
    first [reflexivity | discriminate].
Defined.

Lemma live_success (w : World) (query : string) (response : HttpResponse)
    (html : string) (r : Search.SearchResult) (rs : list Search.SearchResult) :
  SearchExec.provider (env w) <> "stub" ->
  fetch w (SearchExec.live_request query) = Fulfilled response ->
  ok response = true ->
  text response = Fulfilled html ->
  scrape w html = Fulfilled (r :: rs) ->
  SearchExec.executeSearch query w
  = ({| Search.results := r :: rs; Search.mode := Search.duckduckgo |},
     [ Fetch (SearchExec.live_request query) ]).
Proof.
  intros Hlive Hfetch Hok Htext Hscrape.
  unfold SearchExec.executeSearch, SearchExec.searchDuckDuckGo.
  run_eff.
  destruct (String.eqb (SearchExec.provider (env w)) "stub") eqn:E.
  { apply String.eqb_eq in E. contradiction. }
  rewrite Hfetch. cbv beta iota. rewrite Hok, Htext. cbn [negb]. cbv beta iota.
  rewrite Hscrape. reflexivity.
Qed.

(** X19. Under the live strategy, when the search engine answers with a
    success status and a page from which at least one result is scraped,
    [executeSearch] resolves to exactly the scraped results, tagged
    [duckduckgo], after the one request to the search engine and without
    logging anything. *)
Theorem live_results_are_passed_on (w : World) (query : string)
    (response : HttpResponse) (html : string)
    (r : Search.SearchResult) (rs : list Search.SearchResult) :
  SearchExec.provider (env w) <> "stub" ->
  fetch w (SearchExec.live_request query) = Fulfilled response ->
  ok response = true ->
  text response = Fulfilled html ->
  scrape w html = Fulfilled (r :: rs) ->
  SearchExec.executeSearch query w
  = ({| Search.results := r :: rs; Search.mode := Search.duckduckgo |},
     [ Fetch (SearchExec.live_request query) ]).
Proof. exact (live_success w query response html r rs). Qed.

Lemma live_results_are_passed_on_witness :
  SearchExec.executeSearch "bitcoin"
    (Live.world (Live.page (Page.single "https://bitcoin.org/en/" "<b>Bitcoin</b>"
                              "Open source P2P money")))
  = ({| Search.results := [ {| Search.title := "Bitcoin";
                               Search.url := "https://bitcoin.org/en/";
                               Search.snippet := "Open source P2P money" |} ];
        Search.mode := Search.duckduckgo |},
     [ Fetch (SearchExec.live_request "bitcoin") ]).
Proof.
  apply (live_results_are_passed_on
           (Live.world (Live.page (Page.single "https://bitcoin.org/en/"
                                     "<b>Bitcoin</b>" "Open source P2P money")))
           "bitcoin"
           {| status := 200;
              text := Fulfilled (Page.single "https://bitcoin.org/en/"
                                   "<b>Bitcoin</b>" "Open source P2P money");
              json := Rejected "Unexpected token < in JSON at position 0" |}
           (Page.single "https://bitcoin.org/en/" "<b>Bitcoin</b>"
              "Open source P2P money")).
  - vm_compute. discriminate.
  - reflexivity.
  - reflexivity.
  - reflexivity.
  - vm_compute. reflexivity.
Defined.
